(** * Oncology trial pipeline: feature engineering and model selection

    A shallow embedding of the two analysis notebooks of the repository
    (feature engineering and model training) together with the small
    part of pandas they rely on and with the way Python reads the
    string literals of a cell, and the properties of the specification
    that are stated about them.

    Numbers held in [int64]/[float64] columns are modelled as exact
    rationals ([Q]) with [None] for NaN; timestamps of [datetime64[ns]]
    columns as integer nanoseconds since the Unix epoch with [None] for
    NaT; text as [string], holding the UTF-8 encoding of the characters,
    with [None] for a missing value. *)

From Stdlib Require Import String Ascii Bool Arith ZArith QArith Qround Lia Lqa.
From Stdlib Require Import List.
Import ListNotations.

Local Close Scope Q_scope.
Local Open Scope nat_scope.
Local Open Scope string_scope.
Local Open Scope list_scope.

(* ================================================================== *)
(** * Exceptions and the error monad *)
(* ================================================================== *)

Inductive exn : Type :=
| FileNotFoundError
| KeyError
| IndexError
| AttributeError
| ValueError
| NameError
| SyntaxError
| EmptyDataError.

Inductive result (A : Type) : Type :=
| Ok (a : A)
| Raise (e : exn).

Arguments Ok {A} a.
Arguments Raise {A} e.

Definition bind {A B : Type} (r : result A) (k : A -> result B) : result B :=
  match r with
  | Ok a => k a
  | Raise e => Raise e
  end.

Notation "x <- c ;; k" := (bind c (fun x => k))
  (at level 61, c at next level, right associativity).
Notation "c ;;; k" := (bind c (fun _ => k))
  (at level 61, right associativity).

(* ================================================================== *)
(** * The pandas fragment used by the notebooks *)
(* ================================================================== *)

Module Pandas.

(** ** Columns and frames *)

Inductive column : Type :=
| NumCol (xs : list (option Q))        (* int64 / float64 *)
| ObjCol (xs : list (option string))   (* object (text) *)
| DateCol (xs : list (option Z)).      (* datetime64[ns] *)

(** A frame keeps its columns in order, as pandas does. *)
Definition DataFrame : Type := list (string * column).

Definition col_length (c : column) : nat :=
  match c with
  | NumCol xs => length xs
  | ObjCol xs => length xs
  | DateCol xs => length xs
  end.

Definition columns (df : DataFrame) : list string := map fst df.

(** [col in df.columns] *)
Definition has_column (col : string) (df : DataFrame) : bool :=
  existsb (String.eqb col) (columns df).

(** [df.get(col)] *)
Fixpoint get_column (col : string) (df : DataFrame) : option column :=
  match df with
  | [] => None
  | (n, c) :: rest => if String.eqb col n then Some c else get_column col rest
  end.

(** [df[col]], which raises [KeyError] on an absent label *)
Definition getitem (col : string) (df : DataFrame) : result column :=
  match get_column col df with
  | Some c => Ok c
  | None => Raise KeyError
  end.

(** [df[col] = c]: overwrite in place, or append a new last column *)
Fixpoint setitem (col : string) (c : column) (df : DataFrame) : DataFrame :=
  match df with
  | [] => [(col, c)]
  | (n, c') :: rest =>
      if String.eqb col n then (n, c) :: rest
      else (n, c') :: setitem col c rest
  end.

(** ** Missing values *)

Definition isnull {A : Type} (x : option A) : bool :=
  match x with
  | None => true
  | Some _ => false
  end.

(** [s.isnull().sum()] *)
Definition null_count {A : Type} (xs : list (option A)) : nat :=
  length (filter isnull xs).

Fixpoint dropna {A : Type} (xs : list (option A)) : list A :=
  match xs with
  | [] => []
  | Some x :: rest => x :: dropna rest
  | None :: rest => dropna rest
  end.

(** [s.fillna(v)]; filling with NaN leaves the series as it is *)
Definition fillna {A : Type} (v : option A) (xs : list (option A))
  : list (option A) :=
  map (fun x => match x with Some a => Some a | None => v end) xs.

(** ** Median of a numeric series (NaN skipped) *)

Fixpoint insert_asc (x : Q) (l : list Q) : list Q :=
  match l with
  | [] => [x]
  | y :: rest => if Qle_bool x y then x :: l else y :: insert_asc x rest
  end.

Definition sort_asc (l : list Q) : list Q := fold_right insert_asc [] l.

Definition median (xs : list (option Q)) : option Q :=
  let v := sort_asc (dropna xs) in
  let n := length v in
  match n with
  | O => None
  | _ =>
      if Nat.odd n then nth_error v (n / 2)
      else Some ((nth (n / 2 - 1) v 0 + nth (n / 2) v 0) / 2)%Q
  end.

(** ** Mode of a text series: [s.mode()] lists the most frequent values
    in ascending order *)

Definition count (s : string) (v : list string) : nat :=
  length (filter (String.eqb s) v).

Definition max_count (v : list string) : nat :=
  fold_right Nat.max 0 (map (fun s => count s v) v).

Definition most_frequent (v : list string) : list string :=
  filter (fun s => Nat.eqb (count s v) (max_count v)) v.

Fixpoint smallest (v : list string) : option string :=
  match v with
  | [] => None
  | s :: rest =>
      match smallest rest with
      | None => Some s
      | Some t => if String.leb s t then Some s else Some t
      end
  end.

(** [s.mode()[0]], an error on a series without any value *)
Definition mode0 (xs : list (option string)) : result string :=
  match smallest (most_frequent (dropna xs)) with
  | Some s => Ok s
  | None => Raise KeyError
  end.

(** ** Strings *)

(** [pat in s]; the patterns of the notebook hold no regex operator *)
Fixpoint contains (pat s : string) : bool :=
  if String.prefix pat s then true
  else match s with
       | EmptyString => false
       | String _ s' => contains pat s'
       end.

Definition startswith (p s : string) : bool := String.prefix p s.

(** A byte of the form 10xxxxxx: in UTF-8 it continues a character
    begun by an earlier byte. *)
Definition is_continuation (b : ascii) : bool :=
  match b with
  | Ascii _ _ _ _ _ _ b6 b7 => b7 && negb b6
  end.

(** [len(s)]: the number of characters of a text, each of which has
    exactly one byte that is not a continuation. *)
Fixpoint len (s : string) : nat :=
  match s with
  | EmptyString => 0
  | String b rest => if is_continuation b then len rest else S (len rest)
  end.

Definition endswith (suf s : string) : bool :=
  let n := String.length s in
  let m := String.length suf in
  Nat.leb m n && String.eqb (String.substring (n - m) m s) suf.

(** [s.str.contains(pat, na=False).astype(int)]; the [.str] accessor is
    refused on a column that is not text *)
Definition bool_to_int (b : bool) : option Q :=
  Some (if b then 1 else 0)%Q.

Definition str_contains_int (pat : string) (c : column) : result column :=
  match c with
  | ObjCol xs =>
      Ok (NumCol (map (fun x => match x with
                                | Some s => bool_to_int (contains pat s)
                                | None => bool_to_int false
                                end) xs))
  | _ => Raise AttributeError
  end.

(** [(s == v).astype(int)]: a cell that is not that string compares
    unequal *)
Definition eq_str_mask (v : string) (c : column) : list bool :=
  match c with
  | ObjCol xs => map (fun x => match x with
                               | Some s => String.eqb s v
                               | None => false
                               end) xs
  | NumCol xs => map (fun _ => false) xs
  | DateCol xs => map (fun _ => false) xs
  end.

(** [s.isin(vs)] *)
Definition isin_mask (vs : list string) (c : column) : list bool :=
  match c with
  | ObjCol xs => map (fun x => match x with
                               | Some s => existsb (String.eqb s) vs
                               | None => false
                               end) xs
  | NumCol xs => map (fun _ => false) xs
  | DateCol xs => map (fun _ => false) xs
  end.

Definition mask_to_int (m : list bool) : column := NumCol (map bool_to_int m).

(** ** Boolean indexing: [df[mask]] *)

Fixpoint mask_filter {A : Type} (m : list bool) (xs : list A) : list A :=
  match m, xs with
  | b :: m', x :: xs' => if b then x :: mask_filter m' xs' else mask_filter m' xs'
  | _, _ => []
  end.

Definition filter_column (m : list bool) (c : column) : column :=
  match c with
  | NumCol xs => NumCol (mask_filter m xs)
  | ObjCol xs => ObjCol (mask_filter m xs)
  | DateCol xs => DateCol (mask_filter m xs)
  end.

Definition filter_rows (m : list bool) (df : DataFrame) : DataFrame :=
  map (fun nc => (fst nc, filter_column m (snd nc))) df.

(** [df[cols]] for a list of labels *)
Fixpoint select_columns (cols : list string) (df : DataFrame)
  : result DataFrame :=
  match cols with
  | [] => Ok []
  | c :: rest =>
      v <- getitem c df ;;
      r <- select_columns rest df ;;
      Ok ((c, v) :: r)
  end.

(** [df[cols].describe()] refuses a frame without columns *)
Definition describe (cols : list string) : result unit :=
  match cols with
  | [] => Raise ValueError
  | _ => Ok tt
  end.

(** ** Timestamps *)

Definition NS_PER_DAY : Z := 86400000000000.

(** Days since 1970-01-01 of a timestamp (floor). *)
Definition days_since_epoch (ts : Z) : Z := (ts / NS_PER_DAY)%Z.

(** Proleptic Gregorian date (year, month, day) of a day number. *)
Definition civil_from_days (d : Z) : Z * Z * Z :=
  let z := (d + 719468)%Z in
  let era := (z / 146097)%Z in
  let doe := (z - era * 146097)%Z in
  let yoe := ((doe - doe / 1460 + doe / 36524 - doe / 146096) / 365)%Z in
  let y := (yoe + era * 400)%Z in
  let doy := (doe - (365 * yoe + yoe / 4 - yoe / 100))%Z in
  let mp := ((5 * doy + 2) / 153)%Z in
  let dd := (doy - (153 * mp + 2) / 5 + 1)%Z in
  let m := (if (mp <? 10)%Z then mp + 3 else mp - 9)%Z in
  ((if (m <=? 2)%Z then y + 1 else y)%Z, m, dd).

Definition dt_year (ts : Z) : Z := fst (fst (civil_from_days (days_since_epoch ts))).
Definition dt_month (ts : Z) : Z := snd (fst (civil_from_days (days_since_epoch ts))).
Definition dt_quarter (ts : Z) : Z := ((dt_month ts - 1) / 3 + 1)%Z.

(** [s.dt.year] and the like: NaT gives NaN *)
Definition dt_field (f : Z -> Z) (xs : list (option Z)) : column :=
  NumCol (map (option_map (fun ts => inject_Z (f ts))) xs).

(** [(a - b).dt.days]: whole days of the difference, rounded down *)
Definition sub_days (a b : option Z) : option Q :=
  match a, b with
  | Some x, Some y => Some (inject_Z ((x - y) / NS_PER_DAY))
  | _, _ => None
  end.

Fixpoint timedelta_days (a b : list (option Z)) : list (option Q) :=
  match a, b with
  | x :: a', y :: b' => sub_days x y :: timedelta_days a' b'
  | _, _ => []
  end.

(** ** Conversions left to pandas

    Parsing of text into numbers and dates and printing of values are
    pandas' own; the notebooks only call them. *)

Class Conversions : Type := {
  (** [pd.to_numeric(errors='coerce')] on one text cell *)
  parse_number : string -> option Q;
  (** [pd.to_datetime(errors='coerce')] on a text column whose dates
      carry no UTC offset: the timestamps of a [datetime64[ns]] column,
      NaT for what cannot be parsed.  Dates with UTC offsets are not
      covered: pandas then hands back a column with a time zone or,
      for differing offsets, a column of objects, and the cell that
      reads the dates can stop with an error of [.dt] or of the
      subtraction. *)
  to_datetime_text : list (option string) -> list (option Z);
  to_datetime_text_length :
    forall xs, length (to_datetime_text xs) = length xs;
  (** [pd.to_datetime(errors='coerce')] on one number *)
  to_datetime_number : Q -> option Z;
  (** [str(v)] of a number of the column with the given label, as the
      type of that column prints it ([5] in an [int64] column, [5.0]
      in a [float64] column), and of a timestamp *)
  str_of_number : string -> Q -> string;
  str_of_timestamp : Z -> string
}.

Section WithConversions.
Context {conv : Conversions}.

(** [pd.to_numeric(s, errors='coerce')] *)
Definition to_numeric (c : column) : column :=
  match c with
  | NumCol xs => NumCol xs
  | ObjCol xs =>
      NumCol (map (fun x => match x with
                            | Some s => parse_number s
                            | None => None
                            end) xs)
  | DateCol xs =>
      (* timestamps are read as their int64 nanoseconds, NaT as the
         smallest int64 *)
      NumCol (map (fun x => match x with
                            | Some ts => Some (inject_Z ts)
                            | None => Some (inject_Z (- 2 ^ 63))
                            end) xs)
  end.

(** [pd.to_datetime(s, errors='coerce')] *)
Definition to_datetime (c : column) : column :=
  match c with
  | DateCol xs => DateCol xs
  | ObjCol xs => DateCol (to_datetime_text xs)
  | NumCol xs =>
      DateCol (map (fun x => match x with
                             | Some q => to_datetime_number q
                             | None => None
                             end) xs)
  end.

(** [df[col].fillna('').astype(str).apply(len)] *)
Definition text_length (col : string) (c : column) : column :=
  let length_of (s : string) : option Q := Some (inject_Z (Z.of_nat (len s))) in
  match c with
  | ObjCol xs => NumCol (map (fun x => match x with
                                       | Some s => length_of s
                                       | None => length_of ""
                                       end) xs)
  | NumCol xs => NumCol (map (fun x => match x with
                                       | Some q => length_of (str_of_number col q)
                                       | None => length_of ""
                                       end) xs)
  | DateCol xs => NumCol (map (fun x => match x with
                                        | Some ts => length_of (str_of_timestamp ts)
                                        | None => length_of ""
                                        end) xs)
  end.

End WithConversions.

End Pandas.

(* ================================================================== *)
(** * Notebook 2: feature engineering *)
(* ================================================================== *)

Module FeatureEngineering.
Import Pandas.

(** ** Load Data *)

(** A file of the processed-data directory: its name, its modification
    time and what [pd.read_csv] makes of it, which is the table the
    file holds or the error raised on a file that holds none (on a
    file without any content that is [EmptyDataError]). *)
Record file : Type := {
  name : string;
  st_mtime : Z;
  contents : result DataFrame
}.

(** [glob("processed_oncology_trials_*.csv")] *)
Definition matches_pattern (n : string) : bool :=
  startswith "processed_oncology_trials_" n
  && endswith ".csv" n
  && Nat.leb (String.length "processed_oncology_trials_" + String.length ".csv")
             (String.length n).

(** [csv_files.sort(key=lambda x: x.stat().st_mtime, reverse=True)]:
    a stable sort, most recent first *)
Fixpoint insert_by_mtime (f : file) (l : list file) : list file :=
  match l with
  | [] => [f]
  | g :: rest =>
      if (st_mtime f <? st_mtime g)%Z then g :: insert_by_mtime f rest
      else f :: l
  end.

Definition sort_by_mtime_desc (l : list file) : list file :=
  fold_right insert_by_mtime [] l.

Definition load_data (dir : list file) : result DataFrame :=
  let csv_files := filter (fun f => matches_pattern (name f)) dir in
  match csv_files with
  | [] => Raise FileNotFoundError
  | _ =>
      match sort_by_mtime_desc csv_files with
      | latest :: _ => contents latest
      | [] => Raise IndexError
      end
  end.

Section Transform.
Context {conv : Conversions}.

(** ** Data Preparation *)

(** [df.select_dtypes(include=['int64', 'float64']).columns] *)
Definition numeric_cols (df : DataFrame) : list string :=
  columns (filter (fun nc => match snd nc with NumCol _ => true | _ => false end) df).

(** [df.select_dtypes(include=['object']).columns] *)
Definition categorical_cols (df : DataFrame) : list string :=
  columns (filter (fun nc => match snd nc with ObjCol _ => true | _ => false end) df).

(** Body of the loop over [numeric_cols]. *)
Definition fill_numeric (df : DataFrame) (col : string) : DataFrame :=
  match get_column col df with
  | Some (NumCol xs) =>
      if Nat.ltb 0 (null_count xs) then
        let median_value := median xs in
        setitem col (NumCol (fillna median_value xs)) df
      else df
  | _ => df
  end.

(** Body of the loop over [categorical_cols]. *)
Definition fill_categorical (df : DataFrame) (col : string) : result DataFrame :=
  match get_column col df with
  | Some (ObjCol xs) =>
      if Nat.ltb 0 (null_count xs) then
        mode_value <- mode0 xs ;;
        Ok (setitem col (ObjCol (fillna (Some mode_value) xs)) df)
      else Ok df
  | _ => Ok df
  end.

Fixpoint for_each {A S : Type} (body : S -> A -> result S) (l : list A) (s : S)
  : result S :=
  match l with
  | [] => Ok s
  | a :: rest => s' <- body s a ;; for_each body rest s'
  end.

Definition data_preparation (df : DataFrame) : result DataFrame :=
  enrollment <- getitem "EnrollmentCount" df ;;
  let df_clean := setitem "EnrollmentCount" (to_numeric enrollment) df in
  let df_clean := fold_left fill_numeric (numeric_cols df_clean) df_clean in
  for_each fill_categorical (categorical_cols df_clean) df_clean.

(** ** Temporal Features *)

Definition date_columns : list string :=
  ["StartDate"; "CompletionDate"; "PrimaryCompletionDate"].

Definition convert_date (df : DataFrame) (col : string) : DataFrame :=
  match get_column col df with
  | Some c => setitem col (to_datetime c) df
  | None => df
  end.

(** The [.dt] accessor, refused on a column that holds no timestamps. *)
Definition dt (c : column) : result (list (option Z)) :=
  match c with
  | DateCol xs => Ok xs
  | _ => Raise AttributeError
  end.

(** [df.loc[df[c] < 0, c] = np.nan] *)
Definition Qlt_bool (x y : Q) : bool := negb (Qle_bool y x).

Definition negative_to_nan (xs : list (option Q)) : list (option Q) :=
  map (fun x => match x with
                | Some d => if Qlt_bool d 0 then None else Some d
                | None => None
                end) xs.

Definition start_features (df : DataFrame) : result DataFrame :=
  if has_column "StartDate" df then
    c <- getitem "StartDate" df ;;
    ts <- dt c ;;
    let df := setitem "start_year" (dt_field dt_year ts) df in
    let df := setitem "start_month" (dt_field dt_month ts) df in
    let df := setitem "start_quarter" (dt_field dt_quarter ts) df in
    Ok df
  else Ok df.

Definition duration_feature (df : DataFrame) : result DataFrame :=
  if negb (has_column "trial_duration_days" df) && has_column "CompletionDate" df then
    completion <- getitem "CompletionDate" df ;;
    start <- getitem "StartDate" df ;;
    c <- dt completion ;;
    s <- dt start ;;
    let days := timedelta_days c s in
    let days := negative_to_nan days in
    let median_duration := median days in
    Ok (setitem "trial_duration_days" (NumCol (fillna median_duration days)) df)
  else Ok df.

Definition temporal_features (df : DataFrame) : list string :=
  filter (fun col => startswith "start_" col || String.eqb col "trial_duration_days")
         (columns df).

Definition temporal_cell (df : DataFrame) : result DataFrame :=
  let df := fold_left convert_date date_columns df in
  df <- start_features df ;;
  df <- duration_feature df ;;
  describe (temporal_features df) ;;;
  Ok df.

(** ** Categorical Features *)

(** [df[target] = df[source].str.contains(pat, na=False).astype(int)] *)
Definition contains_indicator (source pat target : string) (df : DataFrame)
  : result DataFrame :=
  c <- getitem source df ;;
  v <- str_contains_int pat c ;;
  Ok (setitem target v df).

Definition sponsor_indicator (df : DataFrame) : result DataFrame :=
  if has_column "LeadSponsorClass" df then
    c <- getitem "LeadSponsorClass" df ;;
    Ok (setitem "is_industry_sponsored" (mask_to_int (eq_str_mask "INDUSTRY" c)) df)
  else Ok df.

Definition phase_indicators (df : DataFrame) : result DataFrame :=
  if has_column "Phase" df then
    df <- contains_indicator "Phase" "Phase 1" "is_phase_1" df ;;
    df <- contains_indicator "Phase" "Phase 2" "is_phase_2" df ;;
    df <- contains_indicator "Phase" "Phase 3" "is_phase_3" df ;;
    contains_indicator "Phase" "Phase 4" "is_phase_4" df
  else Ok df.

Definition design_indicators (df : DataFrame) : result DataFrame :=
  if has_column "StudyDesign" df then
    df <- contains_indicator "StudyDesign" "Randomized" "is_randomized" df ;;
    df <- contains_indicator "StudyDesign" "Double Blind" "is_double_blind" df ;;
    df <- contains_indicator "StudyDesign" "Single Blind" "is_single_blind" df ;;
    contains_indicator "StudyDesign" "Open Label" "is_open_label" df
  else Ok df.

Definition country_indicators (df : DataFrame) : result DataFrame :=
  if has_column "LocationCountry" df then
    df <- contains_indicator "LocationCountry" "," "is_multi_country" df ;;
    contains_indicator "LocationCountry" "United States" "has_us_sites" df
  else Ok df.

Definition binary_features (df : DataFrame) : list string :=
  filter (fun col => startswith "is_" col || startswith "has_" col) (columns df).

Definition categorical_cell (df : DataFrame) : result DataFrame :=
  df <- sponsor_indicator df ;;
  df <- phase_indicators df ;;
  df <- design_indicators df ;;
  df <- country_indicators df ;;
  describe (binary_features df) ;;;
  Ok df.

(** ** Text Features *)

Definition text_columns : list string :=
  ["BriefTitle"; "BriefSummary"; "DetailedDescription"].

(** [df[col].iloc[0]], printed as a sample: an error on a table without
    rows *)
Definition iloc0 (df : DataFrame) (col : string) : result unit :=
  c <- getitem col df ;;
  match col_length c with
  | O => Raise IndexError
  | S _ => Ok tt
  end.

Definition length_feature (df : DataFrame) (col : string) : result DataFrame :=
  c <- getitem col df ;;
  Ok (setitem (col ++ "_length") (text_length col c) df).

Definition text_length_cols (df : DataFrame) : list string :=
  filter (endswith "_length") (columns df).

Definition text_cell (df : DataFrame) : result DataFrame :=
  let available_text_columns := filter (fun col => has_column col df) text_columns in
  match available_text_columns with
  | [] => Ok df
  | _ =>
      for_each (fun (_ : unit) col => iloc0 df col) (firstn 1 available_text_columns) tt ;;;
      df <- for_each length_feature available_text_columns df ;;
      describe (text_length_cols df) ;;;
      Ok df
  end.

(** ** Target Variable Creation *)

Definition completed_statuses : list string :=
  ["Completed"; "Terminated"; "Suspended"; "Withdrawn"].

(** Returns [df_clean] and [df_modeling]. *)
Definition target_cell (df : DataFrame) : result (DataFrame * DataFrame) :=
  if negb (has_column "completion_status" df) && has_column "OverallStatus" df then
    status <- getitem "OverallStatus" df ;;
    let df := setitem "completion_status" (mask_to_int (eq_str_mask "Completed" status)) df in
    status <- getitem "OverallStatus" df ;;
    let df_modeling := filter_rows (isin_mask completed_statuses status) df in
    Ok (df, df_modeling)
  else Ok (df, df).

(** ** Prepare Modeling Dataset

    The feature-selection cells before this one only compute
    correlations for plotting; they are left out. *)

Definition candidate_features : list string :=
  ["EnrollmentCount"; "start_year"; "is_industry_sponsored";
   "is_phase_1"; "is_phase_2"; "is_phase_3"; "is_phase_4";
   "is_randomized"; "is_double_blind"; "is_open_label";
   "is_multi_country"; "has_us_sites"].

(** The name [text_length_cols] is bound by the text cell when a text
    column is available, and again by the completion branch below; the
    duration branch reads it. *)
Definition prepare_cell (bound_by_text_cell : bool) (df_modeling : DataFrame)
  : result (option (DataFrame * column) * option (DataFrame * column)) :=
  completion <-
    (if has_column "completion_status" df_modeling then
       let features := candidate_features ++ text_length_cols df_modeling in
       let features := filter (fun col => has_column col df_modeling) features in
       X <- select_columns features df_modeling ;;
       y <- getitem "completion_status" df_modeling ;;
       Ok (Some (X, y))
     else Ok None) ;;
  duration <-
    (if has_column "trial_duration_days" df_modeling then
       if bound_by_text_cell || has_column "completion_status" df_modeling then
         let features := candidate_features ++ text_length_cols df_modeling in
         let features := filter (fun col => has_column col df_modeling) features in
         X <- select_columns features df_modeling ;;
         y <- getitem "trial_duration_days" df_modeling ;;
         Ok (Some (X, y))
       else Raise NameError
     else Ok None) ;;
  Ok (completion, duration).

(** ** The notebook from the loaded table to the modeling-ready table *)

(** The cells that build the tables, in the order of the notebook.  The
    cells that only look at a table (the report of missing values, the
    correlation heatmap and the other plots) write nothing into it and
    are left out; an error of theirs is none of [feature_engineering]. *)
Definition feature_engineering (df : DataFrame) : result (DataFrame * DataFrame) :=
  df_clean <- data_preparation df ;;
  df_clean <- temporal_cell df_clean ;;
  df_clean <- categorical_cell df_clean ;;
  let bound := existsb (fun col => has_column col df_clean) text_columns in
  df_clean <- text_cell df_clean ;;
  out <- target_cell df_clean ;;
  prepare_cell bound (snd out) ;;;
  Ok out.

(** ** Save Modeling-Ready Dataset *)

(** The whole stage over a directory listing; [timestamp] and [now] are
    the clock readings used for the new file. *)
Definition stage (dir : list file) (timestamp : string) (now : Z)
  : result (list file) :=
  df <- load_data dir ;;
  out <- feature_engineering df ;;
  let modeling_file :=
    {| name := "oncology_trials_modeling_ready_" ++ timestamp ++ ".csv";
       st_mtime := now;
       contents := Ok (snd out) |} in
  let kept := filter (fun f => negb (String.eqb (name f) (name modeling_file))) dir in
  Ok (kept ++ [modeling_file]).

End Transform.
End FeatureEngineering.

(* ================================================================== *)
(** * Python: the string literals of a cell *)
(* ================================================================== *)

(** A code cell is compiled as a whole before its first statement
    runs.  [scan] follows the tokenizer of Python through the comments
    and the string literals of a source text: a literal in single or
    double quotes has to end on the line it begins on (a backslash
    takes the next character with it, a line break too), a literal in
    tripled quotes may run over several lines, and every literal has to
    end before the text does.  Prefixes of literals ([f], [r], [b]) are
    ordinary characters here. *)
Module Python.

Definition quote : ascii := "034"%char.
Definition apostrophe : ascii := "039"%char.
Definition backslash : ascii := "092"%char.
Definition hash : ascii := "035"%char.
Definition line_feed : ascii := "010"%char.

Inductive mode : Type :=
| Code
| Comment
| Short (q : ascii)
| Long (q : ascii).

Definition is_quote (c : ascii) : bool :=
  Ascii.eqb c quote || Ascii.eqb c apostrophe.

Fixpoint scan (m : mode) (s : string) : result unit :=
  match s with
  | EmptyString =>
      match m with
      | Code | Comment => Ok tt
      | Short _ | Long _ => Raise SyntaxError
      end
  | String c rest =>
      match m with
      | Code =>
          if is_quote c then
            match rest with
            | String c1 (String c2 rest') =>
                if Ascii.eqb c1 c && Ascii.eqb c2 c then scan (Long c) rest'
                else scan (Short c) rest
            | _ => scan (Short c) rest
            end
          else if Ascii.eqb c hash then scan Comment rest
          else scan Code rest
      | Comment =>
          if Ascii.eqb c line_feed then scan Code rest else scan Comment rest
      | Short q =>
          if Ascii.eqb c line_feed then Raise SyntaxError
          else if Ascii.eqb c backslash then
            match rest with
            | String _ rest' => scan (Short q) rest'
            | EmptyString => Raise SyntaxError
            end
          else if Ascii.eqb c q then scan Code rest
          else scan (Short q) rest
      | Long q =>
          if Ascii.eqb c backslash then
            match rest with
            | String _ rest' => scan (Long q) rest'
            | EmptyString => Raise SyntaxError
            end
          else if Ascii.eqb c q then
            match rest with
            | String c1 (String c2 rest') =>
                if Ascii.eqb c1 q && Ascii.eqb c2 q then scan Code rest'
                else scan (Long q) rest
            | _ => scan (Long q) rest
            end
          else scan (Long q) rest
      end
  end.

(** The source of a cell as the notebook file stores it: a list of
    lines, each written here as the pieces between its double quotes
    and line breaks, with [dq] for a double quote and [nl] for a line
    break. *)
Definition dq : string := String quote EmptyString.
Definition nl : string := String line_feed EmptyString.

Definition source_text (lines : list (list string)) : string :=
  String.concat "" (map (String.concat "") lines).

(** What compiling a cell can raise on account of its literals; no
    other syntax error is looked for. *)
Definition compile (lines : list (list string)) : result unit :=
  scan Code (source_text lines).

End Python.

(* ================================================================== *)
(** * Notebook 3: model training *)
(* ================================================================== *)

Module ModelTraining.
Import Pandas.
Import Python.

(** ** Prepare Features and Target Variables *)

(** The cell as the notebook stores it. *)
Definition prepare_source : list (list string) :=
  [
    ["# Define target variables"; nl];
    ["classification_target = 'is_completed'  # Binary: 1 for completed, 0 for terminated"; nl];
    ["regression_target = 'duration_days'     # Continuous: trial duration in days"; nl];
    [nl];
    ["# Filter data to include only completed or terminated trials for classification"; nl];
    ["df_classification = df_modeling[df_modeling['overall_status'].isin(['Completed', 'Terminated'])]"; nl];
    [nl];
    ["# Create binary target for classification (1 for completed, 0 for terminated)"; nl];
    ["df_classification[classification_target] = (df_classification['overall_status'] == 'Completed').astype(int)"; nl];
    [nl];
    ["# Filter data to include only completed trials for regression (duration prediction)"; nl];
    ["df_regression = df_modeling[df_modeling['overall_status'] == 'Completed']"; nl];
    [nl];
    ["# Identify feature columns (exclude target variables and metadata)"; nl];
    ["exclude_cols = ['nct_id', 'overall_status', classification_target, regression_target]"; nl];
    ["feature_cols = [col for col in df_modeling.columns if col not in exclude_cols]"; nl];
    [nl];
    ["print(f"; dq; "Classification dataset: {df_classification.shape[0]} rows, {len(feature_cols)} features"; dq; ")"; nl];
    ["print(f"; dq; "Regression dataset: {df_regression.shape[0]} rows, {len(feature_cols)} features"; dq; ")"; nl];
    [nl];
    ["# Prepare feature matrices and target vectors"; nl];
    ["X_classification = df_classification[feature_cols]"; nl];
    ["y_classification = df_classification[classification_target]"; nl];
    [nl];
    ["X_regression = df_regression[feature_cols]"; nl];
    ["y_regression = df_regression[regression_target]"; nl];
    [nl];
    ["# Check class balance for classification"; nl];
    ["print("; dq; nl; "Class distribution for completion status:"; dq; ")"; nl];
    ["print(y_classification.value_counts(normalize=True).round(3) * 100)"]
  ].

Definition classification_target : string := "is_completed".
Definition regression_target : string := "duration_days".

Definition exclude_cols : list string :=
  ["nct_id"; "overall_status"; classification_target; regression_target].

Record datasets : Type := {
  feature_cols : list string;
  X_classification : DataFrame;
  y_classification : column;
  X_regression : DataFrame;
  y_regression : column
}.

(** The statements of the cell, in the order they are written. *)
Definition prepare_statements (df_modeling : DataFrame) : result datasets :=
  status <- getitem "overall_status" df_modeling ;;
  let df_classification :=
    filter_rows (isin_mask ["Completed"; "Terminated"] status) df_modeling in
  status_c <- getitem "overall_status" df_classification ;;
  let df_classification :=
    setitem classification_target (mask_to_int (eq_str_mask "Completed" status_c))
            df_classification in
  status <- getitem "overall_status" df_modeling ;;
  let df_regression := filter_rows (eq_str_mask "Completed" status) df_modeling in
  let feature_cols :=
    filter (fun col => negb (existsb (String.eqb col) exclude_cols))
           (columns df_modeling) in
  Xc <- select_columns feature_cols df_classification ;;
  yc <- getitem classification_target df_classification ;;
  Xr <- select_columns feature_cols df_regression ;;
  yr <- getitem regression_target df_regression ;;
  Ok {| feature_cols := feature_cols;
        X_classification := Xc; y_classification := yc;
        X_regression := Xr; y_regression := yr |}.

(** Running the cell: its source is compiled, then its statements run. *)
Definition prepare (df_modeling : DataFrame) : result datasets :=
  compile prepare_source ;;;
  prepare_statements df_modeling.

(** ** Train Classification Models, Train Regression Models *)

(** The two cells as the notebook stores them. *)
Definition classification_source : list (list string) :=
  [
    ["# Train classification models"; nl];
    ["classification_results = train_classification_models(X_classification, y_classification)"; nl];
    [nl];
    ["# Display performance metrics"; nl];
    ["classification_metrics = pd.DataFrame(classification_results['metrics'])"; nl];
    ["classification_metrics = classification_metrics.sort_values('f1_score', ascending=False)"; nl];
    [nl];
    ["print("; dq; nl; "Classification Model Performance:"; dq; ")"; nl];
    ["display(classification_metrics)"; nl];
    [nl];
    ["# Identify best model"; nl];
    ["best_classification_model_name = classification_metrics.index[0]"; nl];
    ["best_classification_model = classification_results['models'][best_classification_model_name]"; nl];
    [nl];
    ["print(f"; dq; nl; "Best classification model: {best_classification_model_name}"; dq; ")"; nl];
    [nl];
    ["# Save the best model"; nl];
    ["model_info = {"; nl];
    ["    'model': best_classification_model,"; nl];
    ["    'preprocessor': classification_results['preprocessor'],"; nl];
    ["    'feature_names': feature_cols,"; nl];
    ["    'metrics': classification_metrics.loc[best_classification_model_name].to_dict()"; nl];
    ["}"; nl];
    [nl];
    ["save_model(model_info, 'classification')"]
  ].

Definition regression_source : list (list string) :=
  [
    ["# Train regression models"; nl];
    ["regression_results = train_regression_models(X_regression, y_regression)"; nl];
    [nl];
    ["# Display performance metrics"; nl];
    ["regression_metrics = pd.DataFrame(regression_results['metrics'])"; nl];
    ["regression_metrics = regression_metrics.sort_values('r2_score', ascending=False)"; nl];
    [nl];
    ["print("; dq; nl; "Regression Model Performance:"; dq; ")"; nl];
    ["display(regression_metrics)"; nl];
    [nl];
    ["# Identify best model"; nl];
    ["best_regression_model_name = regression_metrics.index[0]"; nl];
    ["best_regression_model = regression_results['models'][best_regression_model_name]"; nl];
    [nl];
    ["print(f"; dq; nl; "Best regression model: {best_regression_model_name}"; dq; ")"; nl];
    [nl];
    ["# Save the best model"; nl];
    ["model_info = {"; nl];
    ["    'model': best_regression_model,"; nl];
    ["    'preprocessor': regression_results['preprocessor'],"; nl];
    ["    'feature_names': feature_cols,"; nl];
    ["    'metrics': regression_metrics.loc[best_regression_model_name].to_dict()"; nl];
    ["}"; nl];
    [nl];
    ["save_model(model_info, 'regression')"]
  ].

(** [pd.DataFrame(results['metrics'])]: a table of scores with labelled
    rows, a score being [None] when it is NaN.  Every column holds one
    score for each label. *)
Record metrics_table : Type := {
  index : list string;
  scores : list (string * list (option Q))
}.

(** [a.argsort()] of numpy on numbers without NaN, of kind quicksort as
    pandas asks for it: the positions of the values in ascending order
    of the values.  Which of several equal values comes first is
    numpy's affair. *)
Class Numpy : Type := {
  argsort : list Q -> list nat
}.

(** [a[positions]] *)
Definition take {A : Type} (positions : list nat) (a : list A) : list A :=
  flat_map (fun i => match nth_error a i with
                     | Some x => [x]
                     | None => []
                     end) positions.

(** [d[k]] on a dictionary, given as the list of its items *)
Fixpoint lookup {V : Type} (k : string) (d : list (string * V)) : result V :=
  match d with
  | [] => Raise KeyError
  | (n, v) :: rest => if String.eqb k n then Ok v else lookup k rest
  end.

Section Selection.
Context {np : Numpy}.

(** The positions in which [sort_values(ascending=False)] lists the
    rows: pandas reverses the values that are not NaN, sorts them
    ascending, reverses the outcome and puts the rows with NaN last. *)
Definition nargsort_descending (items : list (option Q)) : list nat :=
  let idx := seq 0 (length items) in
  let non_nans := rev (flat_map (fun x => match x with
                                          | Some q => [q]
                                          | None => []
                                          end) items) in
  let non_nan_idx := rev (mask_filter (map (fun x => negb (isnull x)) items) idx) in
  let nan_idx := mask_filter (map isnull items) idx in
  rev (take (argsort non_nans) non_nan_idx) ++ nan_idx.

(** [t.sort_values(by, ascending=False)] *)
Definition sort_values_descending (by_ : string) (t : metrics_table)
  : result metrics_table :=
  items <- lookup by_ (scores t) ;;
  let indexer := nargsort_descending items in
  Ok {| index := take indexer (index t);
        scores := map (fun c => (fst c, take indexer (snd c))) (scores t) |}.

(** [t.index[0]] *)
Definition index0 (t : metrics_table) : result string :=
  match index t with
  | [] => Raise IndexError
  | label :: _ => Ok label
  end.

(** [t.loc[label].to_dict()]: for each column the scores of the rows
    with that label, which is one score where the label is that of one
    row only. *)
Definition loc (label : string) (t : metrics_table)
  : result (list (string * list (option Q))) :=
  let mask := map (String.eqb label) (index t) in
  if existsb (fun b => b) mask
  then Ok (map (fun c => (fst c, mask_filter mask (snd c))) (scores t))
  else Raise KeyError.

Section Training.
Variables estimator preprocessing : Type.

(** What [train_classification_models] and [train_regression_models]
    hand back, the metrics as the table [pd.DataFrame] makes of them. *)
Record results : Type := {
  models : list (string * estimator);
  metrics : metrics_table;
  preprocessor : preprocessing
}.

(** The dictionary handed to [save_model]. *)
Record model_info : Type := {
  model : estimator;
  info_preprocessor : preprocessing;
  feature_names : list string;
  info_metrics : list (string * list (option Q))
}.

(** The statements of a training cell after the training itself, with
    the metric the table is sorted by: they leave the name of the best
    model and the dictionary that is saved. *)
Definition selection_statements (metric : string) (feature_cols : list string)
  (training_results : results) : result (string * model_info) :=
  sorted_metrics <- sort_values_descending metric (metrics training_results) ;;
  best_model_name <- index0 sorted_metrics ;;
  best_model <- lookup best_model_name (models training_results) ;;
  best_metrics <- loc best_model_name sorted_metrics ;;
  Ok (best_model_name,
      {| model := best_model;
         info_preprocessor := preprocessor training_results;
         feature_names := feature_cols;
         info_metrics := best_metrics |}).

(** Running the two cells. *)
Definition classification_cell (feature_cols : list string)
  (classification_results : results) : result (string * model_info) :=
  compile classification_source ;;;
  selection_statements "f1_score" feature_cols classification_results.

Definition regression_cell (feature_cols : list string)
  (regression_results : results) : result (string * model_info) :=
  compile regression_source ;;;
  selection_statements "r2_score" feature_cols regression_results.

(** [best_classification_model_name] and [best_regression_model_name]
    as the cells leave them. *)
Definition best_classification_model_name (feature_cols : list string)
  (classification_results : results) : result string :=
  r <- classification_cell feature_cols classification_results ;;
  Ok (fst r).

Definition best_regression_model_name (feature_cols : list string)
  (regression_results : results) : result string :=
  r <- regression_cell feature_cols regression_results ;;
  Ok (fst r).

End Training.
End Selection.

Arguments models {estimator preprocessing} r.
Arguments metrics {estimator preprocessing} r.
Arguments preprocessor {estimator preprocessing} r.
Arguments classification_cell {np estimator preprocessing} feature_cols classification_results.
Arguments regression_cell {np estimator preprocessing} feature_cols regression_results.
Arguments best_classification_model_name {np estimator preprocessing}
  feature_cols classification_results.
Arguments best_regression_model_name {np estimator preprocessing}
  feature_cols regression_results.

End ModelTraining.

(* ================================================================== *)
(** * A small reader for sample tables *)
(* ================================================================== *)

(** An instance of the conversions that reads plain decimal integers
    and ISO dates ([YYYY-MM-DD]) and prints whole numbers and dates the
    way Python does; on such cells it agrees with pandas.  It is used to
    run the notebooks on sample tables. *)
Module Reader.
Import Pandas.

Definition digit (c : ascii) : option Z :=
  let n := Z.of_N (N_of_ascii c) in
  if ((48 <=? n) && (n <=? 57))%Z then Some (n - 48)%Z else None.

Fixpoint digits (acc : Z) (s : string) : option Z :=
  match s with
  | EmptyString => Some acc
  | String c rest =>
      match digit c with
      | Some d => digits (acc * 10 + d) rest
      | None => None
      end
  end.

Definition natural (s : string) : option Z :=
  match s with
  | EmptyString => None
  | _ => digits 0 s
  end.

Definition integer (s : string) : option Q :=
  match s with
  | String "-" rest => option_map (fun z => inject_Z (- z)) (natural rest)
  | _ => option_map inject_Z (natural s)
  end.

Definition days_from_civil (y m d : Z) : Z :=
  let y := (if m <=? 2 then y - 1 else y)%Z in
  let era := (y / 400)%Z in
  let yoe := (y - era * 400)%Z in
  let mp := (if m <=? 2 then m + 9 else m - 3)%Z in
  let doy := ((153 * mp + 2) / 5 + d - 1)%Z in
  let doe := (yoe * 365 + yoe / 4 - yoe / 100 + doy)%Z in
  (era * 146097 + doe - 719468)%Z.

Definition iso_date (s : string) : option Z :=
  if Nat.eqb (String.length s) 10
     && String.eqb (String.substring 4 1 s) "-"
     && String.eqb (String.substring 7 1 s) "-" then
    match natural (String.substring 0 4 s),
          natural (String.substring 5 2 s),
          natural (String.substring 8 2 s) with
    | Some y, Some m, Some d =>
        if ((1 <=? m) && (m <=? 12) && (1 <=? d) && (d <=? 31))%Z
        then Some (days_from_civil y m d * NS_PER_DAY)%Z
        else None
    | _, _, _ => None
    end
  else None.

Definition whole_timestamp (q : Q) : option Z :=
  if Qeq_bool q (inject_Z (Qfloor q)) then Some (Qfloor q) else None.

Fixpoint decimal (fuel : nat) (n : Z) (acc : string) : string :=
  match fuel with
  | O => acc
  | S fuel' =>
      let d := ascii_of_N (Z.to_N (48 + n mod 10)) in
      if (n <? 10)%Z then String d acc
      else decimal fuel' (n / 10)%Z (String d acc)
  end.

Definition print_Z (n : Z) : string :=
  if (n <? 0)%Z then "-" ++ decimal (Z.to_nat (- n)) (- n)%Z ""
  else decimal (S (Z.to_nat n)) n "".

Definition pad2 (n : Z) : string :=
  if (n <? 10)%Z then "0" ++ print_Z n else print_Z n.

Definition print_number (q : Q) : string := print_Z (Qfloor q) ++ ".0".

Definition print_date (ts : Z) : string :=
  let '(y, m, d) := civil_from_days (days_since_epoch ts) in
  print_Z y ++ "-" ++ pad2 m ++ "-" ++ pad2 d.

#[export] Instance conversions : Conversions := {|
  parse_number := integer;
  to_datetime_text := map (fun x => match x with
                                    | Some s => iso_date s
                                    | None => None
                                    end);
  to_datetime_text_length := fun xs => length_map _ xs;
  to_datetime_number := whole_timestamp;
  str_of_number := fun _ => print_number;
  str_of_timestamp := print_date
|}.

End Reader.

(* ================================================================== *)
(** * Sample tables *)
(* ================================================================== *)

Module Samples.
Import Pandas FeatureEngineering.

Definition num (z : Z) : option Q := Some (inject_Z z).

(** Three trials with definitive and indefinite statuses. *)
Definition trials : DataFrame :=
  [("EnrollmentCount", NumCol [num 10; num 20; num 40]);
   ("OverallStatus", ObjCol [Some "Completed"; Some "Terminated"; Some "Recruiting"]);
   ("Phase", ObjCol [Some "Phase 1"; Some "Phase 2/Phase 3"; None]);
   ("StartDate", ObjCol [Some "2020-01-01"; Some "2020-03-01"; Some "2021-07-15"]);
   ("CompletionDate", ObjCol [Some "2020-04-10"; Some "2020-02-01"; Some "2021-08-14"]);
   ("BriefTitle", ObjCol [Some "abc"; None; Some "abc"])].

(** The French title of a study: the letter E with an acute accent,
    which UTF-8 writes in the two bytes 195 and 137, and [tude]. *)
Definition etude : string := String "195"%char (String "137"%char "tude").

(** Two trials with a title that is not plain ASCII, one without. *)
Definition accented : DataFrame :=
  [("EnrollmentCount", NumCol [num 10; num 20; num 40]);
   ("OverallStatus", ObjCol [Some "Completed"; Some "Terminated"; Some "Recruiting"]);
   ("StartDate", ObjCol [Some "2020-01-01"; Some "2020-03-01"; Some "2021-07-15"]);
   ("LeadSponsorClass", ObjCol [Some "INDUSTRY"; Some "NIH"; Some "OTHER"]);
   ("BriefTitle", ObjCol [Some etude; None; Some etude])].

(** Four trials, one without enrollment count and one without status. *)
Definition enrollment : DataFrame :=
  [("EnrollmentCount", NumCol [num 10; num 20; None; num 40]);
   ("OverallStatus", ObjCol [Some "Completed"; None; Some "Recruiting"; Some "Completed"]);
   ("LeadSponsorClass", ObjCol [Some "INDUSTRY"; Some "NIH"; Some "OTHER"; None]);
   ("StartDate", ObjCol [Some "2019-05-01"; Some "2020-03-01"; Some "n/a"; Some "2021-07-15"])].

(** A table that already records durations, one of them negative. *)
Definition recorded_duration : DataFrame :=
  [("EnrollmentCount", NumCol [num 10; num 20]);
   ("OverallStatus", ObjCol [Some "Completed"; Some "Terminated"]);
   ("LeadSponsorClass", ObjCol [Some "INDUSTRY"; Some "NIH"]);
   ("trial_duration_days", NumCol [num (-5); num 30])].

(** A table that records durations, one negative and one missing. *)
Definition recorded_gap : DataFrame :=
  [("EnrollmentCount", NumCol [num 10; num 20; num 30]);
   ("OverallStatus", ObjCol [Some "Completed"; Some "Terminated"; Some "Completed"]);
   ("LeadSponsorClass", ObjCol [Some "INDUSTRY"; Some "NIH"; Some "NIH"]);
   ("trial_duration_days", NumCol [num (-5); None; num 30])].

(** A table that already carries a completion status. *)
Definition labelled : DataFrame :=
  [("EnrollmentCount", NumCol [num 10; num 20; num 40]);
   ("OverallStatus", ObjCol [Some "Completed"; Some "Terminated"; Some "Recruiting"]);
   ("LeadSponsorClass", ObjCol [Some "INDUSTRY"; Some "NIH"; Some "OTHER"]);
   ("StartDate", ObjCol [Some "2020-01-01"; Some "2020-03-01"; Some "2021-07-15"]);
   ("completion_status", NumCol [num 1; num 0; num 0])].

(** A modeling-ready table as the training notebook loads it. *)
Definition modeling_ready : DataFrame :=
  [("nct_id", ObjCol [Some "NCT01"; Some "NCT02"; Some "NCT03"; Some "NCT04"; Some "NCT05"]);
   ("overall_status", ObjCol [Some "Completed"; Some "Terminated"; Some "Suspended";
                              Some "Withdrawn"; Some "Completed"]);
   ("EnrollmentCount", NumCol [num 10; num 20; num 30; num 40; num 50]);
   ("is_phase_1", NumCol [num 1; num 0; num 0; num 1; num 0]);
   ("duration_days", NumCol [num 100; num 65; num 30; num 12; num 400])].

(** Three classifiers, two of them with the same F1 score. *)
Definition classifiers : ModelTraining.results nat unit :=
  {| ModelTraining.models :=
       [("LogisticRegression", 0); ("RandomForest", 1); ("GradientBoosting", 2)];
     ModelTraining.metrics :=
       {| ModelTraining.index :=
            ["LogisticRegression"; "RandomForest"; "GradientBoosting"];
          ModelTraining.scores :=
            [("accuracy", [Some (80 # 100)%Q; Some (85 # 100)%Q; Some (88 # 100)%Q]);
             ("precision", [Some (80 # 100)%Q; Some (90 # 100)%Q; Some (9 # 10)%Q]);
             ("recall", [Some (80 # 100)%Q; Some (90 # 100)%Q; Some (9 # 10)%Q]);
             ("f1_score", [Some (80 # 100)%Q; Some (90 # 100)%Q; Some (9 # 10)%Q])] |};
     ModelTraining.preprocessor := tt |}.

(** Three regressors, the last two with the same R2 score. *)
Definition regressors : ModelTraining.results nat unit :=
  {| ModelTraining.models :=
       [("LinearRegression", 0); ("RandomForest", 1); ("GradientBoosting", 2)];
     ModelTraining.metrics :=
       {| ModelTraining.index :=
            ["LinearRegression"; "RandomForest"; "GradientBoosting"];
          ModelTraining.scores :=
            [("r2_score", [Some (- 1 # 10)%Q; Some (1 # 2)%Q; Some (2 # 4)%Q]);
             ("mae", [Some 120%Q; Some 90%Q; Some 95%Q]);
             ("rmse", [Some 200%Q; Some 150%Q; Some 140%Q])] |};
     ModelTraining.preprocessor := tt |}.

(** A directory with one snapshot whose table has completion dates but
    no start dates. *)
Definition snapshot_without_start : list FeatureEngineering.file :=
  [{| FeatureEngineering.name := "processed_oncology_trials_20240101_120000.csv";
      FeatureEngineering.st_mtime := 1704110400;
      FeatureEngineering.contents :=
        Ok [("EnrollmentCount", NumCol [num 100; num 250]);
            ("OverallStatus", ObjCol [Some "Completed"; Some "Terminated"]);
            ("LeadSponsorClass", ObjCol [Some "INDUSTRY"; Some "NIH"]);
            ("CompletionDate", ObjCol [Some "2021-06-01"; Some "2022-01-15"])] |}].

(** A directory with two snapshots of the same age, an older one and a
    newer file of another kind. *)
Definition snapshots : list FeatureEngineering.file :=
  [{| FeatureEngineering.name := "processed_oncology_trials_20240101.csv";
      FeatureEngineering.st_mtime := 100;
      FeatureEngineering.contents := Ok [("EnrollmentCount", NumCol [Some 1%Q])] |};
   {| FeatureEngineering.name := "processed_oncology_trials_20240301.csv";
      FeatureEngineering.st_mtime := 300;
      FeatureEngineering.contents := Ok [("EnrollmentCount", NumCol [Some 2%Q])] |};
   {| FeatureEngineering.name := "oncology_trials_modeling_ready_20240401.csv";
      FeatureEngineering.st_mtime := 400;
      FeatureEngineering.contents := Ok [("EnrollmentCount", NumCol [Some 3%Q])] |};
   {| FeatureEngineering.name := "processed_oncology_trials_20240302.csv";
      FeatureEngineering.st_mtime := 300;
      FeatureEngineering.contents := Ok [("EnrollmentCount", NumCol [Some 4%Q])] |}].

(** A directory whose newest snapshot is a file of zero bytes. *)
Definition empty_newest : list FeatureEngineering.file :=
  [{| FeatureEngineering.name := "processed_oncology_trials_20240101.csv";
      FeatureEngineering.st_mtime := 100;
      FeatureEngineering.contents := Ok [("EnrollmentCount", NumCol [Some 1%Q])] |};
   {| FeatureEngineering.name := "processed_oncology_trials_20240201.csv";
      FeatureEngineering.st_mtime := 200;
      FeatureEngineering.contents := Raise EmptyDataError |}].

(** Two trials whose phase is not recorded. *)
Definition phase_unknown : DataFrame :=
  [("EnrollmentCount", NumCol [num 10; num 20]);
   ("Phase", ObjCol [None; None])].

(** A table with columns and no rows. *)
Definition no_rows : DataFrame :=
  [("EnrollmentCount", NumCol []);
   ("BriefTitle", ObjCol [])].

End Samples.

(* ================================================================== *)
(** * Tables seen row by row, and the cleaning seen column by column *)
(* ================================================================== *)

Module Rows.
Import Pandas.

Inductive cell : Type :=
| NumCell (x : option Q)
| ObjCell (x : option string)
| DateCell (x : option Z).

Definition cells (c : column) : list cell :=
  match c with
  | NumCol xs => map NumCell xs
  | ObjCol xs => map ObjCell xs
  | DateCol xs => map DateCell xs
  end.

(** A row lists the cell of every column under the column's label. *)
Definition row : Type := list (string * cell).

Definition add_column (label : string) (cs : list cell) (rs : list row) : list row :=
  map (fun cr => (label, fst cr) :: snd cr) (combine cs rs).

(** The [n] rows of a frame whose columns all have [n] cells. *)
Fixpoint rows (n : nat) (df : DataFrame) : list row :=
  match df with
  | [] => repeat [] n
  | (label, c) :: rest => add_column label (cells c) (rows n rest)
  end.

(** [len(df)] *)
Definition nrows (df : DataFrame) : nat :=
  match df with
  | [] => 0
  | (_, c) :: _ => col_length c
  end.

Definition table_rows (df : DataFrame) : list row := rows (nrows df) df.

Fixpoint row_get (label : string) (r : row) : option cell :=
  match r with
  | [] => None
  | (l, c) :: rest => if String.eqb label l then Some c else row_get label rest
  end.

(** The text held under a label, if the row has a text value there. *)
Definition row_text (label : string) (r : row) : option string :=
  match row_get label r with
  | Some (ObjCell (Some s)) => Some s
  | _ => None
  end.

Definition text_in (vs : list string) (label : string) (r : row) : bool :=
  match row_text label r with
  | Some s => existsb (String.eqb s) vs
  | None => false
  end.

Definition cell_in (vs : list string) (x : cell) : bool :=
  match x with
  | ObjCell (Some s) => existsb (String.eqb s) vs
  | _ => false
  end.

(** A rectangular frame with distinct labels, as [pd.read_csv] builds. *)
Definition frame_ok (n : nat) (df : DataFrame) : Prop :=
  NoDup (columns df) /\ Forall (fun nc => col_length (snd nc) = n) df.

(** Median imputation of one column. *)
Definition impute_numeric (c : column) : column :=
  match c with
  | NumCol xs => NumCol (fillna (median xs) xs)
  | _ => c
  end.

(** Mode imputation of one column; a text column without any value is
    left as it is. *)
Definition impute_mode (c : column) : column :=
  match c with
  | ObjCol xs =>
      match mode0 xs with
      | Ok m => ObjCol (fillna (Some m) xs)
      | Raise _ => c
      end
  | _ => c
  end.

(** The same with the error of [mode0] kept. *)
Definition impute_mode_strict (c : column) : result column :=
  match c with
  | ObjCol xs =>
      if Nat.ltb 0 (null_count xs) then
        m <- mode0 xs ;; Ok (ObjCol (fillna (Some m) xs))
      else Ok c
  | _ => Ok c
  end.

Fixpoint map_columns (f : column -> result column) (df : DataFrame)
  : result DataFrame :=
  match df with
  | [] => Ok []
  | (label, c) :: rest =>
      c' <- f c ;;
      rest' <- map_columns f rest ;;
      Ok ((label, c') :: rest')
  end.

Definition on_columns (f : column -> column) (df : DataFrame) : DataFrame :=
  map (fun nc => (fst nc, f (snd nc))) df.

(** The input table with every missing text value replaced by the most
    frequent value of its column; the enrollment count is numeric data
    and is left to the median. *)
Definition impute_text (df : DataFrame) : DataFrame :=
  map (fun nc => if String.eqb (fst nc) "EnrollmentCount" then nc
                 else (fst nc, impute_mode (snd nc))) df.

(** Labels each cell of the feature-engineering notebook assigns. *)
Definition start_writes : list string :=
  ["start_year"; "start_month"; "start_quarter"].

Definition temporal_writes : list string :=
  ["StartDate"; "CompletionDate"; "PrimaryCompletionDate";
   "start_year"; "start_month"; "start_quarter"; "trial_duration_days"].

Definition indicator_writes : list string :=
  ["is_industry_sponsored";
   "is_phase_1"; "is_phase_2"; "is_phase_3"; "is_phase_4";
   "is_randomized"; "is_double_blind"; "is_single_blind"; "is_open_label";
   "is_multi_country"; "has_us_sites"].

Definition length_writes : list string :=
  ["BriefTitle_length"; "BriefSummary_length"; "DetailedDescription_length"].

(** The duration column the notebook computes when there is none. *)
Definition computed_duration (c s : list (option Z)) : column :=
  let days := FeatureEngineering.negative_to_nan (timedelta_days c s) in
  NumCol (fillna (median days) days).

(** The loop over the date columns. *)
Definition convert_dates {conv : Conversions} (df : DataFrame) : DataFrame :=
  fold_left FeatureEngineering.convert_date FeatureEngineering.date_columns df.

(** The column [s.str.contains(pat, na=False).astype(int)] of a text
    column. *)
Definition flags (pat : string) (xs : list (option string)) : column :=
  NumCol (map (fun x => match x with
                        | Some s => bool_to_int (contains pat s)
                        | None => bool_to_int false
                        end) xs).

(** Each derived indicator with the column it is derived from. *)
Definition indicator_sources : list (string * string) :=
  [("is_industry_sponsored", "LeadSponsorClass");
   ("is_phase_1", "Phase"); ("is_phase_2", "Phase");
   ("is_phase_3", "Phase"); ("is_phase_4", "Phase");
   ("is_randomized", "StudyDesign"); ("is_double_blind", "StudyDesign");
   ("is_single_blind", "StudyDesign"); ("is_open_label", "StudyDesign");
   ("is_multi_country", "LocationCountry"); ("has_us_sites", "LocationCountry")].

Definition derived_labels : list string :=
  temporal_writes ++ indicator_writes ++ length_writes ++ ["completion_status"].

(** The cleaned column of an input column: median imputation of numeric
    data, then mode imputation of text. *)
Definition cleaned (c : column) : column := impute_mode (impute_numeric c).

(** The numeric reading of an input column: the enrollment count is
    coerced, the other columns are taken as they are. *)
Definition numeric_input {conv : Conversions} (col : string) (df : DataFrame)
  : option column :=
  if String.eqb col "EnrollmentCount"
  then option_map to_numeric (get_column col df)
  else get_column col df.

(** Durations that are present and not negative. *)
Definition valid_duration (d : option Q) : bool :=
  match d with
  | Some v => Qle_bool 0 v
  | None => false
  end.

(** Every duration that is not valid replaced by the median of the
    valid ones. *)
Definition repaired_durations (raw : list (option Q)) : list (option Q) :=
  let m := median (filter valid_duration raw) in
  map (fun d => if valid_duration d then d else m) raw.

(** The length feature of one text value: its number of characters. *)
Definition value_length (s : string) : option Q :=
  Some (inject_Z (Z.of_nat (len s))).

(** A column that cleaning leaves as it is. *)
Definition settled (c : column) : Prop :=
  impute_numeric c = c /\ impute_mode_strict c = Ok c.

(** The indicators derived by substring search: target, source and
    pattern. *)
Definition contains_table : list (string * string * string) :=
  [("is_phase_1", "Phase", "Phase 1"); ("is_phase_2", "Phase", "Phase 2");
   ("is_phase_3", "Phase", "Phase 3"); ("is_phase_4", "Phase", "Phase 4");
   ("is_randomized", "StudyDesign", "Randomized");
   ("is_double_blind", "StudyDesign", "Double Blind");
   ("is_single_blind", "StudyDesign", "Single Blind");
   ("is_open_label", "StudyDesign", "Open Label");
   ("is_multi_country", "LocationCountry", ",");
   ("has_us_sites", "LocationCountry", "United States")].

(** What holds of a table the notebook has engineered: its columns are
    cleaned, its date columns parsed, and every derived column is the
    one the notebook derives from the source column next to it. *)
Record engineered {conv : Conversions} (n : nat) (C : DataFrame) : Prop := {
  eng_frame : frame_ok n C;
  eng_enrollment : exists xs, get_column "EnrollmentCount" C = Some (NumCol xs);
  eng_settled :
    forall l c, get_column l C = Some c ->
      existsb (String.eqb l) start_writes = false
      \/ has_column "StartDate" C = false ->
      settled c;
  eng_dates :
    forall l c, existsb (String.eqb l) FeatureEngineering.date_columns = true ->
      get_column l C = Some c -> exists ts, c = DateCol ts;
  eng_start :
    has_column "StartDate" C = true ->
    exists ts, get_column "StartDate" C = Some (DateCol ts)
      /\ get_column "start_year" C = Some (dt_field dt_year ts)
      /\ get_column "start_month" C = Some (dt_field dt_month ts)
      /\ get_column "start_quarter" C = Some (dt_field dt_quarter ts);
  eng_duration :
    has_column "trial_duration_days" C = false ->
    has_column "CompletionDate" C = false;
  eng_temporal : FeatureEngineering.temporal_features C <> [];
  eng_binary : FeatureEngineering.binary_features C <> [];
  eng_sponsor :
    has_column "LeadSponsorClass" C = true ->
    exists c, get_column "LeadSponsorClass" C = Some c
      /\ get_column "is_industry_sponsored" C
         = Some (mask_to_int (eq_str_mask "INDUSTRY" c));
  eng_flags :
    forall target source pat, In (target, source, pat) contains_table ->
      has_column source C = true ->
      exists xs, get_column source C = Some (ObjCol xs)
        /\ get_column target C = Some (flags pat xs);
  eng_text :
    forall col, In col FeatureEngineering.text_columns ->
      has_column col C = true ->
      exists c, get_column col C = Some c
        /\ get_column (col ++ "_length") C = Some (text_length col c);
  eng_rows :
    existsb (fun col => has_column col C) FeatureEngineering.text_columns = true ->
    n <> 0;
  eng_target :
    has_column "OverallStatus" C = true -> has_column "completion_status" C = true;
  eng_prepare :
    has_column "trial_duration_days" C = true ->
    existsb (fun col => has_column col C) FeatureEngineering.text_columns
    || has_column "completion_status" C = true
}.

(** Outside the labels [S] every column is settled. *)
Definition all_settled (S : list string) (d : DataFrame) : Prop :=
  forall l c, get_column l d = Some c -> existsb (String.eqb l) S = false -> settled c.

(** The second frame has every label of the first. *)
Definition grows (d d' : DataFrame) : Prop :=
  forall l, has_column l d = true -> has_column l d' = true.

(** [untouched ws df df']: outside the labels [ws] the two frames hold
    the same columns. *)
Definition untouched (ws : list string) (df df' : DataFrame) : Prop :=
  forall c, existsb (String.eqb c) ws = false -> get_column c df' = get_column c df.

(** A column without a gap: a text column holds a value in every row, a
    numeric column in every row or in none.  Nothing is asked of a
    column of timestamps, where NaT stands for a date that could not
    be parsed. *)
Definition without_gaps (c : column) : Prop :=
  match c with
  | NumCol xs => Forall (fun x => x <> None) xs \/ Forall (fun x => x = None) xs
  | ObjCol xs => Forall (fun x => x <> None) xs
  | DateCol _ => True
  end.

(** Every value that is present lies between [lo] and [hi]. *)
Definition within (lo hi : Q) (c : column) : Prop :=
  match c with
  | NumCol xs => Forall (fun x => (lo <= x)%Q /\ (x <= hi)%Q) (dropna xs)
  | _ => True
  end.

(** A text column with rows and no value in any of them. *)
Definition empty_text (c : column) : Prop :=
  exists xs, c = ObjCol xs /\ xs <> [] /\ Forall (fun x => x = None) xs.

(** Text columns, the only ones with a [.str] accessor. *)
Definition is_text (c : column) : bool :=
  match c with
  | ObjCol _ => true
  | _ => false
  end.

(** The columns searched for a substring. *)
Definition searched_columns : list string :=
  ["Phase"; "StudyDesign"; "LocationCountry"].

(** The text [pat] occurs in the value [x], letter for letter. *)
Definition occurs_in (pat : string) (x : option string) : Prop :=
  exists s a b, x = Some s /\ s = (a ++ pat ++ b)%string.

(** The flag [f] says whether [pat] occurs in [x]. *)
Definition marks (pat : string) (x : option string) (f : option Q) : Prop :=
  (f = Some 1%Q /\ occurs_in pat x) \/ (f = Some 0%Q /\ ~ occurs_in pat x).

(** The second frame has the columns of the first, in the same places,
    followed by columns labelled from [ws]. *)
Definition extends_by (ws : list string) (d d' : DataFrame) : Prop :=
  exists added, columns d' = columns d ++ added /\ incl added ws.

(** What the cells that build the tables ask of the input table with
    [n] rows: the columns they read without a guard, the kinds of
    column they can search, and something to describe in each
    summary. *)
Record admissible (n : nat) (df : DataFrame) : Prop := {
  adm_enrollment : has_column "EnrollmentCount" df = true;
  adm_values :
    forall l c, In (l, c) df -> l <> "EnrollmentCount" -> ~ empty_text c;
  adm_start :
    has_column "trial_duration_days" df = false ->
    has_column "CompletionDate" df = true ->
    has_column "StartDate" df = true;
  adm_temporal :
    FeatureEngineering.temporal_features df <> []
    \/ has_column "StartDate" df = true
    \/ has_column "CompletionDate" df = true;
  adm_searched :
    forall source c, In source searched_columns ->
      get_column source df = Some c -> is_text c = true;
  adm_binary :
    FeatureEngineering.binary_features df <> []
    \/ has_column "LeadSponsorClass" df = true
    \/ exists source, In source searched_columns /\ has_column source df = true;
  adm_rows :
    existsb (fun col => has_column col df) FeatureEngineering.text_columns = true ->
    n <> 0;
  adm_targets :
    has_column "trial_duration_days" df = true
    \/ has_column "CompletionDate" df = true ->
    existsb (fun col => has_column col df) FeatureEngineering.text_columns = true
    \/ has_column "completion_status" df = true
    \/ has_column "OverallStatus" df = true
}.

(** The value [y] is the field [f] of the timestamp [t], and is missing
    when the timestamp is. *)
Definition field_of (f : Z -> Z) (t : option Z) (y : option Q) : Prop :=
  match t with
  | Some ts => y = Some (inject_Z (f ts))
  | None => y = None
  end.

(** Values that are a flag. *)
Definition is_flag (x : option Q) : Prop := x = Some 0%Q \/ x = Some 1%Q.

Definition not_negative (x : option Q) : Prop :=
  match x with
  | Some d => (0 <= d)%Q
  | None => True
  end.

End Rows.

(* ================================================================== *)
(** * Facts about frames *)
(* ================================================================== *)

Import Pandas Rows FeatureEngineering.

Lemma bind_ok {A B : Type} (r : result A) (k : A -> result B) (b : B) :
  bind r k = Ok b -> exists a, r = Ok a /\ k a = Ok b.
Proof. destruct r as [a | e]; simpl; intros H; [eauto | discriminate]. Qed.

Ltac inv_bind H :=
  let a := fresh "v" in
  let Ha := fresh "H" in
  apply bind_ok in H; destruct H as (a & Ha & H).

Lemma getitem_ok col df c : getitem col df = Ok c <-> get_column col df = Some c.
Proof.
  unfold getitem. destruct (get_column col df); split; intros H;
    inversion H; reflexivity.
Qed.

Lemma get_setitem c n v df :
  get_column c (setitem n v df) = if String.eqb c n then Some v else get_column c df.
Proof.
  induction df as [| [n' c'] rest IH]; simpl.
  - reflexivity.
  - destruct (String.eqb n n') eqn:E; simpl.
    + apply String.eqb_eq in E; subst n'. destruct (String.eqb c n); reflexivity.
    + rewrite IH. destruct (String.eqb c n') eqn:E'; [| reflexivity].
      apply String.eqb_eq in E'; subst n'.
      rewrite String.eqb_sym, E. reflexivity.
Qed.

Lemma has_column_get c df :
  has_column c df = match get_column c df with Some _ => true | None => false end.
Proof.
  unfold has_column, columns.
  induction df as [| [n' c'] rest IH]; simpl; [reflexivity |].
  destruct (String.eqb c n'); simpl; [reflexivity | exact IH].
Qed.

Lemma has_setitem c n v df :
  has_column c (setitem n v df) = String.eqb c n || has_column c df.
Proof.
  rewrite !has_column_get, get_setitem. destruct (String.eqb c n); reflexivity.
Qed.

Lemma has_column_In c df : has_column c df = true <-> In c (columns df).
Proof.
  unfold has_column. rewrite existsb_exists. split.
  - intros (x & Hx & E). apply String.eqb_eq in E. subst. exact Hx.
  - intros H. exists c. split; [exact H | apply String.eqb_refl].
Qed.

Lemma get_column_None c df : get_column c df = None <-> ~ In c (columns df).
Proof.
  rewrite <- has_column_In, has_column_get.
  destruct (get_column c df); split; intros H; try discriminate; try reflexivity.
  exfalso. apply H. reflexivity.
Qed.

Lemma get_column_app_r c d1 d2 :
  ~ In c (columns d1) -> get_column c (d1 ++ d2) = get_column c d2.
Proof.
  induction d1 as [| [n v] rest IH]; simpl; intros H; [reflexivity |].
  destruct (String.eqb c n) eqn:E.
  - apply String.eqb_eq in E. subst. exfalso. apply H. left. reflexivity.
  - apply IH. intros Hin. apply H. right. exact Hin.
Qed.

Lemma setitem_app_r c v d1 d2 :
  ~ In c (columns d1) -> setitem c v (d1 ++ d2) = d1 ++ setitem c v d2.
Proof.
  induction d1 as [| [n v'] rest IH]; simpl; intros H; [reflexivity |].
  destruct (String.eqb c n) eqn:E.
  - apply String.eqb_eq in E. subst. exfalso. apply H. left. reflexivity.
  - f_equal. apply IH. intros Hin. apply H. right. exact Hin.
Qed.

Lemma columns_setitem n v df :
  columns (setitem n v df) = if has_column n df then columns df else columns df ++ [n].
Proof.
  unfold has_column, columns.
  induction df as [| [n' c'] rest IH]; simpl; [reflexivity |].
  destruct (String.eqb n n') eqn:E; simpl; [reflexivity |].
  rewrite IH. destruct (existsb (String.eqb n) (map fst rest)); reflexivity.
Qed.

Lemma setitem_same n v df : get_column n df = Some v -> setitem n v df = df.
Proof.
  induction df as [| [n' c'] rest IH]; simpl; [discriminate |].
  destruct (String.eqb n n') eqn:E.
  - intros H. inversion H. reflexivity.
  - intros H. rewrite (IH H). reflexivity.
Qed.

Lemma columns_on_columns f df : columns (on_columns f df) = columns df.
Proof. unfold columns, on_columns. rewrite map_map. reflexivity. Qed.

Lemma get_on_columns f c df :
  get_column c (on_columns f df) = option_map f (get_column c df).
Proof.
  induction df as [| [n v] rest IH]; simpl; [reflexivity |].
  destruct (String.eqb c n); [reflexivity | exact IH].
Qed.

Lemma NoDup_columns_app_cons d1 n (v v' : column) d2 :
  NoDup (columns (d1 ++ (n, v) :: d2)) ->
  ~ In n (columns d1) /\ NoDup (columns ((d1 ++ [(n, v')]) ++ d2)).
Proof.
  unfold columns. rewrite <- app_assoc. simpl. rewrite !map_app. simpl.
  intros H. split.
  - apply NoDup_remove_2 in H. intros Hin. apply H. apply in_or_app. left. exact Hin.
  - exact H.
Qed.

(** ** Missing values *)

Lemma null_count_0 {A : Type} (xs : list (option A)) :
  Nat.ltb 0 (null_count xs) = false -> Forall (fun x => x <> None) xs.
Proof.
  unfold null_count. induction xs as [| [a |] rest IH]; simpl; intros H.
  - constructor.
  - constructor; [discriminate | exact (IH H)].
  - discriminate.
Qed.

Lemma fillna_full {A : Type} (v : option A) (xs : list (option A)) :
  Forall (fun x => x <> None) xs -> fillna v xs = xs.
Proof.
  unfold fillna. induction 1 as [| x rest Hx _ IH]; simpl; [reflexivity |].
  rewrite IH. destruct x; [reflexivity | contradiction].
Qed.

Lemma fillna_Some_full {A : Type} (a : A) (xs : list (option A)) :
  Forall (fun x => x <> None) (fillna (Some a) xs).
Proof.
  unfold fillna. induction xs as [| [x |] rest IH]; simpl; constructor;
    try discriminate; exact IH.
Qed.

Lemma fillna_None {A : Type} (xs : list (option A)) : fillna None xs = xs.
Proof.
  unfold fillna. induction xs as [| [x |] rest IH]; simpl; congruence.
Qed.

Lemma null_count_full {A : Type} (xs : list (option A)) :
  Forall (fun x => x <> None) xs -> Nat.ltb 0 (null_count xs) = false.
Proof.
  unfold null_count. induction 1 as [| [a |] rest Hx _ IH]; simpl;
    [reflexivity | exact IH | contradiction].
Qed.

(** ** The two cleaning loops are column-wise maps *)

Section Loops.
Context {conv : Conversions}.
Import FeatureEngineering.

Lemma fill_numeric_loop_gen rest : forall done,
  NoDup (columns (done ++ rest)) ->
  fold_left fill_numeric (numeric_cols rest) (done ++ rest)
  = done ++ on_columns impute_numeric rest.
Proof.
  induction rest as [| [n c] r IH]; intros done Hnd.
  - reflexivity.
  - destruct (NoDup_columns_app_cons done n c (impute_numeric c) r Hnd) as [Hn Hnd'].
    assert (Hget : get_column n (done ++ (n, c) :: r) = Some c).
    { rewrite get_column_app_r by exact Hn. simpl. rewrite String.eqb_refl. reflexivity. }
    assert (Hset : forall v, setitem n v (done ++ (n, c) :: r) = (done ++ [(n, v)]) ++ r).
    { intros v. rewrite setitem_app_r by exact Hn. simpl. rewrite String.eqb_refl.
      rewrite <- app_assoc. reflexivity. }
    assert (Hstep : fold_left fill_numeric (numeric_cols r)
                      ((done ++ [(n, impute_numeric c)]) ++ r)
                    = done ++ on_columns impute_numeric ((n, c) :: r)).
    { rewrite IH by exact Hnd'. rewrite <- app_assoc. reflexivity. }
    destruct c as [xs | xs | xs]; unfold numeric_cols; simpl filter; simpl columns;
      fold (numeric_cols r).
    + simpl fold_left. unfold fill_numeric at 2. rewrite Hget.
      destruct (Nat.ltb 0 (null_count xs)) eqn:E.
      * rewrite Hset. exact Hstep.
      * simpl impute_numeric in Hstep.
        rewrite (fillna_full _ xs (null_count_0 xs E)) in Hstep.
        replace (done ++ (n, NumCol xs) :: r) with ((done ++ [(n, NumCol xs)]) ++ r)
          by (rewrite <- app_assoc; reflexivity).
        exact Hstep.
    + replace (done ++ (n, ObjCol xs) :: r) with ((done ++ [(n, ObjCol xs)]) ++ r)
        by (rewrite <- app_assoc; reflexivity).
      exact Hstep.
    + replace (done ++ (n, DateCol xs) :: r) with ((done ++ [(n, DateCol xs)]) ++ r)
        by (rewrite <- app_assoc; reflexivity).
      exact Hstep.
Qed.

Lemma fill_numeric_loop df :
  NoDup (columns df) ->
  fold_left fill_numeric (numeric_cols df) df = on_columns impute_numeric df.
Proof. intros H. exact (fill_numeric_loop_gen df [] H). Qed.

Lemma fill_categorical_loop_gen rest : forall done,
  NoDup (columns (done ++ rest)) ->
  for_each fill_categorical (categorical_cols rest) (done ++ rest)
  = (rest' <- map_columns impute_mode_strict rest ;; Ok (done ++ rest')).
Proof.
  induction rest as [| [n c] r IH]; intros done Hnd.
  - reflexivity.
  - assert (Hget : get_column n (done ++ (n, c) :: r) = Some c).
    { destruct (NoDup_columns_app_cons done n c c r Hnd) as [Hn _].
      rewrite get_column_app_r by exact Hn. simpl. rewrite String.eqb_refl. reflexivity. }
    assert (Hset : forall v, setitem n v (done ++ (n, c) :: r) = (done ++ [(n, v)]) ++ r).
    { intros v. destruct (NoDup_columns_app_cons done n c c r Hnd) as [Hn _].
      rewrite setitem_app_r by exact Hn. simpl. rewrite String.eqb_refl.
      rewrite <- app_assoc. reflexivity. }
    assert (Hstep : forall c',
               for_each fill_categorical (categorical_cols r) ((done ++ [(n, c')]) ++ r)
               = (rest' <- map_columns impute_mode_strict r ;;
                  Ok (done ++ (n, c') :: rest'))).
    { intros c'. rewrite IH.
      - destruct (map_columns impute_mode_strict r); simpl; [| reflexivity].
        rewrite <- app_assoc. reflexivity.
      - exact (proj2 (NoDup_columns_app_cons done n c c' r Hnd)). }
    assert (Hskip : done ++ (n, c) :: r = (done ++ [(n, c)]) ++ r)
      by (rewrite <- app_assoc; reflexivity).
    destruct c as [xs | xs | xs]; unfold categorical_cols; simpl filter; simpl columns;
      fold (categorical_cols r).
    + rewrite Hskip, Hstep. simpl.
      destruct (map_columns impute_mode_strict r); reflexivity.
    + simpl for_each. unfold fill_categorical at 1. rewrite Hget.
      simpl map_columns. simpl impute_mode_strict.
      destruct (Nat.ltb 0 (null_count xs)) eqn:E.
      * destruct (mode0 xs) as [m | e]; simpl; [| reflexivity].
        rewrite Hset, Hstep.
        destruct (map_columns impute_mode_strict r); reflexivity.
      * simpl. rewrite Hskip, Hstep.
        destruct (map_columns impute_mode_strict r); reflexivity.
    + rewrite Hskip, Hstep. simpl.
      destruct (map_columns impute_mode_strict r); reflexivity.
Qed.

Lemma fill_categorical_loop df :
  NoDup (columns df) ->
  for_each fill_categorical (categorical_cols df) df
  = map_columns impute_mode_strict df.
Proof.
  intros H. change df with ([] ++ df) at 2.
  rewrite (fill_categorical_loop_gen df [] H).
  destruct (map_columns impute_mode_strict df); reflexivity.
Qed.

Lemma impute_mode_strict_ok c c' :
  impute_mode_strict c = Ok c' -> c' = impute_mode c.
Proof.
  destruct c as [xs | xs | xs]; simpl; try (intros H; inversion H; reflexivity).
  destruct (Nat.ltb 0 (null_count xs)) eqn:E.
  - destruct (mode0 xs) as [m | e]; simpl; intros H; inversion H; reflexivity.
  - intros H. inversion H. subst c'.
    destruct (mode0 xs) as [m | e]; [| reflexivity].
    rewrite (fillna_full _ xs (null_count_0 xs E)). reflexivity.
Qed.

Lemma map_columns_ok df : forall df',
  map_columns impute_mode_strict df = Ok df' -> df' = on_columns impute_mode df.
Proof.
  induction df as [| [n c] r IH]; simpl; intros df' H.
  - inversion H. reflexivity.
  - inv_bind H. inv_bind H. inversion H. subst df'.
    rewrite (impute_mode_strict_ok _ _ H0), (IH _ H1). reflexivity.
Qed.

(** Imputing beforehand does not change what the strict loop does. *)
Lemma impute_mode_strict_idem c :
  impute_mode_strict (impute_mode c) = impute_mode_strict c.
Proof.
  destruct c as [xs | xs | xs]; try reflexivity.
  simpl impute_mode. destruct (mode0 xs) as [m | e] eqn:Em; [| reflexivity].
  simpl. rewrite (null_count_full _ (fillna_Some_full m xs)).
  destruct (Nat.ltb 0 (null_count xs)) eqn:E.
  - rewrite Em. reflexivity.
  - rewrite (fillna_full _ xs (null_count_0 xs E)). reflexivity.
Qed.

Lemma map_columns_impute df :
  map_columns impute_mode_strict (on_columns impute_mode df)
  = map_columns impute_mode_strict df.
Proof.
  induction df as [| [n c] r IH]; simpl; [reflexivity |].
  rewrite impute_mode_strict_idem, IH. reflexivity.
Qed.

End Loops.

(** ** Columns a cell leaves alone *)

Lemma untouched_refl ws df : untouched ws df df.
Proof. intros c _. reflexivity. Qed.

Lemma untouched_setitem ws n v df df' :
  existsb (String.eqb n) ws = true -> untouched ws df df' ->
  untouched ws df (setitem n v df').
Proof.
  intros Hn H c Hc. rewrite get_setitem.
  destruct (String.eqb c n) eqn:E; [| exact (H c Hc)].
  apply String.eqb_eq in E. subst c. congruence.
Qed.

Lemma untouched_trans ws df1 df2 df3 :
  untouched ws df1 df2 -> untouched ws df2 df3 -> untouched ws df1 df3.
Proof. intros H1 H2 c Hc. rewrite (H2 c Hc). exact (H1 c Hc). Qed.

Lemma untouched_weaken ws ws' df df' :
  (forall c, existsb (String.eqb c) ws' = false -> existsb (String.eqb c) ws = false) ->
  untouched ws df df' -> untouched ws' df df'.
Proof. intros Hw H c Hc. apply H. apply Hw. exact Hc. Qed.

Lemma untouched_has ws df df' c :
  untouched ws df df' -> existsb (String.eqb c) ws = false ->
  has_column c df' = has_column c df.
Proof. intros H Hc. rewrite !has_column_get, (H c Hc). reflexivity. Qed.

(** ** Rectangular frames *)

Lemma frame_ok_get n df c v :
  frame_ok n df -> get_column c df = Some v -> col_length v = n.
Proof.
  intros [_ H]. induction df as [| [l w] rest IH]; simpl; [discriminate |].
  apply Forall_cons_iff in H. destruct H as [Hw Hrest]. simpl in Hw.
  destruct (String.eqb c l).
  - intros E. injection E as <-. exact Hw.
  - apply IH. exact Hrest.
Qed.

Lemma frame_ok_setitem n df c v :
  frame_ok n df -> col_length v = n -> frame_ok n (setitem c v df).
Proof.
  intros [Hnd Hlen] Hv. split.
  - rewrite columns_setitem. destruct (has_column c df) eqn:E; [exact Hnd |].
    apply NoDup_app; [exact Hnd | constructor; [intros [] | constructor] |].
    intros x Hx [Hc | []]. subst x.
    apply has_column_In in Hx. congruence.
  - clear Hnd. induction df as [| [l w] rest IH]; simpl.
    + constructor; [exact Hv | constructor].
    + apply Forall_cons_iff in Hlen. destruct Hlen as [Hw Hrest].
      destruct (String.eqb c l); constructor; auto.
Qed.

Lemma frame_ok_on_columns n f df :
  (forall c, col_length (f c) = col_length c) ->
  frame_ok n df -> frame_ok n (on_columns f df).
Proof.
  intros Hf [Hnd Hlen]. split.
  - rewrite columns_on_columns. exact Hnd.
  - unfold on_columns. rewrite Forall_map. simpl.
    eapply Forall_impl; [| exact Hlen]. intros [l w] Hw. simpl in *.
    rewrite Hf. exact Hw.
Qed.

Lemma cells_filter_column m c :
  cells (filter_column m c) = mask_filter m (cells c).
Proof.
  destruct c as [xs | xs | xs]; simpl; revert xs;
    induction m as [| b m IH]; intros [| x xs]; simpl; try reflexivity;
    destruct b; simpl; rewrite ?IH; reflexivity.
Qed.

Lemma length_cells c : length (cells c) = col_length c.
Proof. destruct c; simpl; apply length_map. Qed.

(** ** The temporal cell *)

Ltac split_orb H :=
  repeat match type of H with
         | (_ || _)%bool = false =>
             let H1 := fresh "Hne" in
             apply orb_false_elim in H; destruct H as [H1 H]
         end.

Ltac use_ne :=
  repeat match goal with
         | H : String.eqb ?c ?n = false |- context [String.eqb ?c ?n] => rewrite H
         end.

Ltac inv_ok H := injection H as H; try subst.

Ltac distinct_labels :=
  repeat (constructor; [simpl; intuition discriminate |]); constructor.

Section TemporalCell.
Context {conv : Conversions}.

Lemma col_length_to_datetime c : col_length (to_datetime c) = col_length c.
Proof.
  destruct c as [xs | xs | xs]; simpl;
    [apply length_map | apply to_datetime_text_length | reflexivity].
Qed.

Lemma col_length_to_numeric c : col_length (to_numeric c) = col_length c.
Proof. destruct c as [xs | xs | xs]; simpl; try apply length_map; reflexivity. Qed.

Lemma to_datetime_idem c : to_datetime (to_datetime c) = to_datetime c.
Proof. destruct c; reflexivity. Qed.

Lemma convert_date_get c col df :
  get_column c (convert_date df col)
  = if String.eqb c col then option_map to_datetime (get_column c df)
    else get_column c df.
Proof.
  unfold convert_date. destruct (String.eqb c col) eqn:E.
  - apply String.eqb_eq in E. subst col.
    destruct (get_column c df) eqn:G; simpl.
    + rewrite get_setitem, String.eqb_refl. reflexivity.
    + exact G.
  - destruct (get_column col df); [| reflexivity].
    rewrite get_setitem, E. reflexivity.
Qed.

Lemma convert_date_frame_ok n col df :
  frame_ok n df -> frame_ok n (convert_date df col).
Proof.
  intros H. unfold convert_date. destruct (get_column col df) eqn:G; [| exact H].
  apply frame_ok_setitem; [exact H |].
  rewrite col_length_to_datetime. exact (frame_ok_get _ _ _ _ H G).
Qed.

Lemma convert_dates_get c df :
  get_column c (convert_dates df)
  = if existsb (String.eqb c) date_columns
    then option_map to_datetime (get_column c df)
    else get_column c df.
Proof.
  unfold convert_dates. simpl. rewrite !convert_date_get.
  destruct (String.eqb c "StartDate") eqn:E1;
    destruct (String.eqb c "CompletionDate") eqn:E2;
    destruct (String.eqb c "PrimaryCompletionDate") eqn:E3; simpl; try reflexivity;
    destruct (get_column c df); simpl; rewrite ?to_datetime_idem; reflexivity.
Qed.

Lemma convert_dates_has c df : has_column c (convert_dates df) = has_column c df.
Proof.
  rewrite !has_column_get, convert_dates_get.
  destruct (existsb (String.eqb c) date_columns); [| reflexivity].
  destruct (get_column c df); reflexivity.
Qed.

Lemma convert_dates_frame_ok n df : frame_ok n df -> frame_ok n (convert_dates df).
Proof.
  intros H. unfold convert_dates. simpl.
  repeat apply convert_date_frame_ok. exact H.
Qed.

Lemma start_features_untouched df df' :
  start_features df = Ok df' -> untouched start_writes df df'.
Proof.
  unfold start_features. intros H.
  destruct (has_column "StartDate" df).
  - inv_bind H. inv_bind H. inv_ok H.
    repeat (apply untouched_setitem; [reflexivity |]). apply untouched_refl.
  - inv_ok H. apply untouched_refl.
Qed.

Lemma start_features_frame_ok n df df' :
  frame_ok n df -> start_features df = Ok df' -> frame_ok n df'.
Proof.
  unfold start_features. intros Hok H.
  destruct (has_column "StartDate" df).
  - inv_bind H. inv_bind H. inv_ok H.
    apply getitem_ok in H0.
    assert (L : length v0 = n).
    { destruct v as [xs | xs | xs]; try discriminate. inv_ok H1.
      exact (frame_ok_get _ _ _ _ Hok H0). }
    repeat (apply frame_ok_setitem; [| simpl; rewrite length_map; exact L]).
    exact Hok.
  - inv_ok H. exact Hok.
Qed.

(** What the three start features hold when the start date is there. *)
Lemma start_features_spec df df' :
  start_features df = Ok df' ->
  has_column "StartDate" df = true ->
  exists ts, get_column "StartDate" df = Some (DateCol ts)
    /\ get_column "start_year" df' = Some (dt_field dt_year ts)
    /\ get_column "start_month" df' = Some (dt_field dt_month ts)
    /\ get_column "start_quarter" df' = Some (dt_field dt_quarter ts).
Proof.
  unfold start_features. intros H Hs. rewrite Hs in H.
  inv_bind H. inv_bind H. inv_ok H. apply getitem_ok in H0.
  destruct v as [xs | xs | xs]; try discriminate. inv_ok H1.
  exists v0. rewrite !get_setitem. simpl. auto.
Qed.

Lemma start_features_absent df df' :
  start_features df = Ok df' -> has_column "StartDate" df = false -> df' = df.
Proof.
  unfold start_features. intros H Hs. rewrite Hs in H. inv_ok H. reflexivity.
Qed.

Lemma length_timedelta_days a : forall b,
  length b = length a -> length (timedelta_days a b) = length a.
Proof.
  induction a as [| x a IH]; intros [| y b]; simpl; intros H;
    try reflexivity; try discriminate.
  f_equal. apply IH. congruence.
Qed.

Lemma duration_feature_untouched df df' :
  duration_feature df = Ok df' -> untouched ["trial_duration_days"] df df'.
Proof.
  unfold duration_feature. intros H.
  destruct (negb (has_column "trial_duration_days" df) && has_column "CompletionDate" df).
  - do 4 inv_bind H. inv_ok H.
    apply untouched_setitem; [reflexivity | apply untouched_refl].
  - inv_ok H. apply untouched_refl.
Qed.

Lemma duration_feature_frame_ok n df df' :
  frame_ok n df -> duration_feature df = Ok df' -> frame_ok n df'.
Proof.
  unfold duration_feature. intros Hok H.
  destruct (negb (has_column "trial_duration_days" df) && has_column "CompletionDate" df).
  - do 4 inv_bind H. inv_ok H.
    apply getitem_ok in H0, H1.
    destruct v as [? | ? | c]; try discriminate. inv_ok H2.
    destruct v0 as [? | ? | s]; try discriminate. inv_ok H3.
    apply frame_ok_setitem; [exact Hok |].
    pose proof (frame_ok_get _ _ _ _ Hok H0) as Lc.
    pose proof (frame_ok_get _ _ _ _ Hok H1) as Ls. simpl in Lc, Ls.
    simpl. unfold fillna, negative_to_nan. rewrite !length_map.
    rewrite length_timedelta_days; congruence.
  - inv_ok H. exact Hok.
Qed.

Lemma duration_feature_spec df df' col :
  duration_feature df = Ok df' ->
  has_column "trial_duration_days" df = false ->
  get_column "trial_duration_days" df' = Some col ->
  exists c s, get_column "CompletionDate" df = Some (DateCol c)
    /\ get_column "StartDate" df = Some (DateCol s)
    /\ col = computed_duration c s.
Proof.
  unfold duration_feature. intros H Hd G. rewrite Hd in H. simpl in H.
  destruct (has_column "CompletionDate" df).
  - do 4 inv_bind H. inv_ok H.
    apply getitem_ok in H0, H1.
    destruct v as [? | ? | c]; try discriminate. inv_ok H2.
    destruct v0 as [? | ? | s]; try discriminate. inv_ok H3.
    rewrite get_setitem in G. simpl in G. inv_ok G.
    do 2 eexists. repeat split; eassumption.
  - inv_ok H. rewrite has_column_get, G in Hd. discriminate.
Qed.

Lemma duration_feature_present df df' :
  duration_feature df = Ok df' ->
  has_column "trial_duration_days" df = true -> df' = df.
Proof.
  unfold duration_feature. intros H Hd. rewrite Hd in H. inv_ok H. reflexivity.
Qed.

Lemma temporal_cell_steps df df' :
  temporal_cell df = Ok df' ->
  exists d, start_features (convert_dates df) = Ok d /\ duration_feature d = Ok df'
    /\ temporal_features df' <> [].
Proof.
  unfold temporal_cell. fold (convert_dates df). intros H.
  do 3 inv_bind H. inv_ok H. exists v. repeat split; try assumption.
  intros E. rewrite E in H2. discriminate.
Qed.

Lemma temporal_cell_untouched df df' :
  temporal_cell df = Ok df' -> untouched temporal_writes df df'.
Proof.
  intros H. apply temporal_cell_steps in H. destruct H as (d & H1 & H2 & _).
  apply start_features_untouched in H1. apply duration_feature_untouched in H2.
  intros c Hc. simpl in Hc. split_orb Hc.
  rewrite (H2 c), (H1 c), convert_dates_get by (simpl; use_ne; reflexivity).
  simpl. use_ne. reflexivity.
Qed.

Lemma temporal_cell_frame_ok n df df' :
  frame_ok n df -> temporal_cell df = Ok df' -> frame_ok n df'.
Proof.
  intros Hok H. apply temporal_cell_steps in H. destruct H as (d & H1 & H2 & _).
  eapply duration_feature_frame_ok; [| exact H2].
  eapply start_features_frame_ok; [| exact H1].
  apply convert_dates_frame_ok. exact Hok.
Qed.

(** ** The categorical cell *)

Lemma contains_indicator_ok source pat target df df' :
  contains_indicator source pat target df = Ok df' ->
  exists xs, get_column source df = Some (ObjCol xs)
    /\ df' = setitem target (flags pat xs) df.
Proof.
  unfold contains_indicator. intros H. do 2 inv_bind H. inv_ok H.
  apply getitem_ok in H0. destruct v as [xs | xs | xs]; try discriminate.
  inv_ok H1. exists xs. split; [exact H0 | reflexivity].
Qed.

End TemporalCell.

Ltac inv_indicator H :=
  let xs := fresh "xs" in
  let G := fresh "G" in
  apply contains_indicator_ok in H; destruct H as (xs & G & H);
  rewrite ?get_setitem in G; simpl in G.

Section Indicators.
Context {conv : Conversions}.

Lemma sponsor_indicator_ok df df' :
  sponsor_indicator df = Ok df' ->
  if has_column "LeadSponsorClass" df then
    exists c, get_column "LeadSponsorClass" df = Some c
      /\ df' = setitem "is_industry_sponsored" (mask_to_int (eq_str_mask "INDUSTRY" c)) df
  else df' = df.
Proof.
  unfold sponsor_indicator. intros H. destruct (has_column "LeadSponsorClass" df).
  - inv_bind H. inv_ok H. apply getitem_ok in H0. eauto.
  - inv_ok H. reflexivity.
Qed.

Lemma phase_indicators_ok df df' :
  phase_indicators df = Ok df' ->
  if has_column "Phase" df then
    exists xs, get_column "Phase" df = Some (ObjCol xs)
      /\ df' = setitem "is_phase_4" (flags "Phase 4" xs)
                (setitem "is_phase_3" (flags "Phase 3" xs)
                   (setitem "is_phase_2" (flags "Phase 2" xs)
                      (setitem "is_phase_1" (flags "Phase 1" xs) df)))
  else df' = df.
Proof.
  unfold phase_indicators. intros H. destruct (has_column "Phase" df).
  - do 3 inv_bind H.
    inv_indicator H0. subst v. inv_indicator H1. subst v0.
    inv_indicator H2. subst v1. inv_indicator H. subst df'.
    exists xs. split; [assumption | congruence].
  - inv_ok H. reflexivity.
Qed.

Lemma design_indicators_ok df df' :
  design_indicators df = Ok df' ->
  if has_column "StudyDesign" df then
    exists xs, get_column "StudyDesign" df = Some (ObjCol xs)
      /\ df' = setitem "is_open_label" (flags "Open Label" xs)
                (setitem "is_single_blind" (flags "Single Blind" xs)
                   (setitem "is_double_blind" (flags "Double Blind" xs)
                      (setitem "is_randomized" (flags "Randomized" xs) df)))
  else df' = df.
Proof.
  unfold design_indicators. intros H. destruct (has_column "StudyDesign" df).
  - do 3 inv_bind H.
    inv_indicator H0. subst v. inv_indicator H1. subst v0.
    inv_indicator H2. subst v1. inv_indicator H. subst df'.
    exists xs. split; [assumption | congruence].
  - inv_ok H. reflexivity.
Qed.

Lemma country_indicators_ok df df' :
  country_indicators df = Ok df' ->
  if has_column "LocationCountry" df then
    exists xs, get_column "LocationCountry" df = Some (ObjCol xs)
      /\ df' = setitem "has_us_sites" (flags "United States" xs)
                (setitem "is_multi_country" (flags "," xs) df)
  else df' = df.
Proof.
  unfold country_indicators. intros H. destruct (has_column "LocationCountry" df).
  - inv_bind H.
    inv_indicator H0. subst v. inv_indicator H. subst df'.
    exists xs. split; [assumption | congruence].
  - inv_ok H. reflexivity.
Qed.

Lemma categorical_cell_steps df df' :
  categorical_cell df = Ok df' ->
  exists d1 d2 d3,
    sponsor_indicator df = Ok d1 /\ phase_indicators d1 = Ok d2
    /\ design_indicators d2 = Ok d3 /\ country_indicators d3 = Ok df'
    /\ binary_features df' <> [].
Proof.
  unfold categorical_cell. intros H. do 5 inv_bind H. inv_ok H.
  exists v, v0, v1. repeat split; try assumption.
  intros E. rewrite E in H4. discriminate.
Qed.

Lemma Forall_is_flag_bools (A : Type) (f : A -> bool) xs :
  Forall is_flag (map (fun x => bool_to_int (f x)) xs).
Proof.
  apply Forall_map. apply Forall_forall. intros x _.
  unfold is_flag, bool_to_int. destruct (f x); auto.
Qed.

Lemma flags_are_flags pat xs :
  exists ys, Some (flags pat xs) = Some (NumCol ys) /\ Forall is_flag ys.
Proof.
  eexists. split; [reflexivity |].
  apply Forall_map. apply Forall_forall. intros [x |] _;
    unfold is_flag, bool_to_int; [destruct (contains pat x) |]; auto.
Qed.

Lemma mask_to_int_flags m :
  exists ys, Some (mask_to_int m) = Some (NumCol ys) /\ Forall is_flag ys.
Proof.
  eexists. split; [reflexivity |].
  apply Forall_map. apply Forall_forall. intros x _.
  unfold is_flag, bool_to_int. destruct x; auto.
Qed.

Lemma col_length_flags pat xs : col_length (flags pat xs) = length xs.
Proof. simpl. apply length_map. Qed.

Lemma length_eq_str_mask v c : length (eq_str_mask v c) = col_length c.
Proof. destruct c; simpl; apply length_map. Qed.

Lemma length_isin_mask vs c : length (isin_mask vs c) = col_length c.
Proof. destruct c; simpl; apply length_map. Qed.

Lemma col_length_mask_to_int m : col_length (mask_to_int m) = length m.
Proof. simpl. apply length_map. Qed.

End Indicators.

(** The frame the categorical cell ends with, written out. *)
Ltac open_categorical H :=
  let d1 := fresh "d" in
  let d2 := fresh "d" in
  let d3 := fresh "d" in
  let H1 := fresh "Hs" in
  let H2 := fresh "Hp" in
  let H3 := fresh "Hd" in
  let H4 := fresh "Hc" in
  apply categorical_cell_steps in H;
  destruct H as (d1 & d2 & d3 & H1 & H2 & H3 & H4 & H);
  apply sponsor_indicator_ok in H1; apply phase_indicators_ok in H2;
  apply design_indicators_ok in H3; apply country_indicators_ok in H4;
  match type of H1 with
  | if ?b then _ else _ =>
      destruct b eqn:?; [destruct H1 as (? & ? & H1) |]; subst d1
  end;
  rewrite ?has_setitem in H2; simpl in H2;
  match type of H2 with
  | if ?b then _ else _ =>
      destruct b eqn:?; [destruct H2 as (? & ? & H2) |]; subst d2
  end;
  rewrite ?has_setitem in H3; simpl in H3;
  match type of H3 with
  | if ?b then _ else _ =>
      destruct b eqn:?; [destruct H3 as (? & ? & H3) |]; subst d3
  end;
  rewrite ?has_setitem in H4; simpl in H4;
  match type of H4 with
  | if ?b then _ else _ =>
      destruct b eqn:?; [destruct H4 as (? & ? & H4) |]; subst
  end;
  repeat match goal with
         | G : get_column _ (setitem _ _ _) = _ |- _ =>
             rewrite !get_setitem in G; simpl in G
         end.

Section CategoricalCell.
Context {conv : Conversions}.

Lemma categorical_cell_untouched df df' :
  categorical_cell df = Ok df' -> untouched indicator_writes df df'.
Proof.
  intros H. open_categorical H;
    repeat (apply untouched_setitem; [reflexivity |]); apply untouched_refl.
Qed.

Lemma categorical_cell_frame_ok n df df' :
  frame_ok n df -> categorical_cell df = Ok df' -> frame_ok n df'.
Proof.
  intros Hok H. open_categorical H;
    repeat match goal with
           | G : get_column _ _ = Some _ |- _ =>
               apply (frame_ok_get _ _ _ _ Hok) in G; simpl in G
           end;
    repeat (apply frame_ok_setitem;
            [| rewrite ?col_length_flags, ?col_length_mask_to_int, ?length_eq_str_mask;
               assumption]);
    exact Hok.
Qed.

Lemma categorical_cell_flags df df' target source :
  categorical_cell df = Ok df' ->
  In (target, source) indicator_sources ->
  has_column source df = true ->
  exists ys, get_column target df' = Some (NumCol ys) /\ Forall is_flag ys.
Proof.
  intros H Hin Hs. simpl in Hin.
  open_categorical H;
    repeat (destruct Hin as [Hin | Hin]; [inv_ok Hin |]); try contradiction;
    try congruence;
    rewrite ?get_setitem; simpl;
    first [ apply flags_are_flags | apply mask_to_int_flags ].
Qed.

(** ** The text cell *)

Lemma length_feature_ok df col df' :
  length_feature df col = Ok df' ->
  exists c, get_column col df = Some c
    /\ df' = setitem (col ++ "_length") (text_length col c) df.
Proof.
  unfold length_feature. intros H. inv_bind H. inv_ok H.
  apply getitem_ok in H0. eauto.
Qed.

Lemma col_length_text_length col c : col_length (text_length col c) = col_length c.
Proof. destruct c; simpl; apply length_map. Qed.

End CategoricalCell.

Ltac inv_length H :=
  let c := fresh "c" in
  let G := fresh "G" in
  apply length_feature_ok in H; destruct H as (c & G & H);
  rewrite ?get_setitem in G; simpl in G.

Ltac open_text H :=
  unfold text_cell in H; simpl in H;
  destruct (has_column "BriefTitle" _) eqn:?;
  destruct (has_column "BriefSummary" _) eqn:?;
  destruct (has_column "DetailedDescription" _) eqn:?;
  simpl in H;
  repeat match goal with
         | G : bind _ _ = Ok _ |- _ =>
             let v := fresh "v" in
             let Hv := fresh "Hv" in
             apply bind_ok in G; destruct G as (v & Hv & G)
         | G : length_feature _ _ = Ok _ |- _ => inv_length G; subst
         | G : Ok _ = Ok _ |- _ => inv_ok G
         end;
  repeat match goal with
         | G : get_column _ (setitem _ _ _) = _ |- _ =>
             rewrite !get_setitem in G; simpl in G
         end.

Section TextAndTarget.
Context {conv : Conversions}.

Lemma text_cell_untouched df df' :
  text_cell df = Ok df' -> untouched length_writes df df'.
Proof.
  intros H. open_text H;
    repeat (apply untouched_setitem; [reflexivity |]); apply untouched_refl.
Qed.

Lemma text_cell_frame_ok n df df' :
  frame_ok n df -> text_cell df = Ok df' -> frame_ok n df'.
Proof.
  intros Hok H. open_text H;
    repeat match goal with
           | G : get_column _ _ = Some _ |- _ =>
               apply (frame_ok_get _ _ _ _ Hok) in G
           end;
    repeat (apply frame_ok_setitem; [| rewrite col_length_text_length; assumption]);
    exact Hok.
Qed.

(** Every available text column gets its length feature. *)
Lemma text_cell_spec df df' col :
  text_cell df = Ok df' ->
  In col text_columns ->
  has_column col df = true ->
  exists c, get_column col df = Some c
    /\ get_column (col ++ "_length") df' = Some (text_length col c).
Proof.
  intros H Hin Hs. simpl in Hin.
  open_text H;
    repeat (destruct Hin as [Hin | Hin]; [subst col |]); try contradiction;
    try congruence;
    simpl; rewrite ?get_setitem; simpl; eauto.
Qed.

(** ** The target cell *)

Lemma target_cell_ok df clean modeling :
  target_cell df = Ok (clean, modeling) ->
  if negb (has_column "completion_status" df) && has_column "OverallStatus" df then
    exists status, get_column "OverallStatus" df = Some status
      /\ clean = setitem "completion_status"
                   (mask_to_int (eq_str_mask "Completed" status)) df
      /\ modeling = filter_rows (isin_mask completed_statuses status) clean
  else clean = df /\ modeling = df.
Proof.
  unfold target_cell. intros H.
  destruct (negb (has_column "completion_status" df) && has_column "OverallStatus" df).
  - do 2 inv_bind H. apply getitem_ok in H0, H1.
    rewrite get_setitem in H1. simpl in H1. rewrite H0 in H1. inv_ok H1.
    injection H as <- <-. eauto.
  - injection H as <- <-. auto.
Qed.

Lemma target_cell_untouched df clean modeling :
  target_cell df = Ok (clean, modeling) -> untouched ["completion_status"] df clean.
Proof.
  intros H. apply target_cell_ok in H.
  destruct (negb (has_column "completion_status" df) && has_column "OverallStatus" df).
  - destruct H as (st & _ & -> & _).
    apply untouched_setitem; [reflexivity | apply untouched_refl].
  - destruct H as [-> _]. apply untouched_refl.
Qed.

Lemma target_cell_frame_ok n df clean modeling :
  frame_ok n df -> target_cell df = Ok (clean, modeling) -> frame_ok n clean.
Proof.
  intros Hok H. apply target_cell_ok in H.
  destruct (negb (has_column "completion_status" df) && has_column "OverallStatus" df).
  - destruct H as (st & G & -> & _).
    apply frame_ok_setitem; [exact Hok |].
    rewrite col_length_mask_to_int, length_eq_str_mask.
    exact (frame_ok_get _ _ _ _ Hok G).
  - destruct H as [-> _]. exact Hok.
Qed.

(** ** Data preparation *)

Lemma data_preparation_eq df :
  NoDup (columns df) ->
  data_preparation df
  = (e <- getitem "EnrollmentCount" df ;;
     map_columns impute_mode_strict
       (on_columns impute_numeric (setitem "EnrollmentCount" (to_numeric e) df))).
Proof.
  intros Hnd. unfold data_preparation.
  destruct (getitem "EnrollmentCount" df) as [e | ?] eqn:G; simpl; [| reflexivity].
  apply getitem_ok in G.
  assert (Hnd' : NoDup (columns (setitem "EnrollmentCount" (to_numeric e) df))).
  { rewrite columns_setitem, has_column_get, G. exact Hnd. }
  rewrite fill_numeric_loop by exact Hnd'.
  apply fill_categorical_loop. rewrite columns_on_columns. exact Hnd'.
Qed.

Lemma data_preparation_ok df clean :
  NoDup (columns df) ->
  data_preparation df = Ok clean ->
  exists e, get_column "EnrollmentCount" df = Some e
    /\ clean = on_columns cleaned (setitem "EnrollmentCount" (to_numeric e) df).
Proof.
  intros Hnd H. rewrite data_preparation_eq in H by exact Hnd.
  inv_bind H. apply getitem_ok in H0. exists v. split; [exact H0 |].
  apply map_columns_ok in H. subst clean.
  unfold on_columns, cleaned. rewrite map_map. reflexivity.
Qed.

Lemma col_length_cleaned c : col_length (cleaned c) = col_length c.
Proof.
  unfold cleaned. destruct c as [xs | xs | xs]; simpl;
    try (unfold fillna; apply length_map); try reflexivity.
  destruct (mode0 xs); simpl; [unfold fillna; apply length_map | reflexivity].
Qed.

Lemma data_preparation_frame_ok n df clean :
  frame_ok n df -> data_preparation df = Ok clean -> frame_ok n clean.
Proof.
  intros Hok H. destruct (data_preparation_ok _ _ (proj1 Hok) H) as (e & G & ->).
  apply frame_ok_on_columns; [apply col_length_cleaned |].
  apply frame_ok_setitem; [exact Hok |].
  rewrite col_length_to_numeric. exact (frame_ok_get _ _ _ _ Hok G).
Qed.

Lemma data_preparation_get df clean c :
  NoDup (columns df) ->
  data_preparation df = Ok clean ->
  get_column c clean
  = option_map cleaned
      (if String.eqb c "EnrollmentCount"
       then option_map to_numeric (get_column c df)
       else get_column c df).
Proof.
  intros Hnd H. destruct (data_preparation_ok _ _ Hnd H) as (e & G & ->).
  rewrite get_on_columns, get_setitem.
  destruct (String.eqb c "EnrollmentCount") eqn:E; [| reflexivity].
  apply String.eqb_eq in E. subst c. rewrite G. reflexivity.
Qed.

Lemma data_preparation_has df clean c :
  NoDup (columns df) ->
  data_preparation df = Ok clean -> has_column c clean = has_column c df.
Proof.
  intros Hnd H. rewrite !has_column_get, (data_preparation_get _ _ c Hnd H).
  destruct (String.eqb c "EnrollmentCount"); destruct (get_column c df); reflexivity.
Qed.

(** ** The whole notebook *)

Lemma feature_engineering_steps df clean modeling :
  feature_engineering df = Ok (clean, modeling) ->
  exists d1 d2 d3 d4,
    data_preparation df = Ok d1 /\ temporal_cell d1 = Ok d2
    /\ categorical_cell d2 = Ok d3 /\ text_cell d3 = Ok d4
    /\ target_cell d4 = Ok (clean, modeling).
Proof.
  unfold feature_engineering. intros H. do 6 inv_bind H. inv_ok H.
  exists v, v0, v1, v2. auto.
Qed.

Lemma downstream_untouched d1 d2 d3 d4 clean modeling :
  temporal_cell d1 = Ok d2 -> categorical_cell d2 = Ok d3 ->
  text_cell d3 = Ok d4 -> target_cell d4 = Ok (clean, modeling) ->
  untouched derived_labels d1 clean.
Proof.
  intros H2 H3 H4 H5.
  apply temporal_cell_untouched in H2. apply categorical_cell_untouched in H3.
  apply text_cell_untouched in H4. apply target_cell_untouched in H5.
  intros c Hc. unfold derived_labels in Hc. rewrite !existsb_app in Hc.
  apply orb_false_elim in Hc. destruct Hc as [Hc1 Hc].
  apply orb_false_elim in Hc. destruct Hc as [Hc2 Hc].
  apply orb_false_elim in Hc. destruct Hc as [Hc3 Hc4].
  rewrite (H5 c Hc4), (H4 c Hc3), (H3 c Hc2), (H2 c Hc1). reflexivity.
Qed.

Lemma feature_engineering_frame_ok n df clean modeling :
  frame_ok n df -> feature_engineering df = Ok (clean, modeling) -> frame_ok n clean.
Proof.
  intros Hok H. apply feature_engineering_steps in H.
  destruct H as (d1 & d2 & d3 & d4 & H1 & H2 & H3 & H4 & H5).
  eapply target_cell_frame_ok; [| exact H5].
  eapply text_cell_frame_ok; [| exact H4].
  eapply categorical_cell_frame_ok; [| exact H3].
  eapply temporal_cell_frame_ok; [| exact H2].
  eapply data_preparation_frame_ok; [exact Hok | exact H1].
Qed.

End TextAndTarget.

(** ** Medians *)

Lemma insert_asc_In x y l : In y (insert_asc x l) <-> y = x \/ In y l.
Proof.
  induction l as [| z l IH]; simpl.
  - intuition.
  - destruct (Qle_bool x z); simpl; [intuition |]. rewrite IH. intuition.
Qed.

Lemma sort_asc_In y l : In y (sort_asc l) <-> In y l.
Proof.
  induction l as [| x l IH]; simpl; [reflexivity |].
  rewrite insert_asc_In, IH. intuition.
Qed.

Lemma median_In_bound (P : Q -> Prop) xs :
  (forall a b, P a -> P b -> P ((a + b) / 2)%Q) ->
  P 0%Q ->
  Forall P (dropna xs) ->
  match median xs with Some m => P m | None => True end.
Proof.
  intros Hmid H0 Hall. unfold median.
  assert (Hs : forall y, In y (sort_asc (dropna xs)) -> P y).
  { intros y Hy. apply (proj1 (sort_asc_In y (dropna xs))) in Hy.
    exact (proj1 (Forall_forall P (dropna xs)) Hall y Hy). }
  set (v := sort_asc (dropna xs)) in *. clearbody v.
  destruct (length v) eqn:L; [exact I |]. rewrite <- L. clear L n.
  assert (Hnth : forall k, P (nth k v 0%Q)).
  { intros k. destruct (nth_in_or_default k v 0%Q) as [Hin | ->]; auto. }
  destruct (Nat.odd (length v)).
  - destruct (nth_error v (length v / 2)) eqn:E; [| exact I].
    apply Hs. exact (nth_error_In _ _ E).
  - apply Hmid; apply Hnth.
Qed.

Lemma median_not_negative xs :
  Forall (fun x => (0 <= x)%Q) (dropna xs) -> not_negative (median xs).
Proof.
  intros H. unfold not_negative.
  apply (median_In_bound (fun x => (0 <= x)%Q)); [| apply Qle_refl | exact H].
  intros a b Ha Hb. unfold Qdiv. apply Qmult_le_0_compat.
  - replace 0%Q with (0 + 0)%Q by reflexivity. apply Qplus_le_compat; assumption.
  - discriminate.
Qed.

Lemma dropna_negative_to_nan raw :
  dropna (FeatureEngineering.negative_to_nan raw) = dropna (filter valid_duration raw).
Proof.
  unfold FeatureEngineering.negative_to_nan, FeatureEngineering.Qlt_bool.
  induction raw as [| [d |] raw IH]; simpl; [reflexivity | | exact IH].
  destruct (Qle_bool 0 d); simpl; rewrite IH; reflexivity.
Qed.

Lemma median_dropna xs ys : dropna xs = dropna ys -> median xs = median ys.
Proof. unfold median. intros ->. reflexivity. Qed.

Lemma computed_duration_repaired c s :
  computed_duration c s = NumCol (repaired_durations (timedelta_days c s)).
Proof.
  unfold computed_duration, repaired_durations. f_equal.
  rewrite (median_dropna _ _ (dropna_negative_to_nan (timedelta_days c s))).
  unfold fillna, FeatureEngineering.negative_to_nan, FeatureEngineering.Qlt_bool.
  rewrite map_map. apply map_ext. intros [d |]; simpl; [| reflexivity].
  destruct (Qle_bool 0 d); reflexivity.
Qed.

Lemma repaired_not_negative raw : Forall not_negative (repaired_durations raw).
Proof.
  unfold repaired_durations.
  assert (Hm : not_negative (median (filter valid_duration raw))).
  { apply median_not_negative.
    induction raw as [| [d |] raw IH]; simpl; [constructor | | exact IH].
    destruct (Qle_bool 0 d) eqn:E; simpl; [| exact IH].
    constructor; [apply Qle_bool_iff; exact E | exact IH]. }
  apply Forall_map. apply Forall_forall. intros [d |] _; simpl; [| exact Hm].
  destruct (Qle_bool 0 d) eqn:E; [| exact Hm].
  apply Qle_bool_iff. exact E.
Qed.

Lemma Forall_mask_filter {A : Type} (P : A -> Prop) m : forall xs,
  Forall P xs -> Forall P (mask_filter m xs).
Proof.
  induction m as [| b m IH]; intros xs H; [constructor |].
  destruct H as [| x xs Hx Hxs]; simpl; [constructor |].
  destruct b; [constructor; [exact Hx |] |]; apply IH; exact Hxs.
Qed.

Lemma get_filter_rows c m df :
  get_column c (filter_rows m df) = option_map (filter_column m) (get_column c df).
Proof.
  induction df as [| [l w] rest IH]; simpl; [reflexivity |].
  destruct (String.eqb c l); [reflexivity | exact IH].
Qed.

(** ** Rows *)

Lemma length_add_column l cs rs :
  length cs = length rs -> length (add_column l cs rs) = length rs.
Proof.
  intros H. unfold add_column. rewrite length_map, length_combine, H.
  apply Nat.min_id.
Qed.

Lemma length_rows n df :
  Forall (fun nc => col_length (snd nc) = n) df -> length (rows n df) = n.
Proof.
  induction df as [| [l c] rest IH]; simpl; intros H.
  - apply repeat_length.
  - apply Forall_cons_iff in H. destruct H as [Hc Hrest]. simpl in Hc.
    rewrite length_add_column; rewrite (IH Hrest); [reflexivity |].
    rewrite length_cells. exact Hc.
Qed.

Lemma mask_filter_map {A B : Type} (f : A -> B) m : forall xs,
  mask_filter m (map f xs) = map f (mask_filter m xs).
Proof.
  induction m as [| b m IH]; intros [| x xs]; simpl; try reflexivity.
  destruct b; simpl; rewrite IH; reflexivity.
Qed.

Lemma mask_filter_combine {A B : Type} m : forall (xs : list A) (ys : list B),
  mask_filter m (combine xs ys) = combine (mask_filter m xs) (mask_filter m ys).
Proof.
  induction m as [| b m IH]; intros [| x xs] [| y ys]; simpl; try reflexivity;
    destruct b; simpl; rewrite ?IH, ?combine_nil; reflexivity.
Qed.

Lemma mask_filter_repeat {A : Type} (a : A) m :
  mask_filter m (repeat a (length m)) = repeat a (length (filter (fun b => b) m)).
Proof.
  induction m as [| b m IH]; simpl; [reflexivity |].
  destruct b; simpl; rewrite IH; reflexivity.
Qed.

Lemma length_mask_filter {A : Type} m : forall xs : list A,
  length xs = length m ->
  length (mask_filter m xs) = length (filter (fun b => b) m).
Proof.
  induction m as [| b m IH]; intros [| x xs]; simpl; intros H;
    try reflexivity; try discriminate.
  destruct b; simpl; rewrite IH by congruence; reflexivity.
Qed.

Lemma mask_filter_add_column l m cs rs :
  mask_filter m (add_column l cs rs)
  = add_column l (mask_filter m cs) (mask_filter m rs).
Proof.
  unfold add_column. rewrite mask_filter_map, mask_filter_combine. reflexivity.
Qed.

Lemma rows_filter_rows m df :
  rows (length (filter (fun b => b) m)) (filter_rows m df)
  = mask_filter m (rows (length m) df).
Proof.
  induction df as [| [l c] rest IH]; simpl.
  - symmetry. apply mask_filter_repeat.
  - rewrite IH, cells_filter_column, mask_filter_add_column. reflexivity.
Qed.

Lemma nrows_frame_ok n df : frame_ok n df -> df <> [] -> nrows df = n.
Proof.
  intros [_ H] Hne. destruct df as [| [l c] rest]; [contradiction |].
  apply Forall_cons_iff in H. exact (proj1 H).
Qed.

Lemma col_length_filter_column m c :
  col_length c = length m ->
  col_length (filter_column m c) = length (filter (fun b => b) m).
Proof. destruct c; simpl; apply length_mask_filter. Qed.

Lemma table_rows_filter_rows n m df :
  frame_ok n df -> df <> [] -> length m = n ->
  table_rows (filter_rows m df) = mask_filter m (table_rows df).
Proof.
  intros Hok Hne Hm. unfold table_rows.
  rewrite (nrows_frame_ok n df Hok Hne), <- Hm, <- rows_filter_rows. f_equal.
  destruct df as [| [l c] rest]; [contradiction |]. simpl.
  apply col_length_filter_column.
  destruct Hok as [_ H]. apply Forall_cons_iff in H. simpl in H. lia.
Qed.

Lemma mask_filter_by {A : Type} (p : A -> bool) (l : list A) :
  mask_filter (map p l) l = filter p l.
Proof.
  induction l as [| x l IH]; simpl; [reflexivity |].
  rewrite IH. reflexivity.
Qed.

(** The cells of a column, read off the rows. *)
Lemma map_row_get n c df col :
  Forall (fun nc => col_length (snd nc) = n) df ->
  get_column c df = Some col ->
  map (row_get c) (rows n df) = map Some (cells col).
Proof.
  induction df as [| [l w] rest IH]; simpl; intros H G; [discriminate |].
  apply Forall_cons_iff in H. destruct H as [Hw Hrest]. simpl in Hw.
  pose proof (length_rows n rest Hrest) as Lr.
  pose proof (length_cells w) as Lw. rewrite Hw in Lw.
  unfold add_column. rewrite map_map. simpl.
  destruct (String.eqb c l).
  - injection G as <-.
    clear IH Hrest Hw. revert Lr Lw. generalize (rows n rest), (cells w).
    intros rs cs. revert n rs.
    induction cs as [| x cs IHc]; intros n [| r rs]; simpl; intros; try reflexivity;
      try (subst n; discriminate).
    f_equal. destruct n; [discriminate |]. apply (IHc n); congruence.
  - rewrite <- (IH Hrest G).
    clear IH Hrest Hw G. revert Lr Lw. generalize (rows n rest), (cells w).
    intros rs cs. revert n rs.
    induction cs as [| x cs IHc]; intros n [| r rs]; simpl; intros; try reflexivity;
      try (subst n; discriminate).
    f_equal. destruct n; [discriminate |]. apply (IHc n); congruence.
Qed.

Lemma isin_mask_cells vs col : isin_mask vs col = map (cell_in vs) (cells col).
Proof.
  destruct col as [xs | xs | xs]; simpl; rewrite map_map; apply map_ext;
    intros [x |]; reflexivity.
Qed.

Lemma eq_str_mask_isin v col : eq_str_mask v col = isin_mask [v] col.
Proof.
  destruct col as [xs | xs | xs]; simpl; try reflexivity.
  apply map_ext. intros [s |]; simpl; [rewrite orb_false_r |]; reflexivity.
Qed.

Lemma isin_mask_rows n vs c df col :
  Forall (fun nc => col_length (snd nc) = n) df ->
  get_column c df = Some col ->
  isin_mask vs col = map (text_in vs c) (rows n df).
Proof.
  intros H G. rewrite isin_mask_cells.
  assert (E : map (text_in vs c) (rows n df)
              = map (fun o => match o with Some x => cell_in vs x | None => false end)
                    (map (row_get c) (rows n df))).
  { rewrite map_map. apply map_ext. intros r. unfold text_in, row_text.
    destruct (row_get c r) as [[x | [s |] | x] |]; reflexivity. }
  rewrite E, (map_row_get n c df col H G), map_map. reflexivity.
Qed.

Lemma map_eq_Forall {A B : Type} (f g : A -> B) l :
  map f l = map g l -> Forall (fun x => f x = g x) l.
Proof.
  induction l as [| x l IH]; simpl; intros H; constructor.
  - congruence.
  - apply IH. congruence.
Qed.

Lemma Forall_filter_keep {A : Type} (P : A -> Prop) p l :
  Forall P l -> Forall P (filter p l).
Proof.
  intros H. apply Forall_forall. intros x Hx. apply filter_In in Hx.
  exact (proj1 (Forall_forall P l) H x (proj1 Hx)).
Qed.

Lemma get_column_not_nil c df v : get_column c df = Some v -> df <> [].
Proof. destruct df; [discriminate | discriminate]. Qed.

(** The target column, read row by row. *)
Lemma target_rows n df st :
  frame_ok n df ->
  get_column "OverallStatus" df = Some st ->
  Forall (fun r => row_get "completion_status" r
                   = Some (NumCell (bool_to_int (text_in ["Completed"] "OverallStatus" r))))
         (rows n (setitem "completion_status" (mask_to_int (eq_str_mask "Completed" st)) df)).
Proof.
  intros Hok G.
  set (clean := setitem _ _ df).
  assert (Hok' : frame_ok n clean).
  { apply frame_ok_setitem; [exact Hok |].
    rewrite col_length_mask_to_int, length_eq_str_mask.
    exact (frame_ok_get _ _ _ _ Hok G). }
  assert (G' : get_column "OverallStatus" clean = Some st).
  { unfold clean. rewrite get_setitem. exact G. }
  assert (Gt : get_column "completion_status" clean
               = Some (mask_to_int (eq_str_mask "Completed" st))).
  { unfold clean. rewrite get_setitem. reflexivity. }
  apply map_eq_Forall.
  rewrite (map_row_get n _ _ _ (proj2 Hok') Gt).
  rewrite eq_str_mask_isin, (isin_mask_rows n _ _ _ _ (proj2 Hok') G').
  simpl. rewrite !map_map. reflexivity.
Qed.


(** The target cell on a rectangular input, row by row. *)
Lemma modeling_rows_spec {conv : Conversions} n df clean modeling :
  frame_ok n df ->
  has_column "OverallStatus" df = true ->
  has_column "completion_status" df = false ->
  FeatureEngineering.feature_engineering df = Ok (clean, modeling) ->
  frame_ok n clean
  /\ nrows clean = n
  /\ get_column "OverallStatus" clean = option_map cleaned (get_column "OverallStatus" df)
  /\ table_rows modeling
     = filter (text_in FeatureEngineering.completed_statuses "OverallStatus")
              (table_rows clean)
  /\ Forall (fun r => row_get "completion_status" r
                      = Some (NumCell (bool_to_int
                                         (text_in ["Completed"] "OverallStatus" r))))
            (table_rows clean).
Proof.
  intros Hok Hst Hno H.
  pose proof (feature_engineering_frame_ok n _ _ _ Hok H) as Hclean.
  apply feature_engineering_steps in H.
  destruct H as (d1 & d2 & d3 & d4 & H1 & H2 & H3 & H4 & H5).
  assert (Hok4 : frame_ok n d4).
  { eapply text_cell_frame_ok; [| exact H4].
    eapply categorical_cell_frame_ok; [| exact H3].
    eapply temporal_cell_frame_ok; [| exact H2].
    eapply data_preparation_frame_ok; [exact Hok | exact H1]. }
  assert (Hpre : forall c, existsb (String.eqb c)
                    (temporal_writes ++ indicator_writes ++ length_writes) = false ->
                  get_column c d4 = get_column c d1).
  { intros c Hc. rewrite !existsb_app in Hc.
    apply orb_false_elim in Hc. destruct Hc as [Hc1 Hc].
    apply orb_false_elim in Hc. destruct Hc as [Hc2 Hc3].
    rewrite (text_cell_untouched _ _ H4 c Hc3),
      (categorical_cell_untouched _ _ H3 c Hc2),
      (temporal_cell_untouched _ _ H2 c Hc1). reflexivity. }
  assert (Hhas : forall c, existsb (String.eqb c)
                    (temporal_writes ++ indicator_writes ++ length_writes) = false ->
                  has_column c d4 = has_column c df).
  { intros c Hc. rewrite has_column_get, (Hpre c Hc), <- has_column_get.
    exact (data_preparation_has _ _ c (proj1 Hok) H1). }
  apply target_cell_ok in H5.
  rewrite (Hhas "completion_status" eq_refl), (Hhas "OverallStatus" eq_refl),
    Hno, Hst in H5.
  simpl in H5.
  destruct H5 as (st & G & -> & ->).
  set (clean := setitem _ _ d4) in *.
  assert (G' : get_column "OverallStatus" clean = Some st).
  { unfold clean. rewrite get_setitem. exact G. }
  pose proof (nrows_frame_ok n _ Hclean (get_column_not_nil _ _ _ G')) as Hn.
  split; [exact Hclean |]. split; [exact Hn |]. split.
  { rewrite G', <- G, (Hpre "OverallStatus" eq_refl).
    exact (data_preparation_get _ _ "OverallStatus" (proj1 Hok) H1). }
  split.
  - rewrite (table_rows_filter_rows n _ _ Hclean (get_column_not_nil _ _ _ G')).
    + unfold table_rows. rewrite Hn.
      rewrite (isin_mask_rows n _ _ _ _ (proj2 Hclean) G').
      apply mask_filter_by.
    + rewrite length_isin_mask. exact (frame_ok_get _ _ _ _ Hclean G').
  - unfold table_rows. rewrite Hn. exact (target_rows n d4 st Hok4 G).
Qed.

Lemma flags_survive_filter m c :
  (exists ys, Some c = Some (NumCol ys) /\ Forall is_flag ys) ->
  exists ys, Some (filter_column m c) = Some (NumCol ys) /\ Forall is_flag ys.
Proof.
  intros (ys & E & H). injection E as ->. simpl.
  eexists. split; [reflexivity |]. apply Forall_mask_filter. exact H.
Qed.

(** The columns of the modeling-ready table are those of the cleaned
    table, possibly with rows left out. *)
Lemma modeling_columns {conv : Conversions} d4 clean modeling c :
  target_cell d4 = Ok (clean, modeling) ->
  get_column c modeling = get_column c clean
  \/ exists m, get_column c modeling = option_map (filter_column m) (get_column c clean).
Proof.
  intros H. apply target_cell_ok in H.
  destruct (negb (has_column "completion_status" d4) && has_column "OverallStatus" d4).
  - destruct H as (st & _ & _ & ->). right. eexists. apply get_filter_rows.
  - destruct H as [<- <-]. left. reflexivity.
Qed.


Lemma median_all_missing xs : Forall (fun x => x = None) xs -> median xs = None.
Proof.
  intros H. unfold median.
  replace (dropna xs) with (@nil Q); [reflexivity |].
  induction H as [| x xs -> _ IH]; simpl; [reflexivity | exact IH].
Qed.


(** ** Imputing the text beforehand *)

Lemma columns_impute_text df : columns (impute_text df) = columns df.
Proof.
  unfold columns, impute_text. rewrite map_map. apply map_ext.
  intros [l c]. simpl. destruct (String.eqb l "EnrollmentCount"); reflexivity.
Qed.

Lemma get_impute_text c df :
  get_column c (impute_text df)
  = if String.eqb c "EnrollmentCount" then get_column c df
    else option_map impute_mode (get_column c df).
Proof.
  induction df as [| [l w] rest IH]; simpl.
  - destruct (String.eqb c "EnrollmentCount"); reflexivity.
  - destruct (String.eqb l "EnrollmentCount") eqn:El; simpl;
      destruct (String.eqb c l) eqn:Ec; try exact IH.
    + apply String.eqb_eq in Ec. subst l. rewrite El. reflexivity.
    + apply String.eqb_eq in Ec. subst l. rewrite El. reflexivity.
Qed.

Lemma impute_text_other df :
  ~ In "EnrollmentCount" (columns df) -> impute_text df = on_columns impute_mode df.
Proof.
  unfold impute_text, on_columns. intros H. apply map_ext_in.
  intros [l c] Hin. simpl. destruct (String.eqb l "EnrollmentCount") eqn:E; [| reflexivity].
  apply String.eqb_eq in E. subst l. exfalso. apply H.
  unfold columns. apply in_map_iff. exists ("EnrollmentCount", c). auto.
Qed.

Lemma setitem_impute_text xs df :
  NoDup (columns df) ->
  setitem "EnrollmentCount" (NumCol xs) (impute_text df)
  = on_columns impute_mode (setitem "EnrollmentCount" (NumCol xs) df).
Proof.
  induction df as [| [l c] rest IH]; intros Hnd.
  - reflexivity.
  - apply NoDup_cons_iff in Hnd. destruct Hnd as [Hl Hrest].
    cbn -[String.eqb]. rewrite (String.eqb_sym "EnrollmentCount" l).
    destruct (String.eqb l "EnrollmentCount") eqn:El; cbn -[String.eqb].
    + apply String.eqb_eq in El. subst l. rewrite String.eqb_refl.
      fold (impute_text rest). rewrite impute_text_other by exact Hl. reflexivity.
    + rewrite (String.eqb_sym "EnrollmentCount" l), El.
      fold (impute_text rest). rewrite (IH Hrest). reflexivity.
Qed.

Lemma impute_commute c : impute_numeric (impute_mode c) = impute_mode (impute_numeric c).
Proof.
  destruct c as [xs | xs | xs]; simpl; try reflexivity.
  destruct (mode0 xs); reflexivity.
Qed.

Lemma on_columns_compose f g df :
  on_columns f (on_columns g df) = on_columns (fun c => f (g c)) df.
Proof. unfold on_columns. rewrite map_map. reflexivity. Qed.

Lemma on_columns_ext f g df :
  (forall c, f c = g c) -> on_columns f df = on_columns g df.
Proof.
  intros H. unfold on_columns. apply map_ext. intros [l c]. simpl.
  rewrite H. reflexivity.
Qed.

Lemma to_numeric_NumCol {conv : Conversions} c : exists xs, to_numeric c = NumCol xs.
Proof. destruct c; simpl; eauto. Qed.

Lemma data_preparation_impute_text {conv : Conversions} df :
  NoDup (columns df) ->
  data_preparation (impute_text df) = data_preparation df.
Proof.
  intros Hnd. rewrite !data_preparation_eq by (rewrite ?columns_impute_text; exact Hnd).
  unfold getitem. rewrite get_impute_text. simpl.
  destruct (get_column "EnrollmentCount" df) as [e |]; simpl; [| reflexivity].
  destruct (to_numeric_NumCol e) as (xs & ->).
  rewrite setitem_impute_text by exact Hnd.
  rewrite on_columns_compose.
  rewrite (on_columns_ext _ (fun c => impute_mode (impute_numeric c)))
    by (intros c; apply impute_commute).
  rewrite <- on_columns_compose.
  apply map_columns_impute.
Qed.

Lemma nth_error_fillna {A : Type} (v : option A) xs i :
  nth_error xs i = Some None -> nth_error (fillna v xs) i = Some v.
Proof.
  intros H. unfold fillna. rewrite nth_error_map, H. reflexivity.
Qed.

Lemma nth_error_rows_get n c df col i x :
  Forall (fun nc => col_length (snd nc) = n) df ->
  get_column c df = Some col ->
  nth_error (cells col) i = Some x ->
  exists r, nth_error (rows n df) i = Some r /\ row_get c r = Some x.
Proof.
  intros H G Hx. pose proof (map_row_get n c df col H G) as E.
  assert (Hi : nth_error (map (row_get c) (rows n df)) i = Some (Some x)).
  { rewrite E, nth_error_map, Hx. reflexivity. }
  rewrite nth_error_map in Hi.
  destruct (nth_error (rows n df) i) as [r |]; [| discriminate].
  exists r. split; [reflexivity |]. simpl in Hi. congruence.
Qed.


(** ** Selecting columns *)

Lemma columns_filter_rows m df : columns (filter_rows m df) = columns df.
Proof. unfold columns, filter_rows. rewrite map_map. reflexivity. Qed.

(** ** Loading *)

Lemma sort_by_mtime_not_nil l : l <> [] -> sort_by_mtime_desc l <> [].
Proof.
  destruct l as [| f l]; [contradiction |]. intros _. simpl.
  destruct (sort_by_mtime_desc l) as [| g rest]; simpl; [discriminate |].
  destruct (st_mtime f <? st_mtime g)%Z; discriminate.
Qed.

(** Loading fails for want of a snapshot, with [FileNotFoundError], or
    with the error of reading the snapshot that sorts first. *)
Lemma load_data_raises dir e :
  load_data dir = Raise e <->
  (e = FileNotFoundError /\ filter (fun f => matches_pattern (name f)) dir = [])
  \/ (exists f rest,
        sort_by_mtime_desc (filter (fun f => matches_pattern (name f)) dir) = f :: rest
        /\ contents f = Raise e).
Proof.
  unfold load_data.
  destruct (filter (fun f => matches_pattern (name f)) dir) as [| f l] eqn:E.
  - split.
    + intros H. injection H as <-. auto.
    + intros [[-> _] | (g & rest & H & _)]; [reflexivity | discriminate].
  - pose proof (sort_by_mtime_not_nil (f :: l) ltac:(discriminate)) as Hs.
    destruct (sort_by_mtime_desc (f :: l)) as [| h t]; [contradiction |].
    split.
    + intros H. right. eauto.
    + intros [[_ H] | (g & rest & H & Hg)]; [discriminate |].
      injection H as <- _. exact Hg.
Qed.


(** ** A second pass over an engineered table *)

Lemma frame_ext d : forall d',
  NoDup (columns d) -> columns d = columns d' ->
  (forall l, get_column l d = get_column l d') -> d = d'.
Proof.
  induction d as [| [l c] r IH]; intros [| [l' c'] r'] Hnd Hc Hg;
    try discriminate; [reflexivity |].
  simpl in Hc. injection Hc as <- Hc.
  apply NoDup_cons_iff in Hnd. destruct Hnd as [Hl Hr].
  pose proof (Hg l) as Hgl. simpl in Hgl. rewrite String.eqb_refl in Hgl.
  injection Hgl as <-. f_equal. apply IH; [exact Hr | exact Hc |].
  intros x. specialize (Hg x). simpl in Hg.
  destruct (String.eqb x l) eqn:E; [| exact Hg].
  apply String.eqb_eq in E. subst x.
  rewrite (proj2 (get_column_None l r) Hl).
  symmetry. apply get_column_None. rewrite <- Hc. exact Hl.
Qed.

Lemma get_column_In l c d : get_column l d = Some c -> In (l, c) d.
Proof.
  induction d as [| [l' c'] r IH]; simpl; [discriminate |].
  destruct (String.eqb l l') eqn:E.
  - apply String.eqb_eq in E. subst l'. intros H. injection H as ->. left. reflexivity.
  - intros H. right. exact (IH H).
Qed.

Lemma In_get_column l c d : NoDup (columns d) -> In (l, c) d -> get_column l d = Some c.
Proof.
  induction d as [| [l' c'] r IH]; simpl; intros Hnd H; [contradiction |].
  destruct H as [H | H].
  - injection H as -> ->. rewrite String.eqb_refl. reflexivity.
  - apply NoDup_cons_iff in Hnd. destruct Hnd as [Hl Hr].
    destruct (String.eqb l l') eqn:E; [| exact (IH Hr H)].
    apply String.eqb_eq in E. subst l'. exfalso. apply Hl.
    unfold columns. apply in_map_iff. exists (l, c). auto.
Qed.

Lemma map_columns_id f d :
  (forall l c, In (l, c) d -> f c = Ok c) -> map_columns f d = Ok d.
Proof.
  induction d as [| [l c] r IH]; intros H; simpl; [reflexivity |].
  rewrite (H l c (or_introl eq_refl)). simpl.
  rewrite IH by (intros l' c' Hin; apply (H l'); right; exact Hin).
  reflexivity.
Qed.

Lemma settled_cleaned c : settled c -> cleaned c = c.
Proof.
  intros [Hn Hs]. unfold cleaned. rewrite Hn.
  symmetry. exact (impute_mode_strict_ok _ _ Hs).
Qed.

Lemma impute_numeric_idem c : impute_numeric (impute_numeric c) = impute_numeric c.
Proof.
  destruct c as [xs | xs | xs]; try reflexivity. simpl. f_equal.
  destruct (median xs) as [m |] eqn:E.
  - apply fillna_full. apply fillna_Some_full.
  - rewrite !fillna_None, E. apply fillna_None.
Qed.

Lemma settled_cleaned_col c c' : impute_mode_strict (impute_numeric c) = Ok c' -> settled c'.
Proof.
  intros H. destruct c as [xs | xs | xs].
  - injection H as <-. split; [apply (impute_numeric_idem (NumCol xs)) | reflexivity].
  - change (impute_numeric (ObjCol xs)) with (ObjCol xs) in H.
    pose proof (impute_mode_strict_ok _ _ H) as E. split.
    + subst c'. simpl. destruct (mode0 xs); reflexivity.
    + rewrite E at 1. rewrite impute_mode_strict_idem. exact H.
  - injection H as <-. split; reflexivity.
Qed.

Lemma settled_full_numbers xs : Forall (fun x => x <> None) xs -> settled (NumCol xs).
Proof.
  intros H. split; [| reflexivity]. simpl. rewrite (fillna_full _ xs H). reflexivity.
Qed.

Lemma settled_dates ts : settled (DateCol ts).
Proof. split; reflexivity. Qed.

Lemma settled_flags pat xs : settled (flags pat xs).
Proof.
  apply settled_full_numbers. apply Forall_map. apply Forall_forall.
  intros [x |] _; discriminate.
Qed.

Lemma settled_mask m : settled (mask_to_int m).
Proof.
  apply settled_full_numbers. apply Forall_map. apply Forall_forall.
  intros x _. discriminate.
Qed.

Lemma settled_text_length {conv : Conversions} col c : settled (text_length col c).
Proof.
  destruct c as [xs | xs | xs]; apply settled_full_numbers; apply Forall_map;
    apply Forall_forall; intros [x |] _; discriminate.
Qed.

Lemma settled_computed_duration c s : settled (computed_duration c s).
Proof.
  unfold computed_duration. split; [| reflexivity].
  apply (impute_numeric_idem (NumCol _)).
Qed.

Section SecondPass.
Context {conv : Conversions}.
Variables (n : nat) (C : DataFrame).
Hypothesis Heng : engineered n C.

Lemma second_pass_preparation :
  data_preparation C = Ok (on_columns impute_numeric C).
Proof.
  pose proof (proj1 (eng_frame n C Heng)) as Hnd.
  rewrite data_preparation_eq by exact Hnd.
  destruct (eng_enrollment n C Heng) as (xs & GE).
  unfold getitem. rewrite GE. simpl. rewrite (setitem_same _ _ _ GE).
  apply map_columns_id. intros l c Hin.
  unfold on_columns in Hin. apply in_map_iff in Hin.
  destruct Hin as ([l0 c0] & E & Hin). simpl in E. injection E as -> <-.
  pose proof (In_get_column _ _ _ Hnd Hin) as G.
  destruct (existsb (String.eqb l) start_writes) eqn:Es;
    destruct (has_column "StartDate" C) eqn:Hs.
  - destruct (eng_start n C Heng Hs) as (ts & _ & Gy & Gm & Gq).
    simpl in Es.
    destruct (String.eqb l "start_year") eqn:E1;
      [apply String.eqb_eq in E1; subst l; rewrite Gy in G; injection G as <-;
       reflexivity |].
    destruct (String.eqb l "start_month") eqn:E2;
      [apply String.eqb_eq in E2; subst l; rewrite Gm in G; injection G as <-;
       reflexivity |].
    destruct (String.eqb l "start_quarter") eqn:E3;
      [apply String.eqb_eq in E3; subst l; rewrite Gq in G; injection G as <-;
       reflexivity |].
    discriminate.
  - destruct (eng_settled n C Heng l c0 G (or_intror Hs)) as [-> Hst]. exact Hst.
  - destruct (eng_settled n C Heng l c0 G (or_introl Es)) as [-> Hst]. exact Hst.
  - destruct (eng_settled n C Heng l c0 G (or_introl Es)) as [-> Hst]. exact Hst.
Qed.

Lemma convert_date_fix d col :
  (forall c, get_column col d = Some c -> exists ts, c = DateCol ts) ->
  convert_date d col = d.
Proof.
  intros H. unfold convert_date. destruct (get_column col d) as [c |] eqn:G;
    [| reflexivity].
  destruct (H c eq_refl) as (ts & ->). apply setitem_same. exact G.
Qed.

Lemma second_pass_dates : convert_dates (on_columns impute_numeric C)
                          = on_columns impute_numeric C.
Proof.
  unfold convert_dates. simpl.
  assert (Hd : forall l, existsb (String.eqb l) date_columns = true ->
                 forall c, get_column l (on_columns impute_numeric C) = Some c ->
                 exists ts, c = DateCol ts).
  { intros l Hl c G. rewrite get_on_columns in G.
    destruct (get_column l C) as [c0 |] eqn:G0; [| discriminate].
    destruct (eng_dates n C Heng l c0 Hl G0) as (ts & ->).
    injection G as <-. eauto. }
  rewrite (convert_date_fix _ "StartDate" (Hd "StartDate" eq_refl)).
  rewrite (convert_date_fix _ "CompletionDate" (Hd "CompletionDate" eq_refl)).
  rewrite (convert_date_fix _ "PrimaryCompletionDate" (Hd "PrimaryCompletionDate" eq_refl)).
  reflexivity.
Qed.

Lemma second_pass_start :
  start_features (on_columns impute_numeric C) = Ok C.
Proof.
  pose proof (proj1 (eng_frame n C Heng)) as Hnd.
  unfold start_features.
  assert (Hhas : forall l, has_column l (on_columns impute_numeric C) = has_column l C).
  { intros l. rewrite !has_column_get, get_on_columns.
    destruct (get_column l C); reflexivity. }
  rewrite Hhas. destruct (has_column "StartDate" C) eqn:Hs.
  - destruct (eng_start n C Heng Hs) as (ts & Gs & Gy & Gm & Gq).
    unfold getitem. rewrite get_on_columns, Gs. simpl. f_equal. symmetry.
    apply frame_ext; [exact Hnd | |].
    + rewrite !columns_setitem, !has_setitem, !Hhas, !has_column_get, Gy, Gm, Gq.
      simpl. rewrite columns_on_columns. reflexivity.
    + intros l. rewrite !get_setitem, get_on_columns.
      destruct (String.eqb l "start_quarter") eqn:E3;
        [apply String.eqb_eq in E3; subst l; exact Gq |].
      destruct (String.eqb l "start_month") eqn:E2;
        [apply String.eqb_eq in E2; subst l; exact Gm |].
      destruct (String.eqb l "start_year") eqn:E1;
        [apply String.eqb_eq in E1; subst l; exact Gy |].
      destruct (get_column l C) as [c |] eqn:G; [| reflexivity].
      simpl. f_equal. symmetry.
      apply (eng_settled n C Heng l c G). left. simpl. rewrite E1, E2, E3. reflexivity.
  - f_equal. symmetry. apply frame_ext; [exact Hnd | |].
    + rewrite columns_on_columns. reflexivity.
    + intros l. rewrite get_on_columns.
      destruct (get_column l C) as [c |] eqn:G; [| reflexivity].
      simpl. f_equal. symmetry. apply (eng_settled n C Heng l c G). right. exact Hs.
Qed.

Lemma start_features_fix : start_features C = Ok C.
Proof.
  unfold start_features. destruct (has_column "StartDate" C) eqn:Hs; [| reflexivity].
  destruct (eng_start n C Heng Hs) as (ts & Gs & Gy & Gm & Gq).
  unfold getitem. rewrite Gs. simpl.
  rewrite (setitem_same _ _ _ Gy), (setitem_same _ _ _ Gm), (setitem_same _ _ _ Gq).
  reflexivity.
Qed.

Lemma second_pass_duration : duration_feature C = Ok C.
Proof.
  unfold duration_feature.
  destruct (has_column "trial_duration_days" C) eqn:Hd; [reflexivity |].
  rewrite (eng_duration n C Heng Hd). reflexivity.
Qed.

Lemma describe_ok cols : cols <> [] -> describe cols = Ok tt.
Proof. destruct cols; [contradiction | reflexivity]. Qed.

Lemma second_pass_temporal :
  temporal_cell (on_columns impute_numeric C) = Ok C.
Proof.
  unfold temporal_cell. fold (convert_dates (on_columns impute_numeric C)).
  rewrite second_pass_dates, second_pass_start. simpl.
  rewrite second_pass_duration. simpl.
  rewrite (describe_ok _ (eng_temporal n C Heng)). reflexivity.
Qed.

Lemma contains_indicator_fix source pat target xs :
  get_column source C = Some (ObjCol xs) ->
  get_column target C = Some (flags pat xs) ->
  contains_indicator source pat target C = Ok C.
Proof.
  intros Gs Gt. unfold contains_indicator, getitem. rewrite Gs. simpl.
  fold (flags pat xs). rewrite (setitem_same _ _ _ Gt). reflexivity.
Qed.

Lemma second_pass_categorical : categorical_cell C = Ok C.
Proof.
  unfold categorical_cell.
  assert (H1 : sponsor_indicator C = Ok C).
  { unfold sponsor_indicator. destruct (has_column "LeadSponsorClass" C) eqn:Hs;
      [| reflexivity].
    destruct (eng_sponsor n C Heng Hs) as (c & Gs & Gt).
    unfold getitem. rewrite Gs. simpl. rewrite (setitem_same _ _ _ Gt). reflexivity. }
  assert (Hfix : forall target source pat,
             In (target, source, pat) contains_table ->
             has_column source C = true ->
             contains_indicator source pat target C = Ok C).
  { intros target source pat Hin Hs.
    destruct (eng_flags n C Heng target source pat Hin Hs) as (xs & Gs & Gt).
    exact (contains_indicator_fix _ _ _ xs Gs Gt). }
  assert (H2 : phase_indicators C = Ok C).
  { unfold phase_indicators. destruct (has_column "Phase" C) eqn:Hs; [| reflexivity].
    rewrite !(Hfix _ "Phase" _) by (simpl; tauto || exact Hs). simpl.
    rewrite !(Hfix _ "Phase" _) by (simpl; tauto || exact Hs). simpl.
    rewrite !(Hfix _ "Phase" _) by (simpl; tauto || exact Hs). simpl.
    apply Hfix; [simpl; tauto | exact Hs]. }
  assert (H3 : design_indicators C = Ok C).
  { unfold design_indicators. destruct (has_column "StudyDesign" C) eqn:Hs; [| reflexivity].
    rewrite !(Hfix _ "StudyDesign" _) by (simpl; tauto || exact Hs). simpl.
    rewrite !(Hfix _ "StudyDesign" _) by (simpl; tauto || exact Hs). simpl.
    rewrite !(Hfix _ "StudyDesign" _) by (simpl; tauto || exact Hs). simpl.
    apply Hfix; [simpl; tauto | exact Hs]. }
  assert (H4 : country_indicators C = Ok C).
  { unfold country_indicators. destruct (has_column "LocationCountry" C) eqn:Hs;
      [| reflexivity].
    rewrite !(Hfix _ "LocationCountry" _) by (simpl; tauto || exact Hs). simpl.
    apply Hfix; [simpl; tauto | exact Hs]. }
  rewrite H1. simpl. rewrite H2. simpl. rewrite H3. simpl. rewrite H4. simpl.
  rewrite (describe_ok _ (eng_binary n C Heng)). reflexivity.
Qed.

Lemma length_feature_fix col :
  In col text_columns -> has_column col C = true -> length_feature C col = Ok C.
Proof.
  intros Hin Hs. destruct (eng_text n C Heng col Hin Hs) as (c & Gc & Gl).
  unfold length_feature, getitem. rewrite Gc. simpl.
  rewrite (setitem_same _ _ _ Gl). reflexivity.
Qed.

Lemma has_existsb col (cols : list string) :
  In col cols -> has_column col C = true ->
  existsb (fun c => has_column c C) cols = true.
Proof. intros Hin Hs. apply existsb_exists. exists col. auto. Qed.

Lemma iloc0_fix col :
  In col text_columns -> has_column col C = true -> iloc0 C col = Ok tt.
Proof.
  intros Hin Hs. destruct (eng_text n C Heng col Hin Hs) as (c & Gc & _).
  unfold iloc0, getitem. rewrite Gc. simpl.
  rewrite (frame_ok_get _ _ _ _ (eng_frame n C Heng) Gc).
  pose proof (eng_rows n C Heng (has_existsb col _ Hin Hs)) as Hn.
  destruct n; [contradiction | reflexivity].
Qed.

Lemma filter_not_nil {A : Type} (p : A -> bool) x l :
  In x l -> p x = true -> filter p l <> [].
Proof.
  intros Hin Hp E. assert (H : In x (filter p l)) by (apply filter_In; auto).
  rewrite E in H. contradiction.
Qed.

Lemma text_length_cols_fix col :
  In col text_columns -> has_column col C = true -> text_length_cols C <> [].
Proof.
  intros Hin Hs. destruct (eng_text n C Heng col Hin Hs) as (c & _ & Gl).
  apply (filter_not_nil _ (col ++ "_length")%string).
  - apply has_column_In. rewrite has_column_get, Gl. reflexivity.
  - simpl in Hin. repeat (destruct Hin as [<- | Hin]; [reflexivity |]). contradiction.
Qed.

Lemma second_pass_text : text_cell C = Ok C.
Proof.
  unfold text_cell. simpl.
  destruct (has_column "BriefTitle" C) eqn:H1;
    destruct (has_column "BriefSummary" C) eqn:H2;
    destruct (has_column "DetailedDescription" C) eqn:H3; simpl;
    rewrite ?(iloc0_fix "BriefTitle") by (simpl; tauto || assumption);
    rewrite ?(iloc0_fix "BriefSummary") by (simpl; tauto || assumption);
    rewrite ?(iloc0_fix "DetailedDescription") by (simpl; tauto || assumption);
    simpl;
    repeat (first [ rewrite (length_feature_fix "BriefTitle")
                      by (simpl; tauto || assumption)
                  | rewrite (length_feature_fix "BriefSummary")
                      by (simpl; tauto || assumption)
                  | rewrite (length_feature_fix "DetailedDescription")
                      by (simpl; tauto || assumption) ]; simpl);
    try reflexivity;
    first [ rewrite (describe_ok _ (text_length_cols_fix "BriefTitle"
                                      ltac:(simpl; tauto) ltac:(assumption)))
          | rewrite (describe_ok _ (text_length_cols_fix "BriefSummary"
                                      ltac:(simpl; tauto) ltac:(assumption)))
          | rewrite (describe_ok _ (text_length_cols_fix "DetailedDescription"
                                      ltac:(simpl; tauto) ltac:(assumption))) ];
    reflexivity.
Qed.

Lemma second_pass_target : target_cell C = Ok (C, C).
Proof.
  unfold target_cell.
  destruct (has_column "OverallStatus" C) eqn:Ho.
  - rewrite (eng_target n C Heng Ho). reflexivity.
  - rewrite andb_false_r. reflexivity.
Qed.

Lemma select_available d cols :
  exists X, select_columns (filter (fun col => has_column col d) cols) d = Ok X.
Proof.
  induction cols as [| c cols [X IH]]; simpl; [eauto |].
  destruct (has_column c d) eqn:E; [| eauto]. simpl.
  rewrite has_column_get in E. unfold getitem.
  destruct (get_column c d); [| discriminate]. simpl. rewrite IH. simpl. eauto.
Qed.

Lemma prepare_cell_ok b d :
  (has_column "trial_duration_days" d = true ->
   b || has_column "completion_status" d = true) ->
  exists x, prepare_cell b d = Ok x.
Proof.
  intros H. unfold prepare_cell.
  destruct (select_available d (candidate_features ++ text_length_cols d)) as (X & HX).
  set (feats := filter (fun col => has_column col d)
                       (candidate_features ++ text_length_cols d)) in *.
  clearbody feats. rewrite HX.
  assert (Hget : forall l, has_column l d = true -> exists y, getitem l d = Ok y).
  { intros l Hl. rewrite has_column_get in Hl. unfold getitem.
    destruct (get_column l d); [eauto | discriminate]. }
  destruct (has_column "completion_status" d) eqn:Ec;
    destruct (has_column "trial_duration_days" d) eqn:Ed;
    try (destruct (Hget _ Ec) as (yc & ->));
    try (destruct (Hget _ Ed) as (yd & ->));
    try (rewrite (H eq_refl)); unfold bind; eauto.
Qed.

Lemma prepare_cell_bound b d x :
  prepare_cell b d = Ok x ->
  has_column "trial_duration_days" d = true ->
  b || has_column "completion_status" d = true.
Proof.
  unfold prepare_cell. intros H Hd. do 2 inv_bind H. rewrite Hd in H1.
  destruct (b || has_column "completion_status" d); [reflexivity | discriminate].
Qed.

(** A second pass over an engineered table gives the table back. *)
Lemma second_pass : feature_engineering C = Ok (C, C).
Proof.
  unfold feature_engineering.
  rewrite second_pass_preparation. simpl.
  rewrite second_pass_temporal. simpl.
  rewrite second_pass_categorical. simpl.
  rewrite second_pass_text. simpl.
  rewrite second_pass_target. simpl.
  destruct (prepare_cell_ok (existsb (fun col => has_column col C) text_columns) C
              (eng_prepare n C Heng)) as (x & Hx).
  simpl in Hx. rewrite Hx. reflexivity.
Qed.

End SecondPass.

(** ** The first pass engineers the table *)

Lemma all_settled_setitem S l v d :
  all_settled S d -> settled v \/ existsb (String.eqb l) S = true ->
  all_settled S (setitem l v d).
Proof.
  intros H Hv l' c G Hl'. rewrite get_setitem in G.
  destruct (String.eqb l' l) eqn:E; [| exact (H l' c G Hl')].
  apply String.eqb_eq in E. subst l'. injection G as <-.
  destruct Hv as [Hv | Hv]; [exact Hv | congruence].
Qed.

Lemma all_settled_weaken S S' d :
  (forall l, existsb (String.eqb l) S' = false -> existsb (String.eqb l) S = false) ->
  all_settled S d -> all_settled S' d.
Proof. intros Hw H l c G Hl. exact (H l c G (Hw l Hl)). Qed.

Lemma grows_refl d : grows d d.
Proof. intros l H. exact H. Qed.

Lemma grows_trans d1 d2 d3 : grows d1 d2 -> grows d2 d3 -> grows d1 d3.
Proof. intros H1 H2 l H. exact (H2 l (H1 l H)). Qed.

Lemma grows_setitem l v d d' : grows d d' -> grows d (setitem l v d').
Proof. intros H l' Hl'. rewrite has_setitem, (H l' Hl'). apply orb_true_r. Qed.

Lemma grows_filter p d d' :
  grows d d' -> filter p (columns d) <> [] -> filter p (columns d') <> [].
Proof.
  intros Hg Hne. destruct (filter p (columns d)) as [| x rest] eqn:E; [contradiction |].
  assert (Hin : In x (filter p (columns d))) by (rewrite E; left; reflexivity).
  apply filter_In in Hin. destruct Hin as [Hin Hp].
  apply (filter_not_nil p x); [| exact Hp].
  apply has_column_In. apply Hg. apply has_column_In. exact Hin.
Qed.

Lemma map_columns_get f d : forall d' l c',
  map_columns f d = Ok d' -> get_column l d' = Some c' ->
  exists c, get_column l d = Some c /\ f c = Ok c'.
Proof.
  induction d as [| [l0 c0] r IH]; simpl; intros d' l c' H G.
  - injection H as <-. discriminate.
  - do 2 inv_bind H. injection H as <-. simpl in G.
    destruct (String.eqb l l0); [injection G as <-; eauto | eauto].
Qed.

Lemma to_datetime_DateCol {conv : Conversions} c : exists ts, to_datetime c = DateCol ts.
Proof. destruct c; simpl; eauto. Qed.

Section FirstPass.
Context {conv : Conversions}.

Lemma data_preparation_settled df d1 :
  NoDup (columns df) -> data_preparation df = Ok d1 -> all_settled [] d1.
Proof.
  intros Hnd H. rewrite data_preparation_eq in H by exact Hnd. inv_bind H.
  intros l c G _. destruct (map_columns_get _ _ _ _ _ H G) as (c0 & G0 & Hc).
  rewrite get_on_columns in G0.
  destruct (get_column l (setitem "EnrollmentCount" (to_numeric v) df)) as [c1 |];
    simpl in G0; [| discriminate].
  injection G0 as <-.
  exact (settled_cleaned_col _ _ Hc).
Qed.

Lemma convert_dates_settled S d : all_settled S d -> all_settled S (convert_dates d).
Proof.
  intros H. unfold convert_dates. simpl.
  assert (Hstep : forall d0 col, all_settled S d0 -> all_settled S (convert_date d0 col)).
  { intros d0 col H0. unfold convert_date. destruct (get_column col d0) as [c |]; [| exact H0].
    apply all_settled_setitem; [exact H0 |]. left.
    destruct (to_datetime_DateCol c) as (ts & ->). apply settled_dates. }
  repeat apply Hstep. exact H.
Qed.

Lemma start_features_settled d d' :
  all_settled [] d -> start_features d = Ok d' ->
  all_settled start_writes d'
  /\ (has_column "StartDate" d = false -> all_settled [] d').
Proof.
  intros H Hs. unfold start_features in Hs.
  destruct (has_column "StartDate" d) eqn:E.
  - do 2 inv_bind Hs. inv_ok Hs. split; [| discriminate].
    repeat (apply all_settled_setitem; [| right; reflexivity]).
    eapply all_settled_weaken; [| exact H]. reflexivity.
  - inv_ok Hs. split; [| intros _; exact H].
    eapply all_settled_weaken; [| exact H]. reflexivity.
Qed.

Lemma duration_feature_settled S d d' :
  all_settled S d -> duration_feature d = Ok d' -> all_settled S d'.
Proof.
  intros H Hd. unfold duration_feature in Hd.
  destruct (negb (has_column "trial_duration_days" d) && has_column "CompletionDate" d).
  - do 4 inv_bind Hd. inv_ok Hd.
    apply all_settled_setitem; [exact H |]. left.
    apply (settled_computed_duration v1 v2).
  - inv_ok Hd. exact H.
Qed.

Lemma categorical_cell_settled S d d' :
  all_settled S d -> categorical_cell d = Ok d' -> all_settled S d'.
Proof.
  intros H Hc. open_categorical Hc;
    repeat (apply all_settled_setitem;
            [| left; first [apply settled_flags | apply settled_mask]]);
    exact H.
Qed.

Lemma text_cell_settled S d d' :
  all_settled S d -> text_cell d = Ok d' -> all_settled S d'.
Proof.
  intros H Ht. open_text Ht;
    repeat (apply all_settled_setitem; [| left; apply settled_text_length]);
    exact H.
Qed.

Lemma target_cell_settled S d clean modeling :
  all_settled S d -> target_cell d = Ok (clean, modeling) -> all_settled S clean.
Proof.
  intros H Ht. apply target_cell_ok in Ht.
  destruct (negb (has_column "completion_status" d) && has_column "OverallStatus" d).
  - destruct Ht as (st & _ & -> & _).
    apply all_settled_setitem; [exact H | left; apply settled_mask].
  - destruct Ht as [-> _]. exact H.
Qed.

Lemma start_features_grows d d' : start_features d = Ok d' -> grows d d'.
Proof.
  unfold start_features. intros H. destruct (has_column "StartDate" d).
  - do 2 inv_bind H. inv_ok H. repeat apply grows_setitem. apply grows_refl.
  - inv_ok H. apply grows_refl.
Qed.

Lemma duration_feature_grows d d' : duration_feature d = Ok d' -> grows d d'.
Proof.
  unfold duration_feature. intros H.
  destruct (negb (has_column "trial_duration_days" d) && has_column "CompletionDate" d).
  - do 4 inv_bind H. inv_ok H. apply grows_setitem. apply grows_refl.
  - inv_ok H. apply grows_refl.
Qed.

Lemma categorical_cell_grows d d' : categorical_cell d = Ok d' -> grows d d'.
Proof.
  intros H. open_categorical H; repeat apply grows_setitem; apply grows_refl.
Qed.

Lemma text_cell_grows d d' : text_cell d = Ok d' -> grows d d'.
Proof.
  intros H. open_text H; repeat apply grows_setitem; apply grows_refl.
Qed.

Lemma target_cell_grows d clean modeling :
  target_cell d = Ok (clean, modeling) -> grows d clean.
Proof.
  intros H. apply target_cell_ok in H.
  destruct (negb (has_column "completion_status" d) && has_column "OverallStatus" d).
  - destruct H as (st & _ & -> & _). apply grows_setitem. apply grows_refl.
  - destruct H as [-> _]. apply grows_refl.
Qed.

Lemma feature_engineering_steps_full df clean modeling :
  feature_engineering df = Ok (clean, modeling) ->
  exists d1 d2 d3 d4 x,
    data_preparation df = Ok d1 /\ temporal_cell d1 = Ok d2
    /\ categorical_cell d2 = Ok d3 /\ text_cell d3 = Ok d4
    /\ target_cell d4 = Ok (clean, modeling)
    /\ prepare_cell (existsb (fun col => has_column col d3) text_columns) modeling = Ok x.
Proof.
  unfold feature_engineering. intros H. do 6 inv_bind H. inv_ok H.
  exists v, v0, v1, v2, v4. auto 10.
Qed.

Lemma categorical_cell_table d2 d3 :
  categorical_cell d2 = Ok d3 ->
  (forall target source pat, In (target, source, pat) contains_table ->
     has_column source d2 = true ->
     exists xs, get_column source d2 = Some (ObjCol xs)
       /\ get_column target d3 = Some (flags pat xs))
  /\ (has_column "LeadSponsorClass" d2 = true ->
      exists c, get_column "LeadSponsorClass" d2 = Some c
        /\ get_column "is_industry_sponsored" d3
           = Some (mask_to_int (eq_str_mask "INDUSTRY" c))).
Proof.
  intros H. split.
  - intros target source pat Hin Hs. simpl in Hin.
    open_categorical H;
      repeat (destruct Hin as [Hin | Hin]; [inv_ok Hin |]); try contradiction;
      try congruence;
      eexists; (split; [eassumption |]); rewrite ?get_setitem; reflexivity.
  - intros Hs.
    open_categorical H; try congruence;
      eexists; (split; [eassumption |]); rewrite ?get_setitem; reflexivity.
Qed.

Lemma text_cell_rows n d3 d4 :
  frame_ok n d3 -> text_cell d3 = Ok d4 ->
  existsb (fun col => has_column col d3) text_columns = true -> n <> 0.
Proof.
  intros Hok H Hex. simpl in Hex.
  open_text H; try (rewrite ?orb_false_r in Hex; discriminate Hex);
    match goal with
    | Hi : iloc0 d3 ?col = Ok _ |- _ =>
        unfold iloc0 in Hi; apply bind_ok in Hi; destruct Hi as (c' & Gi & Hi);
        apply getitem_ok in Gi;
        rewrite (frame_ok_get _ _ _ _ Hok Gi) in Hi;
        destruct n; [discriminate Hi | discriminate]
    end.
Qed.

Lemma modeling_has d clean modeling l :
  target_cell d = Ok (clean, modeling) -> has_column l modeling = has_column l clean.
Proof.
  intros H. apply target_cell_ok in H.
  destruct (negb (has_column "completion_status" d) && has_column "OverallStatus" d).
  - destruct H as (st & _ & _ & ->). unfold has_column.
    rewrite columns_filter_rows. reflexivity.
  - destruct H as [<- <-]. reflexivity.
Qed.

End FirstPass.

Ltac label_cases Hin :=
  simpl in Hin;
  repeat (apply orb_true_iff in Hin; destruct Hin as [Hin | Hin];
          [apply String.eqb_eq in Hin; subst |]);
  try match goal with
      | F : false = true |- _ => discriminate F
      end.

Lemma first_pass_engineered {conv : Conversions} n df clean modeling :
  frame_ok n df ->
  feature_engineering df = Ok (clean, modeling) ->
  engineered n clean.
Proof.
  intros Hok H.
  pose proof (feature_engineering_frame_ok n _ _ _ Hok H) as Hclean.
  apply feature_engineering_steps_full in H.
  destruct H as (d1 & d2 & d3 & d4 & x & H1 & H2 & H3 & H4 & H5 & H6).
  pose proof (temporal_cell_steps _ _ H2) as (d1s & Hs & Hd & Htemp).
  pose proof (categorical_cell_steps _ _ H3) as (_ & _ & _ & _ & _ & _ & _ & Hbin).
  pose proof (start_features_untouched _ _ Hs) as Us.
  pose proof (duration_feature_untouched _ _ Hd) as Ud.
  pose proof (categorical_cell_untouched _ _ H3) as Uc.
  pose proof (text_cell_untouched _ _ H4) as Ut.
  pose proof (target_cell_untouched _ _ _ H5) as Ug.
  assert (A3 : forall l, existsb (String.eqb l) length_writes = false ->
                 existsb (String.eqb l) ["completion_status"] = false ->
                 get_column l clean = get_column l d3).
  { intros l L1 L2. rewrite (Ug l L2), (Ut l L1). reflexivity. }
  assert (A2 : forall l, existsb (String.eqb l) indicator_writes = false ->
                 existsb (String.eqb l) length_writes = false ->
                 existsb (String.eqb l) ["completion_status"] = false ->
                 get_column l clean = get_column l d2).
  { intros l L0 L1 L2. rewrite (A3 l L1 L2), (Uc l L0). reflexivity. }
  assert (A1 : forall l, existsb (String.eqb l) ["trial_duration_days"] = false ->
                 existsb (String.eqb l) indicator_writes = false ->
                 existsb (String.eqb l) length_writes = false ->
                 existsb (String.eqb l) ["completion_status"] = false ->
                 get_column l clean = get_column l d1s).
  { intros l L L0 L1 L2. rewrite (A2 l L0 L1 L2), (Ud l L). reflexivity. }
  assert (Hstart : has_column "StartDate" clean = has_column "StartDate" (convert_dates d1)).
  { rewrite !has_column_get, (A1 "StartDate") by reflexivity.
    rewrite (Us "StartDate" eq_refl). reflexivity. }
  pose proof (data_preparation_settled _ _ (proj1 Hok) H1) as S1.
  pose proof (start_features_settled _ _ (convert_dates_settled _ _ S1) Hs) as [S2 S2'].
  assert (Hall : forall S, all_settled S d1s -> all_settled S clean).
  { intros S HS.
    eapply target_cell_settled; [| exact H5].
    eapply text_cell_settled; [| exact H4].
    eapply categorical_cell_settled; [| exact H3].
    eapply duration_feature_settled; [| exact Hd]. exact HS. }
  assert (Hgrow2 : grows d2 clean).
  { eapply grows_trans; [exact (categorical_cell_grows _ _ H3) |].
    eapply grows_trans; [exact (text_cell_grows _ _ H4) |].
    exact (target_cell_grows _ _ _ H5). }
  assert (Hgrow3 : grows d3 clean).
  { eapply grows_trans; [exact (text_cell_grows _ _ H4) |].
    exact (target_cell_grows _ _ _ H5). }
  destruct (categorical_cell_table _ _ H3) as [Hflags Hsponsor].
  assert (Htext : forall col, In col text_columns ->
                    get_column col clean = get_column col d3
                    /\ get_column (col ++ "_length") clean
                       = get_column (col ++ "_length") d4).
  { intros col Hin. simpl in Hin.
    repeat (destruct Hin as [<- | Hin];
            [split; [apply A3; reflexivity | apply Ug; reflexivity] |]).
    contradiction. }
  assert (Hbound : existsb (fun col => has_column col clean) text_columns
                   = existsb (fun col => has_column col d3) text_columns).
  { simpl. rewrite !has_column_get.
    rewrite (proj1 (Htext "BriefTitle" ltac:(simpl; tauto))),
      (proj1 (Htext "BriefSummary" ltac:(simpl; tauto))),
      (proj1 (Htext "DetailedDescription" ltac:(simpl; tauto))). reflexivity. }
  constructor.
  - exact Hclean.
  - rewrite (downstream_untouched _ _ _ _ _ _ H2 H3 H4 H5 "EnrollmentCount" eq_refl).
    rewrite (data_preparation_get _ _ "EnrollmentCount" (proj1 Hok) H1). simpl.
    destruct (data_preparation_ok _ _ (proj1 Hok) H1) as (e & -> & _). simpl.
    destruct (to_numeric_NumCol e) as (xs & ->). eexists. reflexivity.
  - intros l c G [Hl | Hno].
    + exact (Hall _ S2 l c G Hl).
    + rewrite Hstart in Hno. exact (Hall _ (S2' Hno) l c G eq_refl).
  - intros l c Hl G. label_cases Hl;
      rewrite A1 in G by reflexivity;
      rewrite Us in G by reflexivity;
      rewrite convert_dates_get in G; simpl in G;
      match type of G with
      | option_map _ ?o = _ => destruct o as [c0 |]; [| discriminate G]
      end;
      simpl in G; injection G as <-; apply to_datetime_DateCol.
  - intros Hhas. rewrite Hstart in Hhas.
    destruct (start_features_spec _ _ Hs Hhas) as (ts & G0 & Gy & Gm & Gq).
    exists ts.
    rewrite !A1 by reflexivity. rewrite (Us "StartDate" eq_refl). auto.
  - intros Hno. rewrite has_column_get, A2, <- has_column_get in Hno by reflexivity.
    rewrite has_column_get, A1, <- has_column_get by reflexivity.
    unfold duration_feature in Hd.
    destruct (has_column "trial_duration_days" d1s) eqn:Et;
      destruct (has_column "CompletionDate" d1s) eqn:Ec; simpl in Hd;
      try reflexivity.
    + inv_ok Hd. congruence.
    + do 4 inv_bind Hd. inv_ok Hd. rewrite has_setitem in Hno. discriminate Hno.
  - exact (grows_filter _ _ _ Hgrow2 Htemp).
  - exact (grows_filter _ _ _ Hgrow3 Hbin).
  - intros Hhas. rewrite has_column_get, A2, <- has_column_get in Hhas by reflexivity.
    destruct (Hsponsor Hhas) as (c & Gs & Gt). exists c.
    rewrite A2, A3 by reflexivity. auto.
  - intros target source pat Hin Hhas.
    assert (Hlab : get_column source clean = get_column source d2
                   /\ get_column target clean = get_column target d3).
    { simpl in Hin.
      repeat (destruct Hin as [Hin | Hin];
              [inv_ok Hin; split; [apply A2 | apply A3]; reflexivity |]).
      contradiction. }
    destruct Hlab as [Ls Lt].
    rewrite has_column_get, Ls, <- has_column_get in Hhas.
    destruct (Hflags target source pat Hin Hhas) as (xs & Gs & Gt).
    exists xs. rewrite Ls, Lt. auto.
  - intros col Hin Hhas. destruct (Htext col Hin) as [Lc Ll].
    rewrite has_column_get, Lc, <- has_column_get in Hhas.
    destruct (text_cell_spec _ _ col H4 Hin Hhas) as (c & Gc & Gl).
    exists c. rewrite Lc, Ll. auto.
  - intros Hex. rewrite Hbound in Hex.
    eapply text_cell_rows; [| exact H4 | exact Hex].
    eapply categorical_cell_frame_ok; [| exact H3].
    eapply temporal_cell_frame_ok; [| exact H2].
    eapply data_preparation_frame_ok; [exact Hok | exact H1].
  - intros Ho. apply target_cell_ok in H5.
    destruct (has_column "completion_status" d4) eqn:Ec;
      destruct (has_column "OverallStatus" d4) eqn:Eo; simpl in H5.
    + destruct H5 as [<- _]. exact Ec.
    + destruct H5 as [<- _]. exact Ec.
    + destruct H5 as (st & _ & -> & _). rewrite has_setitem. reflexivity.
    + destruct H5 as [<- _]. congruence.
  - intros Ht. rewrite Hbound.
    rewrite <- (modeling_has _ _ _ "completion_status" H5).
    apply (prepare_cell_bound _ _ _ H6).
    rewrite (modeling_has _ _ _ "trial_duration_days" H5). exact Ht.
Qed.

(* ================================================================== *)
(** * Further facts about the notebooks *)
(* ================================================================== *)

(** ** Strings *)

Lemma prefix_app p : forall s,
  String.prefix p s = true <-> exists r, s = (p ++ r)%string.
Proof.
  induction p as [| a p IH]; intros s.
  - split; [intros _; exists s; reflexivity |]. intros _. destruct s; reflexivity.
  - destruct s as [| b s]; simpl.
    + split; [discriminate | intros (r & H); discriminate].
    + destruct (Ascii.ascii_dec a b) as [-> | Hne].
      * rewrite IH. split; intros (r & H); exists r; [subst; reflexivity |].
        injection H as ->. reflexivity.
      * split; [discriminate |]. intros (r & H). injection H as H _. congruence.
Qed.

Lemma length_app_string a b :
  String.length (a ++ b)%string = String.length a + String.length b.
Proof. induction a as [| c a IH]; simpl; [reflexivity | rewrite IH; reflexivity]. Qed.

Lemma substring_all s : String.substring 0 (String.length s) s = s.
Proof. induction s as [| c s IH]; simpl; [reflexivity | rewrite IH; reflexivity]. Qed.

Lemma substring_app_r a b :
  String.substring (String.length a) (String.length b) (a ++ b)%string = b.
Proof. induction a as [| c a IH]; simpl; [apply substring_all | exact IH]. Qed.

Lemma substring_split s : forall k,
  k <= String.length s ->
  s = (String.substring 0 k s
       ++ String.substring k (String.length s - k) s)%string.
Proof.
  induction s as [| c s IH]; intros k Hk; simpl in *.
  - destruct k; reflexivity.
  - destruct k as [| k]; simpl.
    + rewrite substring_all. reflexivity.
    + f_equal. apply IH. lia.
Qed.

Lemma endswith_app suf s :
  endswith suf s = true <-> exists a, s = (a ++ suf)%string.
Proof.
  unfold endswith. split.
  - intros H. apply andb_true_iff in H. destruct H as [Hle He].
    apply Nat.leb_le in Hle. apply String.eqb_eq in He.
    exists (String.substring 0 (String.length s - String.length suf) s).
    pose proof (substring_split s (String.length s - String.length suf)
                  ltac:(lia)) as Hs.
    replace (String.length s - (String.length s - String.length suf))
      with (String.length suf) in Hs by lia.
    rewrite He in Hs. exact Hs.
  - intros (a & ->). rewrite length_app_string. apply andb_true_iff. split.
    + apply Nat.leb_le. lia.
    + replace (String.length a + String.length suf - String.length suf)
        with (String.length a) by lia.
      rewrite substring_app_r. apply String.eqb_refl.
Qed.

Lemma app_string_assoc a b c : ((a ++ b) ++ c = a ++ (b ++ c))%string.
Proof. induction a as [| x a IH]; simpl; [reflexivity | rewrite IH; reflexivity]. Qed.

Lemma app_string_overlap p : forall r a suf,
  (p ++ r = a ++ suf)%string -> String.length p <= String.length a ->
  exists mid, a = (p ++ mid)%string /\ r = (mid ++ suf)%string.
Proof.
  induction p as [| c p IH]; intros r a suf H Hl; simpl in *.
  - exists a. auto.
  - destruct a as [| d a]; simpl in *; [lia |].
    injection H as -> H. destruct (IH _ _ _ H ltac:(lia)) as (mid & -> & ->).
    exists mid. auto.
Qed.

(** ** Loading *)

Lemma sort_by_mtime_head l h t :
  sort_by_mtime_desc l = h :: t ->
  exists before after,
    l = before ++ h :: after
    /\ Forall (fun g => (st_mtime g < st_mtime h)%Z) before
    /\ Forall (fun g => (st_mtime g <= st_mtime h)%Z) after.
Proof.
  revert h t. induction l as [| f l IH]; intros h t H; [discriminate |].
  simpl in H. destruct (sort_by_mtime_desc l) as [| h' t'] eqn:E.
  - destruct l as [| g l].
    + injection H as <- _. exists [], []. repeat split; constructor.
    + exfalso. apply (sort_by_mtime_not_nil (g :: l)); [discriminate | exact E].
  - destruct (IH h' t' eq_refl) as (b & a & -> & Hb & Ha).
    simpl in H. destruct (st_mtime f <? st_mtime h')%Z eqn:Elt.
    + injection H as <- _. apply Z.ltb_lt in Elt.
      exists (f :: b), a. repeat split; [constructor; assumption | exact Ha].
    + injection H as <- _. apply Z.ltb_ge in Elt.
      exists [], (b ++ h' :: a). repeat split; [constructor |].
      apply Forall_app. split.
      * eapply Forall_impl; [| exact Hb]. simpl. intros g Hg. lia.
      * constructor; [exact Elt |].
        eapply Forall_impl; [| exact Ha]. simpl. intros g Hg. lia.
Qed.

(** The first of the most recently modified entries of a listing is
    determined by the listing. *)
Lemma first_latest_unique {A : Type} (key : A -> Z) (l : list A) : forall b f a b' h a',
  l = b ++ f :: a ->
  Forall (fun g => (key g < key f)%Z) b ->
  Forall (fun g => (key g <= key f)%Z) a ->
  l = b' ++ h :: a' ->
  Forall (fun g => (key g < key h)%Z) b' ->
  Forall (fun g => (key g <= key h)%Z) a' ->
  b' = b /\ h = f.
Proof.
  induction l as [| x l IH]; intros b f a b' h a' E Hb Ha E' Hb' Ha'.
  - destruct b; discriminate.
  - destruct b as [| y b], b' as [| y' b']; simpl in E, E'.
    + injection E as E1 _. injection E' as E2 _. subst. auto.
    + injection E as E1 E2. injection E' as E3 E4. subst.
      inversion Hb' as [| ? ? Hlt _]; subst.
      assert (Hin : In h (b' ++ h :: a')) by (apply in_or_app; right; left; reflexivity).
      pose proof (proj1 (Forall_forall _ _) Ha h Hin) as Hle. simpl in Hle. lia.
    + injection E as E1 E2. injection E' as E3 E4. subst.
      inversion Hb as [| ? ? Hlt _]; subst.
      assert (Hin : In f (b ++ f :: a)) by (apply in_or_app; right; left; reflexivity).
      pose proof (proj1 (Forall_forall _ _) Ha' f Hin) as Hle. simpl in Hle. lia.
    + injection E as E1 E2. injection E' as E3 E4. subst x.
      inversion Hb; inversion Hb'; subst.
      destruct (IH b f a b' h a' eq_refl ltac:(assumption) Ha E4 ltac:(assumption) Ha')
        as [-> ->].
      auto.
Qed.

Lemma modeling_name_no_match timestamp :
  matches_pattern ("oncology_trials_modeling_ready_" ++ timestamp ++ ".csv") = false.
Proof. reflexivity. Qed.

Lemma filter_filter_name (p : file -> bool) (n : string) dir :
  (forall f, name f = n -> p f = false) ->
  filter p (filter (fun f => negb (String.eqb (name f) n)) dir) = filter p dir.
Proof.
  intros H. induction dir as [| f dir IH]; simpl; [reflexivity |].
  destruct (String.eqb (name f) n) eqn:E; simpl.
  - apply String.eqb_eq in E. rewrite (H f E). exact IH.
  - destruct (p f); rewrite IH; reflexivity.
Qed.

(** ** Data preparation: when it fails, and what it leaves *)

Lemma max_count_attained (f : string -> nat) (v : list string) :
  v <> [] -> exists s, In s v /\ f s = fold_right Nat.max 0 (map f v).
Proof.
  induction v as [| a r IH]; intros H; [contradiction |].
  destruct r as [| b r'].
  - exists a. split; [left; reflexivity |]. simpl. lia.
  - destruct (IH ltac:(discriminate)) as (s & Hin & Hs).
    change (fold_right Nat.max 0 (map f (a :: b :: r')))
      with (Nat.max (f a) (fold_right Nat.max 0 (map f (b :: r')))).
    destruct (Nat.le_ge_cases (f a) (fold_right Nat.max 0 (map f (b :: r')))) as [L | L].
    + exists s. split; [right; exact Hin |]. rewrite Hs. lia.
    + exists a. split; [left; reflexivity |]. lia.
Qed.

Lemma most_frequent_not_nil v : v <> [] -> most_frequent v <> [].
Proof.
  intros H. destruct (max_count_attained (fun s => count s v) v H) as (s & Hin & Hs).
  intros E.
  assert (Hf : In s (most_frequent v)).
  { unfold most_frequent. apply filter_In. split; [exact Hin |].
    apply Nat.eqb_eq. exact Hs. }
  rewrite E in Hf. contradiction.
Qed.

Lemma smallest_None v : smallest v = None <-> v = [].
Proof.
  split; [| intros ->; reflexivity].
  destruct v as [| s r]; [reflexivity |]. simpl.
  destruct (smallest r) as [t |]; [destruct (String.leb s t) |]; discriminate.
Qed.

Lemma dropna_nil {A : Type} (xs : list (option A)) :
  dropna xs = [] <-> Forall (fun x => x = None) xs.
Proof.
  induction xs as [| [a |] r IH]; simpl.
  - split; constructor.
  - split; [discriminate |]. intros H. inversion H. discriminate.
  - rewrite IH. split; intros H; [constructor; [reflexivity | exact H] |].
    inversion H. assumption.
Qed.

Lemma mode0_raises xs e :
  mode0 xs = Raise e <-> e = KeyError /\ Forall (fun x => x = None) xs.
Proof.
  unfold mode0. destruct (smallest (most_frequent (dropna xs))) as [s |] eqn:E.
  - split; [discriminate |]. intros [_ H]. apply dropna_nil in H.
    rewrite H in E. discriminate.
  - split.
    + intros H. injection H as <-. split; [reflexivity |].
      apply dropna_nil. apply smallest_None in E.
      destruct (dropna xs) as [| a r] eqn:D; [reflexivity |].
      exfalso. apply (most_frequent_not_nil (a :: r)); [discriminate | exact E].
    + intros [-> _]. reflexivity.
Qed.

Lemma null_count_pos {A : Type} (xs : list (option A)) :
  Forall (fun x => x = None) xs -> xs <> [] -> Nat.ltb 0 (null_count xs) = true.
Proof.
  intros H Hne. destruct xs as [| x r]; [contradiction |].
  inversion H; subst. apply Nat.ltb_lt. unfold null_count. simpl. lia.
Qed.

Lemma impute_mode_strict_raises c e :
  impute_mode_strict c = Raise e <-> e = KeyError /\ empty_text c.
Proof.
  destruct c as [xs | xs | xs]; simpl.
  - split; [discriminate |]. intros [_ (ys & E & _)]. discriminate.
  - destruct (Nat.ltb 0 (null_count xs)) eqn:En.
    + destruct (mode0 xs) as [m | e'] eqn:Em; simpl.
      * split; [discriminate |]. intros [_ (ys & E & Hne & Hall)].
        injection E as <-.
        assert (Hr : mode0 xs = Raise KeyError) by (apply mode0_raises; auto).
        rewrite Hr in Em. discriminate.
      * apply mode0_raises in Em. destruct Em as [-> Hall].
        split.
        -- intros H. injection H as <-. split; [reflexivity |].
           exists xs. split; [reflexivity |]. split; [| exact Hall].
           intros ->. discriminate.
        -- intros [-> _]. reflexivity.
    + split; [discriminate |]. intros [_ (ys & E & Hne & Hall)].
      injection E as <-. rewrite (null_count_pos xs Hall Hne) in En. discriminate.
  - split; [discriminate |]. intros [_ (ys & E & _)]. discriminate.
Qed.

Lemma map_columns_raises d : forall e,
  map_columns impute_mode_strict d = Raise e <->
  e = KeyError /\ exists l c, In (l, c) d /\ empty_text c.
Proof.
  induction d as [| [l c] r IH]; intros e; simpl.
  - split; [discriminate |]. intros [_ (l & c & [] & _)].
  - destruct (impute_mode_strict c) as [c' | e'] eqn:Ec; simpl.
    + destruct (map_columns impute_mode_strict r) as [r' | e''] eqn:Er; simpl.
      * split; [discriminate |]. intros [-> (l0 & c0 & [Hin | Hin] & Hm)].
        -- injection Hin as <- <-.
           assert (Hr : impute_mode_strict c = Raise KeyError)
             by (apply impute_mode_strict_raises; auto).
           rewrite Hr in Ec. discriminate.
        -- assert (Hr : Ok r' = Raise KeyError :> result DataFrame)
             by (apply IH; eauto).
           discriminate.
      * destruct (proj1 (IH e'') eq_refl) as [-> (l0 & c0 & Hin & Hm)].
        split.
        -- intros H. injection H as <-.
           split; [reflexivity |]. exists l0, c0. auto.
        -- intros [-> _]. reflexivity.
    + apply impute_mode_strict_raises in Ec. destruct Ec as [-> Hm].
      split.
      * intros H. injection H as <-. split; [reflexivity |]. exists l, c. auto.
      * intros [-> _]. reflexivity.
Qed.

Lemma empty_text_impute_numeric c : empty_text (impute_numeric c) <-> empty_text c.
Proof.
  destruct c as [xs | xs | xs]; simpl; try reflexivity.
  split; intros (ys & E & _); discriminate.
Qed.

Lemma In_setitem l c n v d :
  NoDup (columns d) -> has_column n d = true ->
  In (l, c) (setitem n v d) <-> (l = n /\ c = v) \/ (l <> n /\ In (l, c) d).
Proof.
  induction d as [| [n' c'] r IH]; simpl; intros Hnd Hh; [discriminate |].
  apply NoDup_cons_iff in Hnd. destruct Hnd as [Hn Hr].
  destruct (String.eqb n n') eqn:E.
  - apply String.eqb_eq in E. subst n'. simpl. split.
    + intros [H | H]; [injection H as <- <-; auto |].
      right. split; [| right; exact H].
      intros ->. apply Hn. unfold columns. apply in_map_iff. exists (n, c). auto.
    + intros [[-> ->] | [Hne [H | H]]]; auto.
      injection H as <- _. contradiction.
  - assert (Hh' : has_column n r = true).
    { unfold has_column in *. cbn -[String.eqb] in Hh. rewrite E in Hh. exact Hh. }
    apply String.eqb_neq in E.
    simpl. rewrite (IH Hr Hh'). split.
    + intros [H | [H | [Hne H]]]; auto.
      injection H as <- <-. right. split; [congruence | left; reflexivity].
    + intros [[-> ->] | [Hne [H | H]]]; auto.
Qed.

Lemma In_on_columns f l c d :
  In (l, c) (on_columns f d) <-> exists c0, In (l, c0) d /\ c = f c0.
Proof.
  unfold on_columns. rewrite in_map_iff. split.
  - intros ([l0 c0] & E & Hin). simpl in E. injection E as <- <-. eauto.
  - intros (c0 & Hin & ->). exists (l, c0). auto.
Qed.

Lemma to_numeric_not_empty_text {conv : Conversions} c : ~ empty_text (to_numeric c).
Proof. intros (ys & E & _). destruct c; discriminate. Qed.

Lemma settled_without_gaps c : settled c -> without_gaps c.
Proof.
  intros [Hn Hs]. destruct c as [xs | xs | xs]; simpl in *; [| | exact I].
  - injection Hn as Hn. destruct (median xs) as [m |] eqn:Em.
    + left. rewrite <- Hn. apply Forall_forall. intros x Hx.
      unfold fillna in Hx. apply in_map_iff in Hx.
      destruct Hx as ([a |] & <- & _); discriminate.
    + right. apply dropna_nil. unfold median in Em.
      destruct (sort_asc (dropna xs)) as [| a r] eqn:Es.
      * destruct (dropna xs) as [| b t] eqn:D; [reflexivity |].
        assert (Hb : In b (sort_asc (b :: t)))
          by (apply sort_asc_In; left; reflexivity).
        rewrite Es in Hb. contradiction.
      * exfalso. remember (a :: r) as v eqn:Ev.
        assert (Hlen : length v <> 0) by (subst v; discriminate).
        destruct (length v) as [| k] eqn:L; [contradiction |]. rewrite <- L in Em.
        destruct (Nat.odd (length v)); [| discriminate].
        apply nth_error_None in Em.
        pose proof (Nat.div_lt (length v) 2 ltac:(lia) ltac:(lia)). lia.
  - destruct (Nat.ltb 0 (null_count xs)) eqn:En.
    + destruct (mode0 xs) as [m | e]; simpl in Hs; [| discriminate].
      injection Hs as Hs. rewrite <- Hs. apply Forall_forall. intros x Hx.
      unfold fillna in Hx. apply in_map_iff in Hx.
      destruct Hx as ([a |] & <- & _); discriminate.
    + apply Nat.ltb_ge in En. unfold null_count in En.
      apply Forall_forall. intros x Hx ->.
      assert (Hin : In (@None string) (filter isnull xs))
        by (apply filter_In; auto).
      destruct (filter isnull xs); [contradiction | simpl in En; lia].
Qed.

Lemma median_in_range (P : Q -> Prop) xs :
  (forall a b, P a -> P b -> P ((a + b) / 2)%Q) ->
  Forall P (dropna xs) ->
  match median xs with Some m => P m | None => True end.
Proof.
  intros Hmid Hall. unfold median.
  assert (Hs : forall y, In y (sort_asc (dropna xs)) -> P y).
  { intros y Hy. apply (proj1 (sort_asc_In y (dropna xs))) in Hy.
    exact (proj1 (Forall_forall P (dropna xs)) Hall y Hy). }
  set (v := sort_asc (dropna xs)) in *. clearbody v.
  destruct (length v) eqn:L; [exact I |]. rewrite <- L.
  assert (Hpos : 0 < length v) by lia. clear L n.
  destruct (Nat.odd (length v)) eqn:Eo.
  - destruct (nth_error v (length v / 2)) eqn:E; [| exact I].
    apply Hs. exact (nth_error_In _ _ E).
  - pose proof (Nat.div_lt (length v) 2 Hpos ltac:(lia)) as Hlt.
    apply Hmid; apply Hs; apply nth_In; lia.
Qed.

Lemma within_impute_numeric lo hi c : within lo hi c -> within lo hi (impute_numeric c).
Proof.
  destruct c as [xs | xs | xs]; simpl; auto.
  intros H.
  pose proof (median_in_range (fun x => (lo <= x)%Q /\ (x <= hi)%Q) xs) as Hm.
  simpl in Hm.
  assert (Hmid : forall a b : Q,
             (lo <= a)%Q /\ (a <= hi)%Q -> (lo <= b)%Q /\ (b <= hi)%Q ->
             (lo <= (a + b) / 2)%Q /\ ((a + b) / 2 <= hi)%Q).
  { intros a b [H1 H2] [H3 H4]. split.
    - apply Qle_shift_div_l; [reflexivity | lra].
    - apply Qle_shift_div_r; [reflexivity | lra]. }
  specialize (Hm Hmid H).
  destruct (median xs) as [m |]; [| rewrite fillna_None; exact H].
  clear Hmid. induction xs as [| [a |] r IH]; simpl in *.
  - constructor.
  - inversion H; subst. constructor; auto.
  - constructor; auto.
Qed.

Lemma without_gaps_filter m c : without_gaps c -> without_gaps (filter_column m c).
Proof.
  destruct c as [xs | xs | xs]; simpl; [| | auto].
  - intros [H | H]; [left | right]; apply Forall_mask_filter; exact H.
  - apply Forall_mask_filter.
Qed.

Lemma data_preparation_raises {conv : Conversions} df e :
  NoDup (columns df) ->
  data_preparation df = Raise e <->
  e = KeyError
  /\ (has_column "EnrollmentCount" df = false
      \/ exists l c, l <> "EnrollmentCount" /\ In (l, c) df /\ empty_text c).
Proof.
  intros Hnd. rewrite data_preparation_eq by exact Hnd.
  unfold getitem. rewrite has_column_get.
  destruct (get_column "EnrollmentCount" df) as [e0 |] eqn:G; simpl.
  - assert (Hh : has_column "EnrollmentCount" df = true)
      by (rewrite has_column_get, G; reflexivity).
    rewrite map_columns_raises. split.
    + intros [-> (l & c & Hin & Hm)]. split; [reflexivity |]. right.
      apply In_on_columns in Hin. destruct Hin as (c0 & Hin & ->).
      apply (proj1 (empty_text_impute_numeric _)) in Hm.
      apply (In_setitem _ _ _ _ _ Hnd Hh) in Hin.
      destruct Hin as [[-> ->] | [Hne Hin]].
      * exfalso. exact (to_numeric_not_empty_text _ Hm).
      * exists l, c0. auto.
    + intros [-> [Hf | (l & c & Hne & Hin & Hm)]]; [discriminate |].
      split; [reflexivity |]. exists l, (impute_numeric c). split.
      * apply In_on_columns. exists c. split; [| reflexivity].
        apply (In_setitem _ _ _ _ _ Hnd Hh). right. auto.
      * apply empty_text_impute_numeric. exact Hm.
  - split.
    + intros H. injection H as <-. auto.
    + intros [-> _]. reflexivity.
Qed.



(** ** The temporal cell: when it fails *)

Lemma columns_convert_date {conv : Conversions} df col :
  columns (convert_date df col) = columns df.
Proof.
  unfold convert_date. destruct (get_column col df) eqn:G; [| reflexivity].
  rewrite columns_setitem, has_column_get, G. reflexivity.
Qed.

Lemma columns_convert_dates {conv : Conversions} df :
  columns (convert_dates df) = columns df.
Proof. unfold convert_dates. simpl. rewrite !columns_convert_date. reflexivity. Qed.

Lemma convert_dates_DateCol {conv : Conversions} l df :
  existsb (String.eqb l) date_columns = true ->
  has_column l df = true ->
  exists ts, get_column l (convert_dates df) = Some (DateCol ts).
Proof.
  intros Hl Hh. rewrite convert_dates_get, Hl.
  rewrite has_column_get in Hh. destruct (get_column l df) as [c |]; [| discriminate].
  simpl. destruct (to_datetime_DateCol c) as (ts & ->). eauto.
Qed.

Lemma filter_has_not_nil (p : string -> bool) l d :
  has_column l d = true -> p l = true -> filter p (columns d) <> [].
Proof.
  intros Hh Hp E. apply has_column_In in Hh.
  assert (Hin : In l (filter p (columns d))) by (apply filter_In; auto).
  rewrite E in Hin. contradiction.
Qed.

Lemma filter_nil_has (p : string -> bool) l d :
  filter p (columns d) = [] -> p l = true -> has_column l d = false.
Proof.
  intros E Hp. destruct (has_column l d) eqn:Hh; [| reflexivity].
  exfalso. exact (filter_has_not_nil p l d Hh Hp E).
Qed.

(** The start features never fail once the dates are converted. *)
Lemma start_features_converted {conv : Conversions} df :
  exists d, start_features (convert_dates df) = Ok d
    /\ (has_column "StartDate" df = false -> d = convert_dates df)
    /\ (has_column "StartDate" df = true -> has_column "start_year" d = true)
    /\ untouched start_writes (convert_dates df) d.
Proof.
  unfold start_features. rewrite convert_dates_has.
  destruct (has_column "StartDate" df) eqn:Hs.
  - destruct (convert_dates_DateCol "StartDate" df eq_refl Hs) as (ts & G).
    unfold getitem. rewrite G. simpl. eexists. split; [reflexivity |].
    split; [discriminate |]. split.
    + intros _. rewrite !has_setitem. reflexivity.
    + repeat (apply untouched_setitem; [reflexivity |]). apply untouched_refl.
  - eexists. split; [reflexivity |]. split; [reflexivity |].
    split; [discriminate | apply untouched_refl].
Qed.

Lemma temporal_cell_raises {conv : Conversions} df e :
  temporal_cell df = Raise e <->
  (e = KeyError
   /\ has_column "trial_duration_days" df = false
   /\ has_column "CompletionDate" df = true
   /\ has_column "StartDate" df = false)
  \/ (e = ValueError
      /\ temporal_features df = []
      /\ has_column "StartDate" df = false
      /\ has_column "CompletionDate" df = false).
Proof.
  unfold temporal_cell. fold (convert_dates df).
  destruct (start_features_converted df) as (d & -> & Hno & Hyes & Hun).
  cbn [bind].
  assert (Hd : has_column "trial_duration_days" d = has_column "trial_duration_days" df).
  { rewrite (untouched_has _ _ _ "trial_duration_days" Hun eq_refl). apply convert_dates_has. }
  assert (Hc : has_column "CompletionDate" d = has_column "CompletionDate" df).
  { rewrite (untouched_has _ _ _ "CompletionDate" Hun eq_refl). apply convert_dates_has. }
  assert (Hs : has_column "StartDate" d = has_column "StartDate" df).
  { rewrite (untouched_has _ _ _ "StartDate" Hun eq_refl). apply convert_dates_has. }
  unfold duration_feature. rewrite Hd, Hc.
  destruct (has_column "trial_duration_days" df) eqn:Ed;
    destruct (has_column "CompletionDate" df) eqn:Ec;
    destruct (has_column "StartDate" df) eqn:Es; cbn [negb andb bind].
  - rewrite describe_ok
      by (apply (filter_has_not_nil _ "trial_duration_days"); [exact Hd | reflexivity]).
    simpl. split; [discriminate |]. intros [(_ & ? & _) | (_ & _ & _ & ?)]; discriminate.
  - rewrite describe_ok
      by (apply (filter_has_not_nil _ "trial_duration_days"); [exact Hd | reflexivity]).
    simpl. split; [discriminate |]. intros [(_ & ? & _) | (_ & _ & _ & ?)]; discriminate.
  - rewrite describe_ok
      by (apply (filter_has_not_nil _ "trial_duration_days"); [exact Hd | reflexivity]).
    simpl. split; [discriminate |]. intros [(_ & ? & _) | (_ & _ & ? & _)]; discriminate.
  - rewrite describe_ok
      by (apply (filter_has_not_nil _ "trial_duration_days"); [exact Hd | reflexivity]).
    simpl. split; [discriminate |]. intros [(_ & ? & _) | (_ & E & _)]; [discriminate |].
    pose proof (filter_nil_has _ "trial_duration_days" df E eq_refl) as F.
    rewrite Ed in F. discriminate.
  - assert (Gc : exists ts, get_column "CompletionDate" d = Some (DateCol ts)).
    { rewrite (Hun "CompletionDate" eq_refl).
      apply convert_dates_DateCol; [reflexivity | exact Ec]. }
    assert (Gs : exists ts, get_column "StartDate" d = Some (DateCol ts)).
    { rewrite (Hun "StartDate" eq_refl).
      apply convert_dates_DateCol; [reflexivity | exact Es]. }
    destruct Gc as (c & Gc). destruct Gs as (s & Gs).
    unfold getitem. rewrite Gc, Gs. cbn [bind dt].
    rewrite describe_ok.
    + simpl. split; [discriminate |].
      intros [(_ & _ & _ & ?) | (_ & _ & ? & _)]; discriminate.
    + apply (filter_has_not_nil _ "trial_duration_days"); [| reflexivity].
      rewrite has_setitem. reflexivity.
  - assert (Gc : exists ts, get_column "CompletionDate" d = Some (DateCol ts)).
    { rewrite (Hun "CompletionDate" eq_refl).
      apply convert_dates_DateCol; [reflexivity | exact Ec]. }
    destruct Gc as (c & Gc).
    assert (Gs : get_column "StartDate" d = None).
    { rewrite has_column_get in Hs. destruct (get_column "StartDate" d); [discriminate |].
      reflexivity. }
    unfold getitem. rewrite Gc, Gs. cbn [bind]. split.
    + intros H. injection H as <-. left. auto.
    + intros [(-> & _) | (_ & _ & _ & ?)]; [reflexivity | discriminate].
  - rewrite describe_ok
      by (apply (filter_has_not_nil _ "start_year"); [exact (Hyes eq_refl) | reflexivity]).
    simpl. split; [discriminate |]. intros [(_ & _ & ? & _) | (_ & _ & ? & _)]; discriminate.
  - rewrite (Hno eq_refl). unfold temporal_features at 1.
    rewrite columns_convert_dates. fold (temporal_features df).
    destruct (temporal_features df) as [| x r] eqn:Et; simpl.
    + split.
      * intros H. injection H as <-. right. auto.
      * intros [(_ & _ & ? & _) | (-> & _)]; [discriminate | reflexivity].
    + split; [discriminate |].
      intros [(_ & _ & ? & _) | (_ & ? & _)]; discriminate.
Qed.



(** ** The categorical cell: when it fails *)

Section CategoricalFailure.
Context {conv : Conversions}.

Lemma phase_indicators_eq d :
  phase_indicators d
  = match get_column "Phase" d with
    | None => Ok d
    | Some (ObjCol xs) =>
        Ok (setitem "is_phase_4" (flags "Phase 4" xs)
              (setitem "is_phase_3" (flags "Phase 3" xs)
                 (setitem "is_phase_2" (flags "Phase 2" xs)
                    (setitem "is_phase_1" (flags "Phase 1" xs) d))))
    | Some _ => Raise AttributeError
    end.
Proof.
  unfold phase_indicators, contains_indicator, getitem. rewrite has_column_get.
  destruct (get_column "Phase" d) as [[xs | xs | xs] |] eqn:G; try reflexivity.
  cbn [bind str_contains_int]. fold (flags "Phase 1" xs).
  rewrite get_setitem. cbn [bind str_contains_int]. simpl String.eqb. cbn iota.
  rewrite G. cbn [bind str_contains_int]. fold (flags "Phase 2" xs).
  rewrite !get_setitem. simpl String.eqb. cbn iota.
  rewrite G. cbn [bind str_contains_int]. fold (flags "Phase 3" xs).
  rewrite !get_setitem. simpl String.eqb. cbn iota.
  rewrite G. reflexivity.
Qed.

Lemma design_indicators_eq d :
  design_indicators d
  = match get_column "StudyDesign" d with
    | None => Ok d
    | Some (ObjCol xs) =>
        Ok (setitem "is_open_label" (flags "Open Label" xs)
              (setitem "is_single_blind" (flags "Single Blind" xs)
                 (setitem "is_double_blind" (flags "Double Blind" xs)
                    (setitem "is_randomized" (flags "Randomized" xs) d))))
    | Some _ => Raise AttributeError
    end.
Proof.
  unfold design_indicators, contains_indicator, getitem. rewrite has_column_get.
  destruct (get_column "StudyDesign" d) as [[xs | xs | xs] |] eqn:G; try reflexivity.
  cbn [bind str_contains_int]. fold (flags "Randomized" xs).
  rewrite get_setitem. simpl String.eqb. cbn iota.
  rewrite G. cbn [bind str_contains_int]. fold (flags "Double Blind" xs).
  rewrite !get_setitem. simpl String.eqb. cbn iota.
  rewrite G. cbn [bind str_contains_int]. fold (flags "Single Blind" xs).
  rewrite !get_setitem. simpl String.eqb. cbn iota.
  rewrite G. reflexivity.
Qed.

Lemma country_indicators_eq d :
  country_indicators d
  = match get_column "LocationCountry" d with
    | None => Ok d
    | Some (ObjCol xs) =>
        Ok (setitem "has_us_sites" (flags "United States" xs)
              (setitem "is_multi_country" (flags "," xs) d))
    | Some _ => Raise AttributeError
    end.
Proof.
  unfold country_indicators, contains_indicator, getitem. rewrite has_column_get.
  destruct (get_column "LocationCountry" d) as [[xs | xs | xs] |] eqn:G; try reflexivity.
  cbn [bind str_contains_int]. fold (flags "," xs).
  rewrite get_setitem. simpl String.eqb. cbn iota.
  rewrite G. reflexivity.
Qed.

Lemma sponsor_indicator_eq d :
  sponsor_indicator d
  = match get_column "LeadSponsorClass" d with
    | None => Ok d
    | Some c =>
        Ok (setitem "is_industry_sponsored" (mask_to_int (eq_str_mask "INDUSTRY" c)) d)
    end.
Proof.
  unfold sponsor_indicator, getitem. rewrite has_column_get.
  destruct (get_column "LeadSponsorClass" d); reflexivity.
Qed.

End CategoricalFailure.

Ltac refute_failure G1 G2 G3 G4 :=
  let H := fresh in
  intros H;
  destruct H as [(_ & ?src & ?c & Hin & Hg & Ht) | (_ & _ & Hl & Hf)];
  [ simpl in Hin;
    repeat (destruct Hin as [Hin | Hin]; [subst |]); try contradiction;
    first [ rewrite G2 in Hg | rewrite G3 in Hg | rewrite G4 in Hg ];
    first [ discriminate Hg | injection Hg as <-; discriminate Ht ]
  | rewrite has_column_get, G1 in Hl;
    inversion Hf as [| ? ? Hp Hf']; inversion Hf' as [| ? ? Hd Hf'']; subst;
    inversion Hf'' as [| ? ? Hc _]; subst;
    rewrite has_column_get, G2 in Hp; rewrite has_column_get, G3 in Hd;
    rewrite has_column_get, G4 in Hc;
    first [ discriminate Hl | discriminate Hp | discriminate Hd | discriminate Hc ] ].

Ltac described_by w :=
  apply (filter_has_not_nil _ w); [rewrite !has_setitem; reflexivity | reflexivity].

Ltac described :=
  rewrite describe_ok
    by (first [ described_by "has_us_sites" | described_by "is_open_label"
              | described_by "is_phase_4" | described_by "is_industry_sponsored" ]).


Lemma categorical_cell_raises {conv : Conversions} df e :
  categorical_cell df = Raise e <->
  (e = AttributeError
   /\ exists source c,
        In source searched_columns
        /\ get_column source df = Some c /\ is_text c = false)
  \/ (e = ValueError
      /\ binary_features df = []
      /\ has_column "LeadSponsorClass" df = false
      /\ Forall (fun source => has_column source df = false) searched_columns).
Proof.
  unfold categorical_cell.
  rewrite sponsor_indicator_eq.
  destruct (get_column "LeadSponsorClass" df) as [c1 |] eqn:G1;
    destruct (get_column "Phase" df) as [[x2 | x2 | x2] |] eqn:G2;
    destruct (get_column "StudyDesign" df) as [[x3 | x3 | x3] |] eqn:G3;
    destruct (get_column "LocationCountry" df) as [[x4 | x4 | x4] |] eqn:G4;
    cbn [bind];
    rewrite phase_indicators_eq, ?get_setitem; simpl String.eqb; cbn iota;
    rewrite G2; cbn [bind];
    try (rewrite design_indicators_eq, ?get_setitem; simpl String.eqb; cbn iota;
         rewrite G3; cbn [bind]);
    try (rewrite country_indicators_eq, ?get_setitem; simpl String.eqb; cbn iota;
         rewrite G4; cbn [bind]);
    try described; cbn [bind];
    try (split; [discriminate | refute_failure G1 G2 G3 G4]);
    try (split;
         [ intros H; injection H as <-; left; split; [reflexivity |];
           first [ exists "Phase"; eexists; split; [simpl; auto |];
                   split; [exact G2 | reflexivity]
                 | exists "StudyDesign"; eexists; split; [simpl; auto |];
                   split; [exact G3 | reflexivity]
                 | exists "LocationCountry"; eexists; split; [simpl; auto |];
                   split; [exact G4 | reflexivity] ]
         | intros [(-> & _) | H]; [reflexivity |];
           exfalso; revert H; intros (_ & _ & Hl & Hf);
           inversion Hf as [| ? ? Hp Hf']; inversion Hf' as [| ? ? Hd Hf'']; subst;
           inversion Hf'' as [| ? ? Hc _]; subst;
           rewrite has_column_get, G2 in Hp; rewrite has_column_get, G3 in Hd;
           rewrite has_column_get, G4 in Hc;
           first [ discriminate Hp | discriminate Hd | discriminate Hc ] ]).
  destruct (binary_features df) as [| x r] eqn:Eb; simpl.
  - split.
    + intros H. injection H as <-. right. split; [reflexivity |].
      split; [reflexivity |]. rewrite !has_column_get, G1.
      split; [reflexivity |].
      repeat constructor; rewrite has_column_get; [rewrite G2 | rewrite G3 | rewrite G4];
        reflexivity.
    + intros [(_ & src & c & Hin & Hg & _) | (-> & _)]; [| reflexivity].
      simpl in Hin. repeat (destruct Hin as [Hin | Hin]; [subst |]); try contradiction;
        congruence.
  - split; [discriminate |].
    intros [(_ & src & c & Hin & Hg & _) | (_ & ? & _)]; [| discriminate].
    simpl in Hin. repeat (destruct Hin as [Hin | Hin]; [subst |]); try contradiction;
      congruence.
Qed.


(** ** What an indicator says *)

Lemma contains_unfold pat s :
  contains pat s
  = if String.prefix pat s then true
    else match s with
         | EmptyString => false
         | String _ s' => contains pat s'
         end.
Proof. destruct s; reflexivity. Qed.

Lemma contains_spec pat s :
  contains pat s = true <-> exists a b, s = (a ++ pat ++ b)%string.
Proof.
  split.
  - induction s as [| ch s IH]; rewrite contains_unfold.
    + destruct (String.prefix pat "") eqn:E; [| discriminate].
      intros _. apply prefix_app in E. destruct E as (r & ->). exists "", r. reflexivity.
    + destruct (String.prefix pat (String ch s)) eqn:E.
      * intros _. apply prefix_app in E. destruct E as (r & ->). exists "", r. reflexivity.
      * intros H. destruct (IH H) as (a & b & ->). exists (String ch a), b. reflexivity.
  - intros (a & b & ->). induction a as [| ch a IH]; rewrite contains_unfold.
    + assert (E : String.prefix pat ("" ++ pat ++ b) = true) by (apply prefix_app; exists b; reflexivity).
      rewrite E. reflexivity.
    + destruct (String.prefix pat (String ch a ++ pat ++ b)); [reflexivity | exact IH].
Qed.

Lemma flags_mark pat xs fs : flags pat xs = NumCol fs -> Forall2 (marks pat) xs fs.
Proof.
  unfold flags. intros H. injection H as <-.
  induction xs as [| x r IH]; simpl; constructor; [| exact IH].
  destruct x as [s |].
  - destruct (contains pat s) eqn:E.
    + left. split; [reflexivity |]. apply contains_spec in E.
      destruct E as (a & b & ->). exists (a ++ pat ++ b)%string, a, b. auto.
    + right. split; [reflexivity |]. intros (s' & a & b & Es & ->).
      injection Es as ->.
      assert (Ht : contains pat (a ++ pat ++ b) = true) by (apply contains_spec; eauto).
      rewrite Ht in E. discriminate.
  - right. split; [reflexivity |]. intros (s' & a & b & Es & _). discriminate.
Qed.

Lemma contains_table_labels target source pat :
  In (target, source, pat) contains_table ->
  existsb (String.eqb source) derived_labels = false
  /\ String.eqb source "EnrollmentCount" = false
  /\ existsb (String.eqb target) temporal_writes = false
  /\ existsb (String.eqb target) length_writes = false
  /\ existsb (String.eqb target) ["completion_status"] = false
  /\ In (target, source) indicator_sources.
Proof.
  intros Hin. simpl in Hin.
  repeat (destruct Hin as [Hin | Hin];
          [injection Hin as <- <- <-; repeat split; try reflexivity; simpl; tauto |]).
  contradiction.
Qed.

Lemma derived_split l :
  existsb (String.eqb l) derived_labels = false ->
  existsb (String.eqb l) temporal_writes = false
  /\ existsb (String.eqb l) indicator_writes = false
  /\ existsb (String.eqb l) length_writes = false
  /\ existsb (String.eqb l) ["completion_status"] = false.
Proof.
  unfold derived_labels. rewrite !existsb_app. intros H.
  apply orb_false_elim in H. destruct H as [H1 H].
  apply orb_false_elim in H. destruct H as [H2 H].
  apply orb_false_elim in H. destruct H as [H3 H4]. auto.
Qed.


Lemma categorical_cell_skips {conv : Conversions} d d' target source :
  categorical_cell d = Ok d' ->
  In (target, source) indicator_sources ->
  has_column source d = false ->
  get_column target d' = get_column target d.
Proof.
  intros H Hin Hs. simpl in Hin.
  open_categorical H;
    repeat (destruct Hin as [Hin | Hin]; [inv_ok Hin |]); try contradiction;
    try congruence;
    rewrite ?get_setitem; reflexivity.
Qed.

Lemma indicator_sources_labels target source :
  In (target, source) indicator_sources ->
  existsb (String.eqb source) derived_labels = false
  /\ String.eqb source "EnrollmentCount" = false
  /\ String.eqb target "EnrollmentCount" = false
  /\ existsb (String.eqb target) temporal_writes = false
  /\ existsb (String.eqb target) length_writes = false
  /\ existsb (String.eqb target) ["completion_status"] = false.
Proof.
  intros Hin. simpl in Hin.
  repeat (destruct Hin as [Hin | Hin];
          [injection Hin as <- <-; repeat split; reflexivity |]).
  contradiction.
Qed.


(** ** The text cell: when it fails *)

Ltac lengths_described :=
  rewrite describe_ok
    by (first [ described_by "BriefTitle_length" | described_by "BriefSummary_length"
              | described_by "DetailedDescription_length" ]).


Lemma text_cell_raises {conv : Conversions} n d e :
  frame_ok n d ->
  text_cell d = Raise e <->
  e = IndexError
  /\ n = 0
  /\ existsb (fun col => has_column col d) text_columns = true.
Proof.
  intros Hok. unfold text_cell. cbn [text_columns filter existsb].
  rewrite !has_column_get.
  destruct (get_column "BriefTitle" d) as [c1 |] eqn:G1;
    destruct (get_column "BriefSummary" d) as [c2 |] eqn:G2;
    destruct (get_column "DetailedDescription" d) as [c3 |] eqn:G3;
    cbn [firstn for_each bind orb];
    try (split; [discriminate | intros (_ & _ & ?); discriminate]);
    unfold iloc0, getitem; rewrite ?G1, ?G2, ?G3; cbn [bind];
    rewrite ?(frame_ok_get _ _ _ _ Hok G1), ?(frame_ok_get _ _ _ _ Hok G2),
      ?(frame_ok_get _ _ _ _ Hok G3);
    (destruct n as [| k];
     [ cbn [bind]; split;
       [ intros H; injection H as <-; auto | intros (-> & _); reflexivity ]
     | cbn [bind]; unfold length_feature, getitem;
       rewrite ?G1, ?G2, ?G3; cbn [bind];
       rewrite ?get_setitem; simpl String.eqb; cbn iota;
       rewrite ?G1, ?G2, ?G3; cbn [bind];
       rewrite ?get_setitem; simpl String.eqb; cbn iota;
       rewrite ?G1, ?G2, ?G3; cbn [bind];
       unfold text_length_cols; simpl append;
       lengths_described; cbn [bind];
       split; [discriminate | intros (_ & ? & _); discriminate] ]).
Qed.


(** ** The last cell: features and targets for the two predictions *)



Lemma prepare_cell_raises b d e :
  prepare_cell b d = Raise e <->
  e = NameError
  /\ has_column "trial_duration_days" d = true
  /\ b = false
  /\ has_column "completion_status" d = false.
Proof.
  split.
  - intros H.
    destruct (has_column "trial_duration_days" d) eqn:Ed.
    + destruct (b || has_column "completion_status" d) eqn:Eb.
      * destruct (prepare_cell_ok b d (fun _ => Eb)) as (x & Hx). congruence.
      * apply orb_false_elim in Eb. destruct Eb as [-> Ec].
        unfold prepare_cell in H. rewrite Ec, Ed in H. cbn [bind orb] in H.
        injection H as <-. auto.
    + destruct (prepare_cell_ok b d) as (x & Hx);
        [intros F; rewrite Ed in F; discriminate | congruence].
  - intros (-> & Ed & -> & Ec). unfold prepare_cell. rewrite Ec, Ed. reflexivity.
Qed.

(** ** Columns kept and columns added *)

Lemma extends_refl ws d : extends_by ws d d.
Proof. exists []. split; [symmetry; apply app_nil_r | intros x []]. Qed.

Lemma extends_setitem ws l v d d' :
  In l ws -> extends_by ws d d' -> extends_by ws d (setitem l v d').
Proof.
  intros Hl (added & E & Hi). unfold extends_by. rewrite columns_setitem.
  destruct (has_column l d').
  - exists added. auto.
  - exists (added ++ [l]). split; [rewrite E, app_assoc; reflexivity |].
    intros x Hx. apply in_app_or in Hx. destruct Hx as [Hx | [<- | []]]; auto.
Qed.

Lemma extends_trans ws1 ws2 ws d1 d2 d3 :
  extends_by ws1 d1 d2 -> extends_by ws2 d2 d3 ->
  incl ws1 ws -> incl ws2 ws -> extends_by ws d1 d3.
Proof.
  intros (e1 & E1 & I1) (e2 & E2 & I2) H1 H2.
  exists (e1 ++ e2). split; [rewrite E2, E1, app_assoc; reflexivity |].
  intros x Hx. apply in_app_or in Hx. destruct Hx as [Hx | Hx]; auto.
Qed.

Lemma extends_same ws d d' : columns d' = columns d -> extends_by ws d d'.
Proof. intros E. exists []. split; [rewrite app_nil_r; exact E | intros x []]. Qed.

Ltac extends_step :=
  repeat (apply extends_setitem; [simpl; tauto |]); apply extends_refl.

Section Columns.
Context {conv : Conversions}.

Lemma data_preparation_columns df d1 :
  NoDup (columns df) -> data_preparation df = Ok d1 -> columns d1 = columns df.
Proof.
  intros Hnd H. destruct (data_preparation_ok _ _ Hnd H) as (e0 & G & ->).
  rewrite columns_on_columns, columns_setitem, has_column_get, G. reflexivity.
Qed.

Lemma temporal_cell_extends d d' :
  temporal_cell d = Ok d' -> extends_by temporal_writes d d'.
Proof.
  intros H. apply temporal_cell_steps in H. destruct H as (d0 & H1 & H2 & _).
  apply (extends_trans temporal_writes temporal_writes _ _ (convert_dates d));
    try apply incl_refl.
  - apply extends_same. apply columns_convert_dates.
  - apply (extends_trans temporal_writes temporal_writes _ _ d0); try apply incl_refl.
    + unfold start_features in H1. destruct (has_column "StartDate" (convert_dates d)).
      * do 2 inv_bind H1. inv_ok H1. extends_step.
      * inv_ok H1. apply extends_refl.
    + unfold duration_feature in H2.
      destruct (negb (has_column "trial_duration_days" d0)
                && has_column "CompletionDate" d0).
      * do 4 inv_bind H2. inv_ok H2. extends_step.
      * inv_ok H2. apply extends_refl.
Qed.

Lemma categorical_cell_extends d d' :
  categorical_cell d = Ok d' -> extends_by indicator_writes d d'.
Proof. intros H. open_categorical H; extends_step. Qed.

Lemma text_cell_extends d d' :
  text_cell d = Ok d' -> extends_by length_writes d d'.
Proof. intros H. open_text H; extends_step. Qed.

Lemma target_cell_extends d clean modeling :
  target_cell d = Ok (clean, modeling) ->
  extends_by ["completion_status"] d clean /\ columns modeling = columns clean.
Proof.
  intros H. apply target_cell_ok in H.
  destruct (negb (has_column "completion_status" d) && has_column "OverallStatus" d).
  - destruct H as (st & _ & -> & ->). split; [extends_step |].
    apply columns_filter_rows.
  - destruct H as [-> ->]. split; [apply extends_refl | reflexivity].
Qed.

End Columns.


Lemma columns_select cols : forall d X, select_columns cols d = Ok X -> columns X = cols.
Proof.
  induction cols as [| c cols IH]; intros d X H; simpl in H.
  - injection H as <-. reflexivity.
  - do 2 inv_bind H. injection H as <-. simpl. f_equal. exact (IH _ _ H1).
Qed.

(** ** The training notebook: line breaks in string literals *)

(** The line that stops the cell which prepares the data, and the same
    line with the line break written as an escape, the way the
    feature-engineering notebook writes it. *)
Lemma raw_line_break_refused :
  Python.compile
    [["print("; Python.dq; Python.nl; "Class distribution for completion status:";
      Python.dq; ")"; Python.nl]]
  = Raise SyntaxError.
Proof. reflexivity. Qed.

Lemma escaped_line_break_compiles :
  Python.compile
    [["print("; Python.dq; "\nClass distribution for completion status:";
      Python.dq; ")"; Python.nl]]
  = Ok tt.
Proof. reflexivity. Qed.

Lemma filter_nil_Forall {A : Type} (p : A -> bool) l :
  filter p l = [] <-> Forall (fun x => p x = false) l.
Proof.
  induction l as [| x l IH]; simpl.
  - split; constructor.
  - destruct (p x) eqn:E.
    + split; [discriminate |]. intros H. inversion H. congruence.
    + rewrite IH. split; intros H; [constructor; assumption | inversion H; assumption].
Qed.

(** ** When the notebook runs through *)

Section RunsThrough.
Context {conv : Conversions}.

Lemma is_text_cleaned c : is_text (cleaned c) = is_text c.
Proof.
  unfold cleaned. destruct c as [xs | xs | xs]; simpl; try reflexivity.
  destruct (mode0 xs); reflexivity.
Qed.

Lemma temporal_cell_duration d1 d2 :
  temporal_cell d1 = Ok d2 ->
  has_column "trial_duration_days" d2
  = has_column "trial_duration_days" d1 || has_column "CompletionDate" d1.
Proof.
  intros H. apply temporal_cell_steps in H. destruct H as (d0 & Hs & Hd & _).
  pose proof (start_features_untouched _ _ Hs) as Us.
  rewrite <- (convert_dates_has "trial_duration_days" d1),
    <- (convert_dates_has "CompletionDate" d1).
  rewrite <- (untouched_has _ _ _ "trial_duration_days" Us eq_refl),
    <- (untouched_has _ _ _ "CompletionDate" Us eq_refl).
  unfold duration_feature in Hd.
  destruct (has_column "trial_duration_days" d0) eqn:Et; simpl in Hd.
  - injection Hd as <-. rewrite Et. reflexivity.
  - destruct (has_column "CompletionDate" d0) eqn:Ec.
    + do 4 inv_bind Hd. injection Hd as <-. rewrite has_setitem. reflexivity.
    + injection Hd as <-. rewrite Et. reflexivity.
Qed.

Lemma filter_extends (p : string -> bool) ws d d' :
  extends_by ws d d' -> Forall (fun w => p w = false) ws ->
  filter p (columns d') = filter p (columns d).
Proof.
  intros (added & E & Hi) Hp. rewrite E, filter_app.
  assert (En : filter p added = []).
  { apply filter_nil_Forall. apply Forall_forall. intros w Hw.
    exact (proj1 (Forall_forall _ _) Hp w (Hi w Hw)). }
  rewrite En. apply app_nil_r.
Qed.

Lemma target_cell_status d clean modeling :
  target_cell d = Ok (clean, modeling) ->
  has_column "completion_status" clean
  = has_column "completion_status" d || has_column "OverallStatus" d.
Proof.
  intros H. apply target_cell_ok in H.
  destruct (has_column "completion_status" d) eqn:Ec; simpl in *.
  - destruct H as [-> _]. exact Ec.
  - destruct (has_column "OverallStatus" d) eqn:Eo.
    + destruct H as (st & _ & -> & _). rewrite has_setitem. reflexivity.
    + destruct H as [-> _]. exact Ec.
Qed.

Lemma existsb_ext_in {A : Type} (f g : A -> bool) l :
  (forall x, In x l -> f x = g x) -> existsb f l = existsb g l.
Proof.
  induction l as [| x l IH]; intros H; simpl; [reflexivity |].
  rewrite (H x (or_introl eq_refl)), IH; [reflexivity |].
  intros y Hy. apply H. right. exact Hy.
Qed.

Variables (n : nat) (df d1 d2 d3 : DataFrame).
Hypothesis Hok : frame_ok n df.
Hypothesis H1 : data_preparation df = Ok d1.

Lemma prepared_has c : has_column c d1 = has_column c df.
Proof. exact (data_preparation_has _ _ c (proj1 Hok) H1). Qed.

Lemma prepared_temporal_features : temporal_features d1 = temporal_features df.
Proof.
  unfold temporal_features. rewrite (data_preparation_columns _ _ (proj1 Hok) H1).
  reflexivity.
Qed.

Hypothesis H2 : temporal_cell d1 = Ok d2.

Lemma dated_has c :
  existsb (String.eqb c) temporal_writes = false -> has_column c d2 = has_column c df.
Proof.
  intros Hc. rewrite (untouched_has _ _ _ c (temporal_cell_untouched _ _ H2) Hc).
  apply prepared_has.
Qed.

Lemma dated_get c :
  existsb (String.eqb c) temporal_writes = false ->
  String.eqb c "EnrollmentCount" = false ->
  get_column c d2 = option_map cleaned (get_column c df).
Proof.
  intros Hc He. rewrite (temporal_cell_untouched _ _ H2 c Hc).
  rewrite (data_preparation_get _ _ c (proj1 Hok) H1), He. reflexivity.
Qed.

Lemma dated_binary_features : binary_features d2 = binary_features df.
Proof.
  unfold binary_features.
  rewrite (filter_extends _ temporal_writes d1 d2 (temporal_cell_extends _ _ H2))
    by (repeat constructor).
  rewrite (data_preparation_columns _ _ (proj1 Hok) H1). reflexivity.
Qed.

Lemma dated_duration :
  has_column "trial_duration_days" d2
  = has_column "trial_duration_days" df || has_column "CompletionDate" df.
Proof. rewrite (temporal_cell_duration _ _ H2), !prepared_has. reflexivity. Qed.

Hypothesis H3 : categorical_cell d2 = Ok d3.

Lemma flagged_has c :
  existsb (String.eqb c) temporal_writes = false ->
  existsb (String.eqb c) indicator_writes = false ->
  has_column c d3 = has_column c df.
Proof.
  intros Ht Hi. rewrite (untouched_has _ _ _ c (categorical_cell_untouched _ _ H3) Hi).
  apply dated_has. exact Ht.
Qed.

Lemma flagged_text_columns :
  existsb (fun col => has_column col d3) text_columns
  = existsb (fun col => has_column col df) text_columns.
Proof.
  apply existsb_ext_in. intros col Hin. simpl in Hin.
  repeat (destruct Hin as [<- | Hin]; [apply flagged_has; reflexivity |]).
  contradiction.
Qed.

Lemma flagged_frame_ok : frame_ok n d3.
Proof.
  eapply categorical_cell_frame_ok; [| exact H3].
  eapply temporal_cell_frame_ok; [| exact H2].
  eapply data_preparation_frame_ok; [exact Hok | exact H1].
Qed.

Variables d4 clean modeling : DataFrame.
Hypothesis H4 : text_cell d3 = Ok d4.
Hypothesis H5 : target_cell d4 = Ok (clean, modeling).

Lemma modeling_duration :
  has_column "trial_duration_days" modeling
  = has_column "trial_duration_days" df || has_column "CompletionDate" df.
Proof.
  rewrite (modeling_has _ _ _ "trial_duration_days" H5).
  rewrite (untouched_has _ _ _ "trial_duration_days" (target_cell_untouched _ _ _ H5) eq_refl).
  rewrite (untouched_has _ _ _ "trial_duration_days" (text_cell_untouched _ _ H4) eq_refl).
  rewrite (untouched_has _ _ _ "trial_duration_days" (categorical_cell_untouched _ _ H3) eq_refl).
  apply dated_duration.
Qed.

Lemma modeling_status :
  has_column "completion_status" modeling
  = has_column "completion_status" df || has_column "OverallStatus" df.
Proof.
  rewrite (modeling_has _ _ _ "completion_status" H5), (target_cell_status _ _ _ H5).
  rewrite (untouched_has _ _ _ "completion_status" (text_cell_untouched _ _ H4) eq_refl).
  rewrite (untouched_has _ _ _ "OverallStatus" (text_cell_untouched _ _ H4) eq_refl).
  rewrite !flagged_has by reflexivity. reflexivity.
Qed.

End RunsThrough.

Lemma searched_labels source :
  In source searched_columns ->
  existsb (String.eqb source) temporal_writes = false
  /\ existsb (String.eqb source) indicator_writes = false
  /\ String.eqb source "EnrollmentCount" = false.
Proof.
  intros Hin. simpl in Hin.
  repeat (destruct Hin as [<- | Hin]; [repeat split; reflexivity |]). contradiction.
Qed.

Lemma has_column_Some c d : has_column c d = true <-> exists v, get_column c d = Some v.
Proof.
  rewrite has_column_get. destruct (get_column c d) as [v |].
  - split; [eauto | reflexivity].
  - split; [discriminate | intros (v & H); discriminate].
Qed.

(** From a run to the conditions on the input. *)
Lemma runs_admissible {conv : Conversions} n df clean modeling :
  frame_ok n df ->
  feature_engineering df = Ok (clean, modeling) ->
  admissible n df.
Proof.
  intros Hok H. apply feature_engineering_steps_full in H.
  destruct H as (d1 & d2 & d3 & d4 & x & H1 & H2 & H3 & H4 & H5 & H6).
  pose proof (proj1 Hok) as Hnd.
  assert (N1 : forall e, data_preparation df <> Raise e) by (intros e; congruence).
  assert (N2 : forall e, temporal_cell d1 <> Raise e) by (intros e; congruence).
  assert (N3 : forall e, categorical_cell d2 <> Raise e) by (intros e; congruence).
  constructor.
  - destruct (has_column "EnrollmentCount" df) eqn:E; [reflexivity |].
    exfalso. apply (N1 KeyError). apply data_preparation_raises; auto.
  - intros l c Hin Hl He. apply (N1 KeyError).
    apply data_preparation_raises; [exact Hnd |]. split; [reflexivity |].
    right. exists l, c. auto.
  - intros Ed Ec. destruct (has_column "StartDate" df) eqn:Es; [reflexivity |].
    exfalso. apply (N2 KeyError). apply temporal_cell_raises. left.
    rewrite !(prepared_has n df d1 Hok H1). auto.
  - destruct (has_column "StartDate" df) eqn:Es; [auto |].
    destruct (has_column "CompletionDate" df) eqn:Ec; [auto |].
    left. intros Et. apply (N2 ValueError). apply temporal_cell_raises. right.
    rewrite (prepared_temporal_features n df d1 Hok H1), !(prepared_has n df d1 Hok H1).
    auto.
  - intros source c Hin G. destruct (is_text c) eqn:Et; [reflexivity |].
    exfalso. apply (N3 AttributeError). apply categorical_cell_raises. left.
    split; [reflexivity |]. exists source, (cleaned c).
    destruct (searched_labels _ Hin) as (L1 & _ & L3).
    split; [exact Hin |]. split.
    + rewrite (dated_get n df d1 d2 Hok H1 H2 source L1 L3), G. reflexivity.
    + rewrite is_text_cleaned. exact Et.
  - destruct (binary_features df) as [| b r] eqn:Eb; [| left; discriminate].
    destruct (has_column "LeadSponsorClass" df) eqn:El; [auto |].
    destruct (has_column "Phase" df) eqn:Ep;
      [right; right; exists "Phase"; simpl; auto |].
    destruct (has_column "StudyDesign" df) eqn:Ed;
      [right; right; exists "StudyDesign"; simpl; auto |].
    destruct (has_column "LocationCountry" df) eqn:Ec;
      [right; right; exists "LocationCountry"; simpl; auto |].
    exfalso. apply (N3 ValueError). apply categorical_cell_raises. right.
    split; [reflexivity |].
    rewrite (dated_binary_features n df d1 d2 Hok H1 H2).
    split; [exact Eb |].
    rewrite !(dated_has n df d1 d2 Hok H1 H2) by reflexivity.
    split; [exact El |].
    repeat constructor; rewrite (dated_has n df d1 d2 Hok H1 H2) by reflexivity;
      assumption.
  - rewrite <- (flagged_text_columns n df d1 d2 d3 Hok H1 H2 H3).
    exact (text_cell_rows n d3 d4 (flagged_frame_ok n df d1 d2 d3 Hok H1 H2 H3) H4).
  - intros Hd.
    assert (Hm : has_column "trial_duration_days" modeling = true).
    { rewrite (modeling_duration n df d1 d2 d3 Hok H1 H2 H3 d4 clean modeling H4 H5).
      destruct Hd as [-> | ->]; [reflexivity | apply orb_true_r]. }
    pose proof (prepare_cell_bound _ _ _ H6 Hm) as Hb.
    rewrite (flagged_text_columns n df d1 d2 d3 Hok H1 H2 H3) in Hb.
    rewrite (modeling_status n df d1 d2 d3 Hok H1 H2 H3 d4 clean modeling H4 H5) in Hb.
    apply orb_true_iff in Hb. destruct Hb as [Hb | Hb]; [auto |].
    apply orb_true_iff in Hb. tauto.
Qed.

(** ** Columns without gaps *)

(** Every column of the two tables a run leaves, the start features
    aside, is without a gap. *)
Lemma first_pass_without_gaps {conv : Conversions} n df clean modeling l :
  frame_ok n df ->
  feature_engineering df = Ok (clean, modeling) ->
  existsb (String.eqb l) start_writes = false ->
  (forall c, get_column l clean = Some c -> without_gaps c)
  /\ (forall c, get_column l modeling = Some c -> without_gaps c).
Proof.
  intros Hok H Hl.
  pose proof (first_pass_engineered n df clean modeling Hok H) as Heng.
  assert (Hclean : forall c, get_column l clean = Some c -> without_gaps c).
  { intros c G. apply settled_without_gaps.
    exact (eng_settled n clean Heng l c G (or_introl Hl)). }
  split; [exact Hclean |].
  apply feature_engineering_steps in H.
  destruct H as (d1 & d2 & d3 & d4 & _ & _ & _ & _ & H5).
  unfold target_cell in H5.
  destruct (negb (has_column "completion_status" d4) && has_column "OverallStatus" d4).
  - do 2 inv_bind H5. injection H5 as <- <-. intros c G.
    rewrite get_filter_rows in G.
    destruct (get_column l (setitem "completion_status"
                              (mask_to_int (eq_str_mask "Completed" v)) d4))
      as [c0 |] eqn:G0; [| discriminate].
    injection G as <-. apply without_gaps_filter. exact (Hclean c0 eq_refl).
  - injection H5 as <- <-. exact Hclean.
Qed.


(** ** The two prediction datasets *)

Lemma feature_list_no_target d target :
  existsb (String.eqb target) candidate_features = false ->
  endswith "_length" target = false ->
  ~ In target (filter (fun col => has_column col d)
                      (candidate_features ++ text_length_cols d)).
Proof.
  intros Hc He Hin. apply filter_In in Hin. destruct Hin as [Hin _].
  apply in_app_or in Hin. destruct Hin as [Hin | Hin].
  - assert (Ht : existsb (String.eqb target) candidate_features = true).
    { apply existsb_exists. exists target. split; [exact Hin | apply String.eqb_refl]. }
    congruence.
  - unfold text_length_cols in Hin. apply filter_In in Hin. destruct Hin as [_ Hin].
    congruence.
Qed.

Lemma select_columns_get cols : forall d X c v,
  select_columns cols d = Ok X -> get_column c X = Some v -> get_column c d = Some v.
Proof.
  induction cols as [| a cols IH]; intros d X c v H G; simpl in H.
  - injection H as <-. discriminate.
  - do 2 inv_bind H. injection H as <-. simpl in G.
    destruct (String.eqb c a) eqn:E.
    + apply String.eqb_eq in E. subst a. injection G as <-.
      apply getitem_ok. exact H0.
    + exact (IH _ _ _ _ H1 G).
Qed.


Lemma dt_field_of f ts : exists ys, dt_field f ts = NumCol ys /\ Forall2 (field_of f) ts ys.
Proof.
  unfold dt_field. eexists. split; [reflexivity |].
  induction ts as [| [t |] r IH]; simpl; constructor; try exact IH; reflexivity.
Qed.

Lemma feature_engineering_grows {conv : Conversions} df clean modeling :
  NoDup (columns df) ->
  feature_engineering df = Ok (clean, modeling) -> grows df clean.
Proof.
  intros Hnd H. apply feature_engineering_steps in H.
  destruct H as (d1 & d2 & d3 & d4 & H1 & H2 & H3 & H4 & H5).
  apply temporal_cell_steps in H2. destruct H2 as (d0 & Hs & Hd & _).
  intros l Hl.
  apply (target_cell_grows _ _ _ H5), (text_cell_grows _ _ H4),
    (categorical_cell_grows _ _ H3), (duration_feature_grows _ _ Hd),
    (start_features_grows _ _ Hs).
  rewrite convert_dates_has, (data_preparation_has _ _ l Hnd H1). exact Hl.
Qed.

(* ================================================================== *)
(** * The properties of the specification *)
(* ================================================================== *)

Import Samples.

(** C1 (amended).  When the input table has no duration column, the
    duration the notebook computes is the difference of the two dates
    in days with every negative or missing value replaced by the median
    of the valid ones, so that no row of the cleaned or of the
    modeling-ready table carries a negative duration.  A duration
    column that the input table has already is not computed again: the
    cleaned table holds it as data preparation leaves it, which for
    numbers is every recorded value as it is, a negative one too, and
    the median of all recorded values, negative ones counted, where a
    value is missing; the modeling-ready table holds that column, or
    its rows with a definitive outcome. *)
Theorem duration_never_negative {conv : Conversions} df clean modeling :
  NoDup (columns df) ->
  feature_engineering df = Ok (clean, modeling) ->
  (has_column "trial_duration_days" df = false ->
   forall col, get_column "trial_duration_days" clean = Some col ->
     exists c s,
       get_column "CompletionDate" clean = Some (DateCol c)
       /\ get_column "StartDate" clean = Some (DateCol s)
       /\ col = NumCol (repaired_durations (timedelta_days c s))
       /\ Forall not_negative (repaired_durations (timedelta_days c s))
       /\ exists ys, get_column "trial_duration_days" modeling = Some (NumCol ys)
                     /\ Forall not_negative ys)
  /\ (forall recorded, get_column "trial_duration_days" df = Some recorded ->
        get_column "trial_duration_days" clean = Some (cleaned recorded)
        /\ (forall xs, recorded = NumCol xs ->
              get_column "trial_duration_days" clean
              = Some (NumCol (fillna (median xs) xs)))
        /\ (get_column "trial_duration_days" modeling = Some (cleaned recorded)
            \/ exists status,
                 get_column "OverallStatus" clean = Some status
                 /\ get_column "trial_duration_days" modeling
                    = Some (filter_column (isin_mask completed_statuses status)
                              (cleaned recorded)))).
Proof.
  intros Hnd H. pose proof H as Hrun. apply feature_engineering_steps in H.
  destruct H as (d1 & d2 & d3 & d4 & H1 & H2 & H3 & H4 & H5).
  pose proof (temporal_cell_steps _ _ H2) as (d & Hs & Hd & _).
  assert (Hlate : forall c, existsb (String.eqb c)
                     (indicator_writes ++ length_writes ++ ["completion_status"]) = false ->
                   get_column c clean = get_column c d2).
  { intros c Hc. rewrite !existsb_app in Hc.
    apply orb_false_elim in Hc. destruct Hc as [Hc1 Hc].
    apply orb_false_elim in Hc. destruct Hc as [Hc2 Hc3].
    rewrite (target_cell_untouched _ _ _ H5 c Hc3), (text_cell_untouched _ _ H4 c Hc2),
      (categorical_cell_untouched _ _ H3 c Hc1). reflexivity. }
  split.
  - intros Hno col G.
    rewrite <- (data_preparation_has _ _ "trial_duration_days" Hnd H1) in Hno.
    assert (Hno' : has_column "trial_duration_days" d = false).
    { rewrite (untouched_has _ _ _ "trial_duration_days" (start_features_untouched _ _ Hs) eq_refl).
      rewrite convert_dates_has. exact Hno. }
    rewrite (Hlate "trial_duration_days" eq_refl) in G.
    destruct (duration_feature_spec _ _ _ Hd Hno' G) as (c & s & Gc & Gs & ->).
    pose proof (duration_feature_untouched _ _ Hd) as Hu.
    exists c, s.
    rewrite (Hlate "CompletionDate" eq_refl), (Hlate "StartDate" eq_refl),
      (Hu "CompletionDate" eq_refl), (Hu "StartDate" eq_refl).
    rewrite computed_duration_repaired.
    repeat split; try assumption; try apply repaired_not_negative.
    rewrite computed_duration_repaired in G.
    rewrite <- (Hlate "trial_duration_days" eq_refl) in G.
    apply target_cell_ok in H5.
    destruct (negb (has_column "completion_status" d4) && has_column "OverallStatus" d4).
    + destruct H5 as (st & _ & _ & ->). rewrite get_filter_rows, G. simpl.
      eexists. split; [reflexivity |]. apply Forall_mask_filter. apply repaired_not_negative.
    + destruct H5 as [<- <-]. rewrite G. eexists. split; [reflexivity |].
      apply repaired_not_negative.
  - intros recorded G.
    assert (G1 : get_column "trial_duration_days" d1 = Some (cleaned recorded)).
    { rewrite (data_preparation_get _ _ "trial_duration_days" Hnd H1). simpl.
      rewrite G. reflexivity. }
    assert (Gd : get_column "trial_duration_days" d = Some (cleaned recorded)).
    { rewrite (start_features_untouched _ _ Hs "trial_duration_days" eq_refl).
      rewrite convert_dates_get. simpl. exact G1. }
    assert (Hhas : has_column "trial_duration_days" d = true).
    { rewrite has_column_get, Gd. reflexivity. }
    rewrite (duration_feature_present _ _ Hd Hhas) in Hlate.
    assert (Gc : get_column "trial_duration_days" clean = Some (cleaned recorded)).
    { rewrite (Hlate "trial_duration_days" eq_refl). exact Gd. }
    split; [exact Gc |]. split.
    + intros xs ->. exact Gc.
    + apply target_cell_ok in H5.
      destruct (negb (has_column "completion_status" d4) && has_column "OverallStatus" d4).
      * destruct H5 as (st & Gst & Ec & ->). right. exists st. split.
        -- rewrite Ec, get_setitem. simpl. exact Gst.
        -- rewrite get_filter_rows, Gc. reflexivity.
      * destruct H5 as [<- <-]. left. exact Gc.
Qed.

(** On the three sample trials the second duration is negative and is
    replaced by the median of 100 and 30.  Of the durations -5, NaN and
    30 that a table records already, the negative one stays and the
    missing one becomes the median 12.5 of the two. *)
Lemma duration_never_negative_witness :
  (exists clean modeling,
     feature_engineering (conv := Reader.conversions) trials = Ok (clean, modeling)
     /\ get_column "trial_duration_days" clean
        = Some (NumCol [num 100; Some (130 # 2)%Q; num 30])
     /\ exists ys, get_column "trial_duration_days" modeling = Some (NumCol ys)
                   /\ Forall not_negative ys)
  /\ (exists clean modeling,
        feature_engineering (conv := Reader.conversions) recorded_gap
        = Ok (clean, modeling)
        /\ get_column "trial_duration_days" clean
           = Some (NumCol [num (-5); Some (25 # 2)%Q; num 30])).
Proof.
  split.
  - do 2 eexists. split; [vm_compute; reflexivity |].
    assert (Hnd : NoDup (columns trials)) by distinct_labels.
    destruct (proj1 (duration_never_negative (conv := Reader.conversions) trials _ _
                       Hnd eq_refl) eq_refl _ eq_refl)
      as (c & s & Gc & Gs & E & _ & Hm).
    split; [reflexivity | exact Hm].
  - do 2 eexists. split; [vm_compute; reflexivity |].
    assert (Hnd : NoDup (columns recorded_gap)) by distinct_labels.
    exact (proj1 (proj2 (proj2 (duration_never_negative (conv := Reader.conversions)
                                  recorded_gap _ _ Hnd eq_refl)
                           (NumCol [num (-5); None; num 30]) eq_refl))
             [num (-5); None; num 30] eq_refl).
Defined.

(** C1 does not hold of every input table: a duration column that is
    already in the input is not computed again, and its negative
    values stay. *)
Lemma recorded_duration_stays_negative :
  (exists clean modeling,
     feature_engineering (conv := Reader.conversions) recorded_duration
     = Ok (clean, modeling)
     /\ get_column "trial_duration_days" modeling = Some (NumCol [num (-5); num 30]))
  /\ ~ (forall (conv : Conversions) df clean modeling ys,
          NoDup (columns df) ->
          feature_engineering df = Ok (clean, modeling) ->
          get_column "trial_duration_days" modeling = Some (NumCol ys) ->
          Forall not_negative ys).
Proof.
  split.
  - do 2 eexists. split; [vm_compute; reflexivity | reflexivity].
  - intros H.
    assert (Hnd : NoDup (columns recorded_duration)) by distinct_labels.
    specialize (H Reader.conversions recorded_duration _ _ [num (-5); num 30]
                  Hnd eq_refl eq_refl).
    apply Forall_cons_iff in H. destruct H as [H _].
    vm_compute in H. apply H. reflexivity.
Qed.

(** C2 (amended).  For an input table with an overall-status column and
    without a completion-status column, the modeling-ready table holds
    exactly the rows of the cleaned table whose status is Completed,
    Terminated, Suspended or Withdrawn, and on every row the target is 1
    when the status is Completed and 0 otherwise. *)
Theorem modeling_rows_definitive {conv : Conversions} n df clean modeling :
  frame_ok n df ->
  has_column "OverallStatus" df = true ->
  has_column "completion_status" df = false ->
  feature_engineering df = Ok (clean, modeling) ->
  table_rows modeling
  = filter (text_in completed_statuses "OverallStatus") (table_rows clean)
  /\ Forall (fun r => row_get "completion_status" r
                      = Some (NumCell (bool_to_int
                                         (text_in ["Completed"] "OverallStatus" r))))
            (table_rows modeling).
Proof.
  intros Hok Hst Hno H.
  destruct (modeling_rows_spec n df clean modeling Hok Hst Hno H)
    as (_ & _ & _ & Hrows & Htarget).
  split; [exact Hrows |].
  rewrite Hrows. apply Forall_filter_keep. exact Htarget.
Qed.

(** Statuses Completed, Terminated, Recruiting: the first two rows are
    kept, with targets 1 and 0. *)
Lemma modeling_rows_definitive_witness :
  exists clean modeling,
    feature_engineering (conv := Reader.conversions) trials = Ok (clean, modeling)
    /\ get_column "OverallStatus" clean
       = Some (ObjCol [Some "Completed"; Some "Terminated"; Some "Recruiting"])
    /\ table_rows modeling = firstn 2 (table_rows clean)
    /\ get_column "completion_status" modeling = Some (NumCol [num 1; num 0]).
Proof.
  destruct (feature_engineering (conv := Reader.conversions) trials)
    as [[clean modeling] | e] eqn:Hrun; [| vm_compute in Hrun; discriminate].
  exists clean, modeling. split; [reflexivity |].
  assert (Hok : frame_ok 3 trials) by (split; [distinct_labels | repeat constructor]).
  destruct (modeling_rows_definitive (conv := Reader.conversions) 3 trials clean modeling
              Hok eq_refl eq_refl Hrun) as [Hrows _].
  rewrite Hrows. vm_compute in Hrun. injection Hrun as <- <-.
  repeat split; reflexivity.
Defined.

(** C2 does not hold of every input table: a table that already has a
    completion-status column is not filtered. *)
Lemma labelled_table_not_filtered :
  (exists clean modeling,
     feature_engineering (conv := Reader.conversions) labelled = Ok (clean, modeling)
     /\ get_column "OverallStatus" modeling
        = Some (ObjCol [Some "Completed"; Some "Terminated"; Some "Recruiting"])
     /\ get_column "completion_status" modeling = Some (NumCol [num 1; num 0; num 0]))
  /\ ~ (forall (conv : Conversions) n df clean modeling,
          frame_ok n df ->
          has_column "OverallStatus" df = true ->
          feature_engineering df = Ok (clean, modeling) ->
          table_rows modeling
          = filter (text_in completed_statuses "OverallStatus") (table_rows clean)).
Proof.
  split.
  - do 2 eexists. split; [vm_compute; reflexivity |]. split; reflexivity.
  - intros H.
    assert (Hok : frame_ok 3 labelled) by (split; [distinct_labels | repeat constructor]).
    specialize (H Reader.conversions 3 labelled _ _ Hok eq_refl eq_refl).
    apply (f_equal (@length row)) in H. vm_compute in H. discriminate H.
Qed.

(** C3 (amended).  For every configured free-text column of the input
    table the length feature is the character length of the row's value
    in the cleaned table, that is after imputation: in a text column a
    missing value has been replaced by the most frequent value and gets
    that value's length; only in a column without any value a missing
    value counts as the empty string and gets 0. *)
Theorem text_length_after_imputation {conv : Conversions} df clean modeling col :
  NoDup (columns df) ->
  feature_engineering df = Ok (clean, modeling) ->
  In col text_columns ->
  has_column col df = true ->
  exists c,
    get_column col df = Some c
    /\ get_column col clean = Some (cleaned c)
    /\ get_column (col ++ "_length") clean = Some (text_length col (cleaned c))
    /\ (forall xs m, c = ObjCol xs -> mode0 xs = Ok m ->
          get_column (col ++ "_length") clean
          = Some (NumCol (map (fun x => value_length
                                          match x with Some s => s | None => m end)
                              xs)))
    /\ (forall xs, c = NumCol xs -> Forall (fun x => x = None) xs ->
          get_column (col ++ "_length") clean
          = Some (NumCol (map (fun _ => value_length "") xs))).
Proof.
  intros Hnd H Hin Hs. apply feature_engineering_steps in H.
  destruct H as (d1 & d2 & d3 & d4 & H1 & H2 & H3 & H4 & H5).
  assert (Hcol : existsb (String.eqb col)
                   (temporal_writes ++ indicator_writes ++ length_writes
                    ++ ["completion_status"]) = false
                 /\ String.eqb col "EnrollmentCount" = false
                 /\ existsb (String.eqb (col ++ "_length")) ["completion_status"] = false).
  { simpl in Hin.
    repeat (destruct Hin as [Hin | Hin]; [subst col; repeat split; reflexivity |]).
    contradiction. }
  destruct Hcol as (Hc & HE & Hl).
  pose proof (data_preparation_get _ _ col Hnd H1) as G1. rewrite HE in G1.
  rewrite has_column_get in Hs. destruct (get_column col df) as [c |] eqn:G; [| discriminate].
  simpl in G1. exists c.
  assert (G3 : get_column col d3 = Some (cleaned c)).
  { rewrite <- G1. rewrite !existsb_app in Hc.
    apply orb_false_elim in Hc. destruct Hc as [Hc1 Hc].
    apply orb_false_elim in Hc. destruct Hc as [Hc2 _].
    rewrite (categorical_cell_untouched _ _ H3 col Hc2).
    exact (temporal_cell_untouched _ _ H2 col Hc1). }
  assert (Gclean : get_column col clean = Some (cleaned c)).
  { rewrite <- G1. apply (downstream_untouched _ _ _ _ _ _ H2 H3 H4 H5). exact Hc. }
  assert (Glen : get_column (col ++ "_length") clean = Some (text_length col (cleaned c))).
  { rewrite (target_cell_untouched _ _ _ H5 _ Hl).
    assert (Hs3 : has_column col d3 = true) by (rewrite has_column_get, G3; reflexivity).
    destruct (text_cell_spec _ _ col H4 Hin Hs3) as (c' & G3' & Gl).
    rewrite G3 in G3'. injection G3' as <-. exact Gl. }
  repeat split; try assumption; try reflexivity.
  - intros xs m -> Hm. rewrite Glen. unfold cleaned. simpl. rewrite Hm. simpl.
    unfold fillna. rewrite map_map. do 2 f_equal. apply map_ext.
    intros [s |]; reflexivity.
  - intros xs -> Hxs. rewrite Glen. unfold cleaned. simpl.
    rewrite (median_all_missing xs Hxs), fillna_None. simpl. do 2 f_equal.
    apply map_ext_Forall. eapply Forall_impl; [| exact Hxs].
    intros x ->. reflexivity.
Qed.

(** Titles abc, missing, abc: every length is 3.  A title of five
    characters, one of them written in two bytes, has length 5. *)
Lemma text_length_after_imputation_witness :
  (exists clean modeling,
     feature_engineering (conv := Reader.conversions) trials = Ok (clean, modeling)
     /\ get_column "BriefTitle" trials = Some (ObjCol [Some "abc"; None; Some "abc"])
     /\ mode0 [Some "abc"; None; Some "abc"] = Ok "abc"
     /\ get_column "BriefTitle_length" clean
        = Some (NumCol [value_length "abc"; value_length "abc"; value_length "abc"]))
  /\ (exists clean modeling,
        feature_engineering (conv := Reader.conversions) accented = Ok (clean, modeling)
        /\ String.length etude = 6
        /\ get_column "BriefTitle_length" clean = Some (NumCol [num 5; num 5; num 5])).
Proof.
  split.
  - destruct (feature_engineering (conv := Reader.conversions) trials)
      as [[clean modeling] | e] eqn:Hrun; [| vm_compute in Hrun; discriminate].
    assert (Hnd : NoDup (columns trials)) by distinct_labels.
    destruct (text_length_after_imputation (conv := Reader.conversions) trials clean modeling
                "BriefTitle" Hnd Hrun (or_introl eq_refl) eq_refl)
      as (c & G & _ & _ & Hmode & _).
    exists clean, modeling. repeat split; try reflexivity.
    injection G as <-. exact (Hmode _ "abc" eq_refl eq_refl).
  - destruct (feature_engineering (conv := Reader.conversions) accented)
      as [[clean modeling] | e] eqn:Hrun; [| vm_compute in Hrun; discriminate].
    assert (Hnd : NoDup (columns accented)) by distinct_labels.
    destruct (text_length_after_imputation (conv := Reader.conversions) accented clean
                modeling "BriefTitle" Hnd Hrun (or_introl eq_refl) eq_refl)
      as (c & G & _ & _ & Hmode & _).
    exists clean, modeling. repeat split; try reflexivity.
    injection G as <-. exact (Hmode _ etude eq_refl eq_refl).
Defined.

(** C3 does not hold as it stands: the second trial has no title, yet
    its title length is 3, the length of the most frequent title. *)
Lemma missing_title_length_not_zero :
  (exists clean modeling,
     feature_engineering (conv := Reader.conversions) trials = Ok (clean, modeling)
     /\ get_column "BriefTitle" trials = Some (ObjCol [Some "abc"; None; Some "abc"])
     /\ get_column "BriefTitle_length" clean = Some (NumCol [num 3; num 3; num 3]))
  /\ ~ (forall (conv : Conversions) df clean modeling col xs,
          NoDup (columns df) ->
          feature_engineering df = Ok (clean, modeling) ->
          In col text_columns ->
          get_column col df = Some (ObjCol xs) ->
          get_column (col ++ "_length") clean
          = Some (NumCol (map (fun x => value_length
                                          match x with Some s => s | None => "" end)
                              xs))).
Proof.
  split.
  - do 2 eexists. split; [vm_compute; reflexivity |]. split; reflexivity.
  - intros H.
    assert (Hnd : NoDup (columns trials)) by distinct_labels.
    specialize (H Reader.conversions trials _ _ "BriefTitle" _ Hnd eq_refl
                  (or_introl eq_refl) eq_refl).
    vm_compute in H. discriminate H.
Qed.

(** C4 fails on every metrics table.  The cells that train the
    candidates and select the best one do not compile as the notebook
    stores them: in both, the text handed to [print] holds a line break
    inside a string literal in double quotes, so running either cell
    raises [SyntaxError] before any candidate is trained, sorted by its
    F1 or R2 score, or selected.  This holds of the three classifiers
    and the three regressors of the samples as of every outcome of the
    training, whatever numpy does with equal scores. *)
Theorem selection_cells_do_not_compile :
  (forall np : ModelTraining.Numpy,
     ModelTraining.best_classification_model_name (np := np)
       ["EnrollmentCount"; "is_phase_1"] classifiers = Raise SyntaxError
     /\ ModelTraining.best_regression_model_name (np := np)
          ["EnrollmentCount"; "is_phase_1"] regressors = Raise SyntaxError)
  /\ forall (np : ModelTraining.Numpy) (estimator preprocessing : Type)
        (feature_cols : list string)
        (training_results : ModelTraining.results estimator preprocessing),
      ModelTraining.classification_cell feature_cols training_results
        = Raise SyntaxError
      /\ ModelTraining.regression_cell feature_cols training_results
           = Raise SyntaxError
      /\ ModelTraining.best_classification_model_name feature_cols training_results
           = Raise SyntaxError
      /\ ModelTraining.best_regression_model_name feature_cols training_results
           = Raise SyntaxError.
Proof.
  assert (Hc : Python.compile ModelTraining.classification_source = Raise SyntaxError)
    by (vm_compute; reflexivity).
  assert (Hr : Python.compile ModelTraining.regression_source = Raise SyntaxError)
    by (vm_compute; reflexivity).
  assert (H : forall (np : ModelTraining.Numpy) (estimator preprocessing : Type)
                (feature_cols : list string)
                (training_results : ModelTraining.results estimator preprocessing),
             ModelTraining.classification_cell feature_cols training_results
               = Raise SyntaxError
             /\ ModelTraining.regression_cell feature_cols training_results
                  = Raise SyntaxError
             /\ ModelTraining.best_classification_model_name feature_cols
                  training_results = Raise SyntaxError
             /\ ModelTraining.best_regression_model_name feature_cols
                  training_results = Raise SyntaxError).
  { intros np estimator preprocessing feature_cols training_results.
    unfold ModelTraining.best_classification_model_name,
      ModelTraining.best_regression_model_name,
      ModelTraining.classification_cell, ModelTraining.regression_cell.
    rewrite Hc, Hr. repeat split; reflexivity. }
  split; [| exact H].
  intros np. split; apply H.
Qed.

(** C5.  Every numeric column of the input table (the enrollment count
    after coercion to numbers) comes out of the data preparation with
    each missing value replaced by the median of the column's values
    that are not missing; the later cells keep it so unless they derive
    the column anew. *)
Theorem numeric_median_imputation {conv : Conversions} df col xs :
  NoDup (columns df) ->
  numeric_input col df = Some (NumCol xs) ->
  let imputed :=
    NumCol (map (fun x => match x with Some v => Some v | None => median xs end) xs) in
  (forall d1, data_preparation df = Ok d1 -> get_column col d1 = Some imputed)
  /\ (forall clean modeling,
        feature_engineering df = Ok (clean, modeling) ->
        existsb (String.eqb col) derived_labels = false ->
        get_column col clean = Some imputed).
Proof.
  intros Hnd Hin imputed.
  assert (Hprep : forall d1, data_preparation df = Ok d1 ->
                             get_column col d1 = Some imputed).
  { intros d1 H. rewrite (data_preparation_get _ _ col Hnd H).
    unfold numeric_input in Hin. rewrite Hin. reflexivity. }
  split; [exact Hprep |].
  intros clean modeling H Hc. apply feature_engineering_steps in H.
  destruct H as (d1 & d2 & d3 & d4 & H1 & H2 & H3 & H4 & H5).
  rewrite (downstream_untouched _ _ _ _ _ _ H2 H3 H4 H5 col Hc).
  exact (Hprep d1 H1).
Qed.

(** Enrollment 10, 20, missing, 40: the missing count becomes 20. *)
Lemma numeric_median_imputation_witness :
  exists d1, data_preparation (conv := Reader.conversions) enrollment = Ok d1
    /\ get_column "EnrollmentCount" d1
       = Some (NumCol [num 10; num 20; num 20; num 40]).
Proof.
  eexists. split; [reflexivity |].
  assert (Hnd : NoDup (columns enrollment)) by distinct_labels.
  exact (proj1 (numeric_median_imputation (conv := Reader.conversions)
                  enrollment "EnrollmentCount" [num 10; num 20; None; num 40]
                  Hnd eq_refl) _ eq_refl).
Defined.

(** C6.  Every binary indicator the notebook derives from a column of
    the input table (industry sponsor, the four phases, randomized,
    double blind, single blind, open label, multi-country, US sites)
    holds only 0 and 1, on every row of the cleaned and of the
    modeling-ready table. *)
Theorem indicators_are_flags {conv : Conversions} df clean modeling target source :
  NoDup (columns df) ->
  feature_engineering df = Ok (clean, modeling) ->
  In (target, source) indicator_sources ->
  has_column source df = true ->
  (exists ys, get_column target clean = Some (NumCol ys) /\ Forall is_flag ys)
  /\ (exists ys, get_column target modeling = Some (NumCol ys) /\ Forall is_flag ys).
Proof.
  intros Hnd H Hin Hs. apply feature_engineering_steps in H.
  destruct H as (d1 & d2 & d3 & d4 & H1 & H2 & H3 & H4 & H5).
  assert (Hclean : exists ys, get_column target clean = Some (NumCol ys)
                              /\ Forall is_flag ys).
  { assert (Hs2 : has_column source d2 = true).
    { rewrite <- Hs, <- (data_preparation_has _ _ source Hnd H1).
      apply (untouched_has _ _ _ source (temporal_cell_untouched _ _ H2)).
      simpl in Hin.
      repeat (destruct Hin as [Hin | Hin]; [injection Hin as <- <-; reflexivity |]).
      contradiction. }
    pose proof (categorical_cell_flags _ _ _ _ H3 Hin Hs2) as Hf.
    rewrite (target_cell_untouched _ _ _ H5 target), (text_cell_untouched _ _ H4 target);
      [exact Hf | |];
      simpl in Hin;
      repeat (destruct Hin as [Hin | Hin]; [injection Hin as <- <-; reflexivity |]);
      contradiction. }
  split; [exact Hclean |].
  destruct (modeling_columns d4 clean modeling target H5) as [-> | (m & ->)];
    [exact Hclean |].
  destruct Hclean as (ys & -> & Hys). simpl.
  eexists. split; [reflexivity |]. apply Forall_mask_filter. exact Hys.
Qed.

(** The phase 3 flag of the sample trials, one of which has no phase. *)
Lemma indicators_are_flags_witness :
  exists clean modeling ys,
    feature_engineering (conv := Reader.conversions) trials = Ok (clean, modeling)
    /\ get_column "Phase" trials
       = Some (ObjCol [Some "Phase 1"; Some "Phase 2/Phase 3"; None])
    /\ get_column "is_phase_3" clean = Some (NumCol ys) /\ Forall is_flag ys.
Proof.
  destruct (feature_engineering (conv := Reader.conversions) trials)
    as [[clean modeling] | e] eqn:Hrun; [| vm_compute in Hrun; discriminate].
  assert (Hnd : NoDup (columns trials)) by distinct_labels.
  assert (Hin : In ("is_phase_3", "Phase") indicator_sources)
    by (simpl; do 3 right; left; reflexivity).
  destruct (indicators_are_flags (conv := Reader.conversions) trials clean modeling
              "is_phase_3" "Phase" Hnd Hrun Hin eq_refl) as [(ys & G & Hys) _].
  exists clean, modeling, ys. repeat split; try assumption; reflexivity.
Defined.

(** C7 fails on this directory.  A matching snapshot exists and loads,
    its table has an enrollment count and completion dates but no start
    dates, and the stage stops with [KeyError]: the duration is computed
    under a guard that asks for the completion dates only and then reads
    the start dates. *)
Theorem stage_aborts_without_start_date :
  forall (conv : Conversions) (timestamp : string) (now : Z),
    (exists df, load_data snapshot_without_start = Ok df
                /\ has_column "EnrollmentCount" df = true
                /\ has_column "StartDate" df = false)
    /\ stage snapshot_without_start timestamp now = Raise KeyError.
Proof.
  intros conv timestamp now. split.
  - eexists. split; [reflexivity |]. split; reflexivity.
  - reflexivity.
Qed.

(** C8.  A second application of the notebook to the table it has
    engineered gives that table back, column for column: the start
    year, month and quarter derived again from the same start date are
    the same values, and the duration column, being there already, is
    not computed again. *)
Theorem second_pass_changes_nothing {conv : Conversions} n df clean modeling :
  frame_ok n df ->
  feature_engineering df = Ok (clean, modeling) ->
  feature_engineering clean = Ok (clean, clean)
  /\ start_features clean = Ok clean
  /\ duration_feature clean = Ok clean.
Proof.
  intros Hok H. pose proof (first_pass_engineered n df clean modeling Hok H) as Heng.
  split; [exact (second_pass n clean Heng) |].
  split; [exact (start_features_fix n clean Heng) |].
  exact (second_pass_duration n clean Heng).
Qed.

(** The sample trials, engineered twice. *)
Lemma second_pass_changes_nothing_witness :
  exists clean modeling,
    feature_engineering (conv := Reader.conversions) trials = Ok (clean, modeling)
    /\ get_column "start_quarter" clean = Some (NumCol [num 1; num 1; num 3])
    /\ get_column "trial_duration_days" clean
       = Some (NumCol [num 100; Some (130 # 2)%Q; num 30])
    /\ feature_engineering (conv := Reader.conversions) clean = Ok (clean, clean).
Proof.
  destruct (feature_engineering (conv := Reader.conversions) trials)
    as [[clean modeling] | e] eqn:Hrun; [| vm_compute in Hrun; discriminate].
  assert (Hok : frame_ok 3 trials) by (split; [distinct_labels | repeat constructor]).
  destruct (second_pass_changes_nothing (conv := Reader.conversions) 3 trials clean
              modeling Hok Hrun) as [Hfix _].
  exists clean, modeling. split; [reflexivity |].
  split; [| split; [| exact Hfix]];
    vm_compute in Hrun; injection Hrun as <- _; reflexivity.
Defined.

(** C9 fails on every modeling table.  The cell that narrows the data
    for the two predictions does not compile as the notebook stores it:
    the text handed to [print] in its last lines holds a line break
    inside a string literal in double quotes, so running the cell
    raises [SyntaxError] before its first statement, and neither
    feature matrix comes into being.  This holds of the sample table,
    with trials of all four definitive outcomes, as of any other. *)
Theorem prepare_cell_does_not_compile :
  ModelTraining.prepare modeling_ready = Raise SyntaxError
  /\ forall df_modeling, ModelTraining.prepare df_modeling = Raise SyntaxError.
Proof.
  assert (Hc : Python.compile ModelTraining.prepare_source = Raise SyntaxError)
    by (vm_compute; reflexivity).
  assert (H : forall df_modeling, ModelTraining.prepare df_modeling = Raise SyntaxError).
  { intros df_modeling. unfold ModelTraining.prepare. rewrite Hc. reflexivity. }
  split; [apply H | exact H].
Qed.

(** C10.  Mode imputation comes before everything that reads a text
    column: the notebook gives the same outcome on the input table and
    on the table whose missing text values have been replaced by the
    most frequent value of their column beforehand.  In particular a row
    without an overall status takes the most frequent status, and when
    that status is a definitive one the row is in the modeling-ready
    table, with the target of that status. *)
Theorem missing_text_takes_mode {conv : Conversions} n df :
  frame_ok n df ->
  feature_engineering (impute_text df) = feature_engineering df
  /\ forall clean modeling xs i m,
       has_column "completion_status" df = false ->
       get_column "OverallStatus" df = Some (ObjCol xs) ->
       nth_error xs i = Some None ->
       mode0 xs = Ok m ->
       In m completed_statuses ->
       feature_engineering df = Ok (clean, modeling) ->
       exists r,
         nth_error (table_rows clean) i = Some r
         /\ row_text "OverallStatus" r = Some m
         /\ In r (table_rows modeling)
         /\ row_get "completion_status" r
            = Some (NumCell (bool_to_int (String.eqb m "Completed"))).
Proof.
  intros Hok. split.
  { unfold feature_engineering.
    rewrite (data_preparation_impute_text df (proj1 Hok)). reflexivity. }
  intros clean modeling xs i m Hno G Hi Hm Hdef H.
  assert (Hst : has_column "OverallStatus" df = true)
    by (rewrite has_column_get, G; reflexivity).
  destruct (modeling_rows_spec n df clean modeling Hok Hst Hno H)
    as (Hclean & Hn & Gc & Hrows & Htarget).
  rewrite G in Gc. unfold cleaned in Gc. simpl in Gc. rewrite Hm in Gc.
  assert (Hcell : nth_error (cells (ObjCol (fillna (Some m) xs))) i
                  = Some (ObjCell (Some m))).
  { simpl. rewrite nth_error_map, (nth_error_fillna _ xs i Hi). reflexivity. }
  destruct (nth_error_rows_get n _ _ _ i _ (proj2 Hclean) Gc Hcell) as (r & Hr & Hg).
  assert (Htext : row_text "OverallStatus" r = Some m)
    by (unfold row_text; rewrite Hg; reflexivity).
  exists r. unfold table_rows at 1. rewrite Hn.
  split; [exact Hr |]. split; [exact Htext |].
  assert (Hin : In r (table_rows clean)).
  { unfold table_rows. rewrite Hn. exact (nth_error_In _ _ Hr). }
  split.
  - rewrite Hrows. apply filter_In. split; [exact Hin |].
    unfold text_in. rewrite Htext. apply existsb_exists.
    exists m. split; [exact Hdef | apply String.eqb_refl].
  - rewrite (proj1 (Forall_forall _ _) Htarget r Hin).
    unfold text_in. rewrite Htext. simpl. rewrite orb_false_r. reflexivity.
Qed.

(** The second trial has no status; the most frequent status is
    Completed. *)
Lemma missing_text_takes_mode_witness :
  exists clean modeling r,
    feature_engineering (conv := Reader.conversions) enrollment = Ok (clean, modeling)
    /\ get_column "OverallStatus" enrollment
       = Some (ObjCol [Some "Completed"; None; Some "Recruiting"; Some "Completed"])
    /\ nth_error (table_rows clean) 1 = Some r
    /\ row_text "OverallStatus" r = Some "Completed"
    /\ In r (table_rows modeling)
    /\ row_get "completion_status" r = Some (NumCell (num 1)).
Proof.
  destruct (feature_engineering (conv := Reader.conversions) enrollment)
    as [[clean modeling] | e] eqn:Hrun; [| vm_compute in Hrun; discriminate].
  assert (Hok : frame_ok 4 enrollment) by (split; [distinct_labels | repeat constructor]).
  destruct (proj2 (missing_text_takes_mode (conv := Reader.conversions) 4 enrollment Hok)
              clean modeling _ 1 "Completed" eq_refl eq_refl eq_refl eq_refl
              (or_introl eq_refl) Hrun)
    as (r & Hr & Ht & Hin & Hc).
  exists clean, modeling, r.
  split; [reflexivity |]. split; [reflexivity |]. split; [exact Hr |].
  split; [exact Ht |]. split; [exact Hin | exact Hc].
Defined.

(* ================================================================== *)
(** * Further properties of the code *)
(* ================================================================== *)
(** X1.  Among the files of the directory whose name fits the pattern,
    the one loaded is a most recently modified one, and of several with
    that modification time the first in the listing. *)
Theorem load_data_latest dir df :
  load_data dir = Ok df ->
  exists before f after,
    filter (fun f => matches_pattern (name f)) dir = before ++ f :: after
    /\ contents f = Ok df
    /\ Forall (fun g => (st_mtime g < st_mtime f)%Z) before
    /\ Forall (fun g => (st_mtime g <= st_mtime f)%Z) after.
Proof.
  unfold load_data.
  destruct (filter (fun f => matches_pattern (name f)) dir) as [| g l] eqn:E;
    [discriminate |].
  destruct (sort_by_mtime_desc (g :: l)) as [| h t] eqn:Es; [discriminate |].
  intros H.
  destruct (sort_by_mtime_head _ _ _ Es) as (b & a & -> & Hb & Ha).
  exists b, h, a. auto.
Qed.

(** Of the two snapshots of age 300 the first listed is loaded; the
    newer file of another name is not considered. *)
Lemma load_data_latest_witness :
  load_data snapshots = Ok [("EnrollmentCount", NumCol [Some 2%Q])]
  /\ exists before f after,
       filter (fun f => matches_pattern (name f)) snapshots = before ++ f :: after
       /\ contents f = Ok [("EnrollmentCount", NumCol [Some 2%Q])]
       /\ Forall (fun g => (st_mtime g < st_mtime f)%Z) before
       /\ Forall (fun g => (st_mtime g <= st_mtime f)%Z) after.
Proof.
  split; [reflexivity |].
  exact (load_data_latest snapshots _ eq_refl).
Defined.

(** X2.  Loading raises an error in two cases only: with
    [FileNotFoundError] when no file of the directory fits the pattern,
    and with the error of [pd.read_csv] when the file chosen (a most
    recently modified one among those that fit, the first listed of
    several) cannot be read as a table, a file without any content for
    one. *)
Theorem load_data_fails_iff dir e :
  load_data dir = Raise e <->
  (e = FileNotFoundError
   /\ Forall (fun f => matches_pattern (name f) = false) dir)
  \/ (exists before f after,
        filter (fun f => matches_pattern (name f)) dir = before ++ f :: after
        /\ Forall (fun g => (st_mtime g < st_mtime f)%Z) before
        /\ Forall (fun g => (st_mtime g <= st_mtime f)%Z) after
        /\ contents f = Raise e).
Proof.
  rewrite load_data_raises. split.
  - intros [[-> Hno] | (f & rest & Hs & Hc)].
    + left. split; [reflexivity |]. apply filter_nil_Forall. exact Hno.
    + right. destruct (sort_by_mtime_head _ _ _ Hs) as (b & a & Hf & Hb & Ha).
      exists b, f, a. auto.
  - intros [[-> Hno] | (b & f & a & Hf & Hb & Ha & Hc)].
    + left. split; [reflexivity |]. apply filter_nil_Forall. exact Hno.
    + right.
      destruct (sort_by_mtime_desc (filter (fun f => matches_pattern (name f)) dir))
        as [| h t] eqn:Es.
      { apply sort_by_mtime_not_nil in Es; [contradiction |].
        rewrite Hf. destruct b; discriminate. }
      destruct (sort_by_mtime_head _ _ _ Es) as (b' & a' & Hf' & Hb' & Ha').
      assert (b' = b /\ h = f) as [_ ->]; [| eauto].
      rewrite Hf in Hf'.
      exact (first_latest_unique st_mtime _ b f a b' h a' eq_refl Hb Ha Hf' Hb' Ha').
Qed.

(** The newest snapshot is a file without content: reading it raises
    [EmptyDataError] although an older snapshot holds a table. *)
Lemma load_data_fails_iff_witness :
  load_data empty_newest = Raise EmptyDataError.
Proof.
  apply (proj2 (load_data_fails_iff empty_newest EmptyDataError)). right.
  exists [{| name := "processed_oncology_trials_20240101.csv"; st_mtime := 100;
             contents := Ok [("EnrollmentCount", NumCol [Some 1%Q])] |}],
         {| name := "processed_oncology_trials_20240201.csv"; st_mtime := 200;
            contents := Raise EmptyDataError |}, [].
  split; [reflexivity |]. split; [| split; [constructor | reflexivity]].
  repeat constructor.
Defined.

(** X3.  A file name fits the pattern exactly when it is
    [processed_oncology_trials_], any text, [.csv]. *)
Theorem matches_pattern_spec n :
  matches_pattern n = true <->
  exists mid, n = ("processed_oncology_trials_" ++ mid ++ ".csv")%string.
Proof.
  unfold matches_pattern, startswith. split.
  - intros H. apply andb_true_iff in H. destruct H as [H Hl].
    apply andb_true_iff in H. destruct H as [Hp He].
    apply Nat.leb_le in Hl. apply prefix_app in Hp. destruct Hp as (r & ->).
    apply endswith_app in He. destruct He as (a & He).
    rewrite length_app_string in Hl.
    assert (La : String.length "processed_oncology_trials_" <= String.length a).
    { apply (f_equal String.length) in He. rewrite !length_app_string in He.
      simpl in *. lia. }
    destruct (app_string_overlap _ _ _ _ He La) as (mid & _ & ->).
    exists mid. reflexivity.
  - intros (mid & ->). apply andb_true_iff. split; [apply andb_true_iff; split |].
    + apply prefix_app. eauto.
    + apply endswith_app. exists ("processed_oncology_trials_" ++ mid)%string.
      symmetry. apply app_string_assoc.
    + apply Nat.leb_le. rewrite !length_app_string. simpl. lia.
Qed.

(** X4.  The file the stage writes does not fit the pattern of the
    snapshots it reads: after a run the next run loads the same table
    as before, and the directory holds the modeling-ready table under
    the new name. *)
Theorem stage_keeps_next_input {conv : Conversions} dir timestamp now dir' :
  stage dir timestamp now = Ok dir' ->
  load_data dir' = load_data dir
  /\ exists f df clean modeling,
       In f dir'
       /\ name f = ("oncology_trials_modeling_ready_" ++ timestamp ++ ".csv")%string
       /\ load_data dir = Ok df
       /\ feature_engineering df = Ok (clean, modeling)
       /\ contents f = Ok modeling.
Proof.
  unfold stage. intros H. do 2 inv_bind H. injection H as <-.
  destruct v0 as [clean modeling]. split.
  - unfold load_data. rewrite filter_app. simpl.
    rewrite filter_filter_name, app_nil_r; [reflexivity |].
    intros f Hf. rewrite Hf. reflexivity.
  - eexists. exists v, clean, modeling.
    split; [apply in_or_app; right; left; reflexivity |].
    split; [reflexivity |]. split; [assumption |]. split; [assumption | reflexivity].
Qed.

Lemma stage_keeps_next_input_witness :
  exists dir',
    stage (conv := Reader.conversions)
          [{| name := "processed_oncology_trials_20240101.csv";
              st_mtime := 100; contents := Ok trials |}] "20240501_101500" 500
    = Ok dir'
    /\ load_data dir' = Ok trials.
Proof.
  destruct (stage (conv := Reader.conversions)
              [{| name := "processed_oncology_trials_20240101.csv";
                  st_mtime := 100; contents := Ok trials |}] "20240501_101500" 500)
    as [dir' | e] eqn:Hrun; [| vm_compute in Hrun; discriminate].
  exists dir'. split; [reflexivity |].
  rewrite (proj1 (stage_keeps_next_input _ _ _ _ Hrun)). reflexivity.
Defined.

(** X5.  On a table with distinct labels the data-preparation cell
    raises an error in two cases only, both with [KeyError]: the table
    has no EnrollmentCount column, or some text column other than that
    one has rows and no value in any of them (its mode does not
    exist). *)
Theorem data_preparation_fails_iff {conv : Conversions} df e :
  NoDup (columns df) ->
  data_preparation df = Raise e <->
  e = KeyError
  /\ (has_column "EnrollmentCount" df = false
      \/ exists l c, l <> "EnrollmentCount" /\ In (l, c) df /\ empty_text c).
Proof.
  exact (data_preparation_raises df e).
Qed.

(** A table whose Phase column holds no value. *)
Lemma data_preparation_fails_iff_witness :
  data_preparation (conv := Reader.conversions) phase_unknown = Raise KeyError.
Proof.
  apply (proj2 (data_preparation_fails_iff (conv := Reader.conversions)
                  phase_unknown KeyError ltac:(distinct_labels))).
  split; [reflexivity |]. right.
  exists "Phase", (ObjCol [None; None]). split; [discriminate |].
  split; [right; left; reflexivity |].
  exists [None; None]. split; [reflexivity |].
  split; [discriminate | repeat constructor].
Defined.

(** X6.  Data preparation is idempotent: run on a table it has
    produced, it returns that table. *)
Theorem data_preparation_idempotent {conv : Conversions} df d1 :
  NoDup (columns df) ->
  data_preparation df = Ok d1 -> data_preparation d1 = Ok d1.
Proof.
  intros Hnd H.
  pose proof (data_preparation_settled _ _ Hnd H) as Hset.
  destruct (data_preparation_ok _ _ Hnd H) as (e0 & G & E).
  assert (Hnd1 : NoDup (columns d1)).
  { subst d1. rewrite columns_on_columns, columns_setitem, has_column_get, G.
    exact Hnd. }
  assert (G1 : get_column "EnrollmentCount" d1 = Some (cleaned (to_numeric e0))).
  { rewrite (data_preparation_get _ _ "EnrollmentCount" Hnd H), G. reflexivity. }
  rewrite data_preparation_eq by exact Hnd1.
  unfold getitem. rewrite G1. simpl.
  destruct (to_numeric_NumCol e0) as (xs & Ex). rewrite Ex in *.
  change (to_numeric (cleaned (NumCol xs))) with (cleaned (NumCol xs)).
  rewrite (setitem_same _ _ _ G1).
  assert (Hid : on_columns impute_numeric d1 = d1).
  { clear - Hset Hnd1. unfold on_columns.
    rewrite <- (map_id d1) at 2. apply map_ext_in. intros [l c] Hin. simpl.
    f_equal. apply (Hset l c (In_get_column _ _ _ Hnd1 Hin) eq_refl). }
  rewrite Hid. apply map_columns_id. intros l c Hin.
  apply (Hset l c (In_get_column _ _ _ Hnd1 Hin) eq_refl).
Qed.

Lemma data_preparation_idempotent_witness :
  exists d1,
    data_preparation (conv := Reader.conversions) enrollment = Ok d1
    /\ get_column "EnrollmentCount" d1 = Some (NumCol [num 10; num 20; num 20; num 40])
    /\ data_preparation (conv := Reader.conversions) d1 = Ok d1.
Proof.
  destruct (data_preparation (conv := Reader.conversions) enrollment)
    as [d1 | e] eqn:Hrun; [| vm_compute in Hrun; discriminate].
  exists d1. split; [reflexivity |]. split.
  - vm_compute in Hrun. injection Hrun as <-. reflexivity.
  - exact (data_preparation_idempotent (conv := Reader.conversions) enrollment d1
             ltac:(distinct_labels) Hrun).
Defined.

(** X7.  In the cleaned and in the modeling-ready table every column
    of text or of numbers other than start_year, start_month and
    start_quarter is without a gap: a text column holds a value in
    every row, a numeric column in every row or in none.  The columns
    of timestamps, which are the date columns the notebook has parsed,
    are not covered: a date that could not be parsed is NaT there. *)
Theorem engineered_tables_without_gaps {conv : Conversions} n df clean modeling l :
  frame_ok n df ->
  feature_engineering df = Ok (clean, modeling) ->
  existsb (String.eqb l) start_writes = false ->
  (forall xs, get_column l clean = Some (ObjCol xs) -> Forall (fun x => x <> None) xs)
  /\ (forall xs, get_column l clean = Some (NumCol xs) ->
        Forall (fun x => x <> None) xs \/ Forall (fun x => x = None) xs)
  /\ (forall xs, get_column l modeling = Some (ObjCol xs) ->
        Forall (fun x => x <> None) xs)
  /\ (forall xs, get_column l modeling = Some (NumCol xs) ->
        Forall (fun x => x <> None) xs \/ Forall (fun x => x = None) xs).
Proof.
  intros Hok H Hl.
  destruct (first_pass_without_gaps n df clean modeling l Hok H Hl) as [Hc Hm].
  repeat split; intros xs G.
  - exact (Hc _ G).
  - exact (Hc _ G).
  - exact (Hm _ G).
  - exact (Hm _ G).
Qed.

(** The status that is missing in the input is filled in; the start
    date that cannot be parsed stays NaT in the column of timestamps. *)
Lemma engineered_tables_without_gaps_witness :
  exists clean modeling,
    feature_engineering (conv := Reader.conversions) enrollment = Ok (clean, modeling)
    /\ get_column "OverallStatus" enrollment
       = Some (ObjCol [Some "Completed"; None; Some "Recruiting"; Some "Completed"])
    /\ (forall xs, get_column "OverallStatus" clean = Some (ObjCol xs) ->
          Forall (fun x => x <> None) xs)
    /\ (forall xs, get_column "OverallStatus" modeling = Some (ObjCol xs) ->
          Forall (fun x => x <> None) xs)
    /\ exists ts, get_column "StartDate" clean = Some (DateCol ts) /\ In None ts.
Proof.
  destruct (feature_engineering (conv := Reader.conversions) enrollment)
    as [[clean modeling] | e] eqn:Hrun; [| vm_compute in Hrun; discriminate].
  exists clean, modeling. split; [reflexivity |]. split; [reflexivity |].
  assert (Hok : frame_ok 4 enrollment) by (split; [distinct_labels | repeat constructor]).
  destruct (engineered_tables_without_gaps (conv := Reader.conversions) 4 enrollment
              clean modeling "OverallStatus" Hok Hrun eq_refl) as (Hc & _ & Hm & _).
  split; [exact Hc |]. split; [exact Hm |].
  vm_compute in Hrun. injection Hrun as <- _.
  eexists. split; [reflexivity |]. simpl. tauto.
Defined.

(** X8.  Imputation keeps every numeric column within the range of the
    values it had: when the present values of a column of the input
    (the enrollment count read as numbers) lie between two bounds, so
    do all values of that column after data preparation. *)
Theorem imputation_stays_in_range {conv : Conversions} df d1 l c lo hi :
  NoDup (columns df) ->
  data_preparation df = Ok d1 ->
  numeric_input l df = Some c ->
  within lo hi c ->
  exists c', get_column l d1 = Some c' /\ within lo hi c'.
Proof.
  intros Hnd H Hc Hw.
  rewrite (data_preparation_get _ _ l Hnd H).
  unfold numeric_input in Hc. rewrite Hc. simpl.
  exists (cleaned c). split; [reflexivity |].
  unfold cleaned. apply within_impute_numeric in Hw.
  destruct (impute_numeric c) as [xs | xs | xs]; simpl; auto.
  destruct (mode0 xs); exact I.
Qed.

Lemma imputation_stays_in_range_witness :
  exists d1 ys,
    data_preparation (conv := Reader.conversions) enrollment = Ok d1
    /\ get_column "EnrollmentCount" d1 = Some (NumCol ys)
    /\ Forall (fun x => (10 <= x)%Q /\ (x <= 40)%Q) (dropna ys).
Proof.
  destruct (data_preparation (conv := Reader.conversions) enrollment)
    as [d1 | e] eqn:Hrun; [| vm_compute in Hrun; discriminate].
  destruct (imputation_stays_in_range (conv := Reader.conversions) enrollment d1
              "EnrollmentCount" (NumCol [num 10; num 20; None; num 40]) 10%Q 40%Q
              ltac:(distinct_labels) Hrun eq_refl)
    as (c' & G & Hw).
  { simpl. repeat constructor; discriminate. }
  exists d1. vm_compute in Hrun. injection Hrun as <-. injection G as <-.
  eexists. split; [reflexivity |]. split; [reflexivity | exact Hw].
Defined.

(** X9.  Two kinds of table on which the temporal cell stops.  With a
    CompletionDate column, no recorded duration and no StartDate column
    it raises [KeyError]: the duration is computed from both dates
    under a guard that asks for CompletionDate only.  With no StartDate
    and no CompletionDate column and no column named start_... or
    trial_duration_days it raises [ValueError]: there is nothing to
    describe. *)
Theorem temporal_cell_fails_if {conv : Conversions} df :
  (has_column "trial_duration_days" df = false ->
   has_column "CompletionDate" df = true ->
   has_column "StartDate" df = false ->
   temporal_cell df = Raise KeyError)
  /\ (temporal_features df = [] ->
      has_column "StartDate" df = false ->
      has_column "CompletionDate" df = false ->
      temporal_cell df = Raise ValueError).
Proof.
  split; intros H1 H2 H3; apply temporal_cell_raises.
  - left. auto.
  - right. auto.
Qed.

Lemma temporal_cell_fails_if_witness :
  temporal_cell (conv := Reader.conversions)
    [("EnrollmentCount", NumCol [num 100; num 250]);
     ("CompletionDate", ObjCol [Some "2021-06-01"; Some "2022-01-15"])]
  = Raise KeyError
  /\ temporal_cell (conv := Reader.conversions)
       [("EnrollmentCount", NumCol [num 100; num 250])]
     = Raise ValueError.
Proof.
  split.
  - apply (proj1 (temporal_cell_fails_if (conv := Reader.conversions) _));
      reflexivity.
  - apply (proj2 (temporal_cell_fails_if (conv := Reader.conversions) _));
      reflexivity.
Defined.

(** X10.  The categorical cell raises an error in two cases only.  It
    raises [AttributeError] when Phase, StudyDesign or LocationCountry
    is there and is not a text column (the [.str] accessor refuses it),
    and [ValueError] when none of the four source columns is there and
    no column is named is_... or has_... (nothing to describe). *)
Theorem categorical_cell_fails_iff {conv : Conversions} df e :
  categorical_cell df = Raise e <->
  (e = AttributeError
   /\ exists source c,
        In source searched_columns
        /\ get_column source df = Some c /\ is_text c = false)
  \/ (e = ValueError
      /\ binary_features df = []
      /\ has_column "LeadSponsorClass" df = false
      /\ Forall (fun source => has_column source df = false) searched_columns).
Proof.
  exact (categorical_cell_raises df e).
Qed.

(** X11.  Each indicator found by substring search is 1 on the rows
    whose source text, after imputation, contains the pattern letter
    for letter (upper and lower case distinguished), and 0 on all other
    rows. *)
Theorem indicator_marks_substring {conv : Conversions}
    df clean modeling target source pat :
  NoDup (columns df) ->
  feature_engineering df = Ok (clean, modeling) ->
  In (target, source, pat) contains_table ->
  has_column source df = true ->
  exists c xs fs,
    get_column source df = Some c
    /\ cleaned c = ObjCol xs
    /\ get_column source clean = Some (ObjCol xs)
    /\ get_column target clean = Some (NumCol fs)
    /\ Forall2 (marks pat) xs fs.
Proof.
  intros Hnd H Hin Hs.
  destruct (contains_table_labels _ _ _ Hin) as (Ls & Le & Lt & Ll & Lc & Hin').
  destruct (derived_split _ Ls) as (Ls1 & Ls2 & Ls3 & Ls4).
  apply feature_engineering_steps in H.
  destruct H as (d1 & d2 & d3 & d4 & H1 & H2 & H3 & H4 & H5).
  pose proof (data_preparation_get _ _ source Hnd H1) as G1. rewrite Le in G1.
  rewrite has_column_get in Hs.
  destruct (get_column source df) as [c |] eqn:G0; [| discriminate]. simpl in G1.
  pose proof (temporal_cell_untouched _ _ H2 source Ls1) as G2. rewrite G1 in G2.
  assert (Hs2 : has_column source d2 = true) by (rewrite has_column_get, G2; reflexivity).
  destruct (proj1 (categorical_cell_table _ _ H3) _ _ _ Hin Hs2) as (xs & Gx & Gt).
  rewrite G2 in Gx. injection Gx as Ex.
  exists c, xs. eexists. split; [reflexivity |]. split; [exact Ex |]. split; [| split].
  - rewrite (target_cell_untouched _ _ _ H5 source Ls4), (text_cell_untouched _ _ H4 source Ls3),
      (categorical_cell_untouched _ _ H3 source Ls2), G2, Ex. reflexivity.
  - rewrite (target_cell_untouched _ _ _ H5 target Lc), (text_cell_untouched _ _ H4 target Ll).
    exact Gt.
  - apply flags_mark. reflexivity.
Qed.

Lemma indicator_marks_substring_witness :
  exists clean modeling,
    feature_engineering (conv := Reader.conversions) trials = Ok (clean, modeling)
    /\ get_column "Phase" clean
       = Some (ObjCol [Some "Phase 1"; Some "Phase 2/Phase 3"; Some "Phase 1"])
    /\ get_column "is_phase_3" clean = Some (NumCol [num 0; num 1; num 0])
    /\ Forall2 (marks "Phase 3")
         [Some "Phase 1"; Some "Phase 2/Phase 3"; Some "Phase 1"] [num 0; num 1; num 0].
Proof.
  destruct (feature_engineering (conv := Reader.conversions) trials)
    as [[clean modeling] | e] eqn:Hrun; [| vm_compute in Hrun; discriminate].
  assert (Hin : In ("is_phase_3", "Phase", "Phase 3") contains_table)
    by (simpl; do 2 right; left; reflexivity).
  destruct (indicator_marks_substring (conv := Reader.conversions) trials clean modeling
              "is_phase_3" "Phase" "Phase 3" ltac:(distinct_labels) Hrun Hin eq_refl)
    as (c & xs & fs & _ & _ & Gs & Gt & Hm).
  exists clean, modeling. split; [reflexivity |].
  vm_compute in Hrun. injection Hrun as <- <-.
  injection Gs as <-. injection Gt as <-.
  repeat split; try reflexivity. exact Hm.
Defined.

(** X12.  An indicator whose source column is not in the input is not
    derived: under its label the cleaned table holds what the input
    held there (cleaned like any other column), and nothing if the
    input had no such column. *)
Theorem indicator_skipped_without_source {conv : Conversions}
    df clean modeling target source :
  NoDup (columns df) ->
  feature_engineering df = Ok (clean, modeling) ->
  In (target, source) indicator_sources ->
  has_column source df = false ->
  get_column target clean = option_map cleaned (get_column target df).
Proof.
  intros Hnd H Hin Hs.
  destruct (indicator_sources_labels _ _ Hin) as (Ls & Le & Le' & Lt & Ll & Lc).
  destruct (derived_split _ Ls) as (Ls1 & _).
  apply feature_engineering_steps in H.
  destruct H as (d1 & d2 & d3 & d4 & H1 & H2 & H3 & H4 & H5).
  assert (Hs2 : has_column source d2 = false).
  { rewrite (untouched_has _ _ _ source (temporal_cell_untouched _ _ H2) Ls1).
    rewrite (data_preparation_has _ _ source Hnd H1). exact Hs. }
  rewrite (target_cell_untouched _ _ _ H5 target Lc), (text_cell_untouched _ _ H4 target Ll),
    (categorical_cell_skips _ _ _ _ H3 Hin Hs2), (temporal_cell_untouched _ _ H2 target Lt),
    (data_preparation_get _ _ target Hnd H1), Le'.
  reflexivity.
Qed.

Lemma indicator_skipped_without_source_witness :
  exists clean modeling,
    feature_engineering (conv := Reader.conversions) trials = Ok (clean, modeling)
    /\ has_column "StudyDesign" trials = false
    /\ get_column "is_randomized" clean = None.
Proof.
  destruct (feature_engineering (conv := Reader.conversions) trials)
    as [[clean modeling] | e] eqn:Hrun; [| vm_compute in Hrun; discriminate].
  exists clean, modeling. split; [reflexivity |]. split; [reflexivity |].
  assert (Hin : In ("is_randomized", "StudyDesign") indicator_sources)
    by (simpl; do 5 right; left; reflexivity).
  exact (indicator_skipped_without_source (conv := Reader.conversions) trials clean modeling
           "is_randomized" "StudyDesign" ltac:(distinct_labels) Hrun Hin eq_refl).
Defined.

(** X13.  On a rectangular table the text cell raises an error in one
    case only: a text column is there and the table has no row, so that
    the sample value of the first text column cannot be shown; the
    error is [IndexError]. *)
Theorem text_cell_fails_iff {conv : Conversions} n d e :
  frame_ok n d ->
  text_cell d = Raise e <->
  e = IndexError
  /\ n = 0
  /\ existsb (fun col => has_column col d) text_columns = true.
Proof.
  exact (text_cell_raises n d e).
Qed.

Lemma text_cell_fails_iff_witness :
  text_cell (conv := Reader.conversions) no_rows = Raise IndexError.
Proof.
  apply (proj2 (text_cell_fails_iff (conv := Reader.conversions) 0 no_rows IndexError
                  ltac:(split; [distinct_labels | repeat constructor]))).
  repeat split; reflexivity.
Defined.

(** X14.  The cell that prepares the two prediction datasets raises an
    error in one case only: the table has a duration column but no
    completion status, and the text cell has not bound
    [text_length_cols] (no text column was available); the error is
    [NameError].  Selecting the features never fails, since the list is
    narrowed to the columns that are there. *)
Theorem prepare_cell_fails_iff b d e :
  prepare_cell b d = Raise e <->
  e = NameError
  /\ has_column "trial_duration_days" d = true
  /\ b = false
  /\ has_column "completion_status" d = false.
Proof.
  exact (prepare_cell_raises b d e).
Qed.

(** X15.  The notebook drops and moves no column: the cleaned table
    has the columns of the input in their order, followed by derived
    columns only, and the modeling-ready table has the same columns as
    the cleaned one.  The cleaned table has the rows of the input, the
    modeling-ready table at most as many. *)
Theorem columns_kept_in_place {conv : Conversions} n df clean modeling :
  frame_ok n df ->
  feature_engineering df = Ok (clean, modeling) ->
  extends_by derived_labels df clean
  /\ columns modeling = columns clean
  /\ frame_ok n clean
  /\ exists m, frame_ok m modeling /\ m <= n.
Proof.
  intros Hok H.
  pose proof (feature_engineering_frame_ok n _ _ _ Hok H) as Hclean.
  apply feature_engineering_steps in H.
  destruct H as (d1 & d2 & d3 & d4 & H1 & H2 & H3 & H4 & H5).
  destruct (target_cell_extends _ _ _ H5) as [E5 Em].
  split; [| split; [exact Em | split; [exact Hclean |]]].
  - assert (I1 : incl temporal_writes derived_labels)
      by (unfold derived_labels; apply incl_appl, incl_refl).
    assert (I2 : incl indicator_writes derived_labels)
      by (unfold derived_labels; apply incl_appr, incl_appl, incl_refl).
    assert (I3 : incl length_writes derived_labels)
      by (unfold derived_labels; apply incl_appr, incl_appr, incl_appl, incl_refl).
    assert (I4 : incl ["completion_status"] derived_labels)
      by (unfold derived_labels; apply incl_appr, incl_appr, incl_appr, incl_refl).
    apply (extends_trans derived_labels derived_labels _ _ d1); try apply incl_refl.
    { apply extends_same. exact (data_preparation_columns _ _ (proj1 Hok) H1). }
    apply (extends_trans temporal_writes derived_labels _ _ d2);
      [exact (temporal_cell_extends _ _ H2) | | exact I1 | apply incl_refl].
    apply (extends_trans indicator_writes derived_labels _ _ d3);
      [exact (categorical_cell_extends _ _ H3) | | exact I2 | apply incl_refl].
    apply (extends_trans length_writes ["completion_status"] _ _ d4);
      [exact (text_cell_extends _ _ H4) | exact E5 | exact I3 | exact I4].
  - apply target_cell_ok in H5.
    destruct (negb (has_column "completion_status" d4) && has_column "OverallStatus" d4).
    + destruct H5 as (st & G & Ec & ->).
      exists (length (filter (fun b => b) (isin_mask completed_statuses st))).
      assert (Ls : length (isin_mask completed_statuses st) = n).
      { rewrite length_isin_mask. subst clean.
        assert (Hd4 : frame_ok n d4).
        { eapply text_cell_frame_ok; [| exact H4].
          eapply categorical_cell_frame_ok; [| exact H3].
          eapply temporal_cell_frame_ok; [| exact H2].
          eapply data_preparation_frame_ok; [exact Hok | exact H1]. }
        exact (frame_ok_get _ _ _ _ Hd4 G). }
      split.
      * split; [rewrite columns_filter_rows; exact (proj1 Hclean) |].
        unfold filter_rows. apply Forall_map. simpl.
        eapply Forall_impl; [| exact (proj2 Hclean)]. simpl. intros [l c] Hc. simpl in *.
        rewrite col_length_filter_column; [reflexivity | congruence].
      * rewrite <- Ls. apply filter_length_le.
    + destruct H5 as [-> ->]. exists n. split; [exact Hclean | lia].
Qed.

Lemma columns_kept_in_place_witness :
  exists clean modeling,
    feature_engineering (conv := Reader.conversions) trials = Ok (clean, modeling)
    /\ extends_by derived_labels trials clean
    /\ columns modeling = columns clean
    /\ frame_ok 3 clean
    /\ exists m, frame_ok m modeling /\ m <= 3.
Proof.
  destruct (feature_engineering (conv := Reader.conversions) trials)
    as [[clean modeling] | e] eqn:Hrun; [| vm_compute in Hrun; discriminate].
  exists clean, modeling. split; [reflexivity |].
  assert (Hok : frame_ok 3 trials) by (split; [distinct_labels | repeat constructor]).
  exact (columns_kept_in_place (conv := Reader.conversions) 3 trials clean modeling Hok Hrun).
Defined.

(** X23.  If the cells of the notebook that build the tables run
    through on a rectangular input table with distinct labels, the
    table is admissible: it has an EnrollmentCount column; no other
    text column has rows without any value; StartDate is there whenever
    a duration has to be computed from CompletionDate; Phase,
    StudyDesign and LocationCountry are text where present; there is
    something to describe among the temporal and among the binary
    features; a table with a text column has a row; and a table with a
    duration has a text column or a status to predict. *)
Theorem run_needs_admissible_input {conv : Conversions} n df clean modeling :
  frame_ok n df ->
  feature_engineering df = Ok (clean, modeling) ->
  admissible n df.
Proof.
  exact (runs_admissible n df clean modeling).
Qed.

Lemma run_needs_admissible_input_witness :
  exists clean modeling,
    feature_engineering (conv := Reader.conversions) trials = Ok (clean, modeling)
    /\ admissible 3 trials.
Proof.
  destruct (feature_engineering (conv := Reader.conversions) trials)
    as [[clean modeling] | e] eqn:Hrun; [| vm_compute in Hrun; discriminate].
  exists clean, modeling. split; [reflexivity |].
  apply (run_needs_admissible_input (conv := Reader.conversions) 3 trials clean modeling);
    [split; [distinct_labels | repeat constructor] | exact Hrun].
Defined.

(** X24.  For each target that is there, the last cell pairs the
    target column with a feature matrix that holds columns of the
    modeling table as they are: the candidate features and the text
    length columns that are available, in that order, and never a
    target column.  Both predictions use the same feature columns. *)
Theorem prediction_datasets_spec b d completion duration :
  prepare_cell b d = Ok (completion, duration) ->
  let features :=
    filter (fun col => has_column col d) (candidate_features ++ text_length_cols d) in
  (forall X y, completion = Some (X, y) ->
     columns X = features /\ get_column "completion_status" d = Some y)
  /\ (forall X y, duration = Some (X, y) ->
        columns X = features /\ get_column "trial_duration_days" d = Some y)
  /\ (forall X y c v, completion = Some (X, y) \/ duration = Some (X, y) ->
        get_column c X = Some v -> get_column c d = Some v)
  /\ ~ In "completion_status" features
  /\ ~ In "trial_duration_days" features.
Proof.
  intros H features. unfold prepare_cell in H. fold features in H.
  apply bind_ok in H. destruct H as (c0 & Hc & H).
  apply bind_ok in H. destruct H as (d0 & Hd & H). injection H as <- <-.
  assert (Hcs : forall X y, c0 = Some (X, y) ->
            select_columns features d = Ok X
            /\ get_column "completion_status" d = Some y).
  { intros X y E. subst c0. destruct (has_column "completion_status" d); [| discriminate].
    do 2 inv_bind Hc. injection Hc as <- <-. apply getitem_ok in H0. auto. }
  assert (Hds : forall X y, d0 = Some (X, y) ->
            select_columns features d = Ok X
            /\ get_column "trial_duration_days" d = Some y).
  { intros X y E. subst d0. destruct (has_column "trial_duration_days" d); [| discriminate].
    destruct (b || has_column "completion_status" d); [| discriminate].
    do 2 inv_bind Hd. injection Hd as <- <-. apply getitem_ok in H0. auto. }
  split; [| split; [| split; [| split]]].
  - intros X y E. destruct (Hcs X y E) as [Hs Hy].
    split; [exact (columns_select _ _ _ Hs) | exact Hy].
  - intros X y E. destruct (Hds X y E) as [Hs Hy].
    split; [exact (columns_select _ _ _ Hs) | exact Hy].
  - intros X y c v [E | E] G.
    + exact (select_columns_get _ _ _ _ _ (proj1 (Hcs X y E)) G).
    + exact (select_columns_get _ _ _ _ _ (proj1 (Hds X y E)) G).
  - apply feature_list_no_target; reflexivity.
  - apply feature_list_no_target; reflexivity.
Qed.

Lemma prediction_datasets_spec_witness :
  exists clean modeling X y duration,
    feature_engineering (conv := Reader.conversions) trials = Ok (clean, modeling)
    /\ prepare_cell true modeling = Ok (Some (X, y), duration)
    /\ columns X = ["EnrollmentCount"; "start_year"; "is_phase_1"; "is_phase_2";
                    "is_phase_3"; "is_phase_4"; "BriefTitle_length"]
    /\ get_column "completion_status" modeling = Some y.
Proof.
  destruct (feature_engineering (conv := Reader.conversions) trials)
    as [[clean modeling] | e] eqn:Hrun; [| vm_compute in Hrun; discriminate].
  exists clean, modeling.
  vm_compute in Hrun. injection Hrun as <- <-.
  match goal with
  | |- context [prepare_cell true ?m] =>
      destruct (prepare_cell true m) as [[[[X y] |] duration] | e] eqn:Hp;
        [| vm_compute in Hp; discriminate | vm_compute in Hp; discriminate]
  end.
  exists X, y, duration. split; [reflexivity |]. split; [reflexivity |].
  destruct (prediction_datasets_spec _ _ _ _ Hp) as (Hc & _).
  destruct (Hc X y eq_refl) as [Ec Ey]. split; [| exact Ey].
  rewrite Ec. reflexivity.
Defined.

(** X25.  With a StartDate column in the input, the cleaned table holds
    the parsed start dates, and start_year, start_month and
    start_quarter hold, row by row, the year, month and quarter of that
    date; where the date did not parse they are missing, and stay
    missing: imputation has run before they are derived. *)
Theorem start_features_follow_dates {conv : Conversions} n df clean modeling :
  frame_ok n df ->
  feature_engineering df = Ok (clean, modeling) ->
  has_column "StartDate" df = true ->
  exists ts ys ms qs,
    get_column "StartDate" clean = Some (DateCol ts)
    /\ get_column "start_year" clean = Some (NumCol ys)
    /\ get_column "start_month" clean = Some (NumCol ms)
    /\ get_column "start_quarter" clean = Some (NumCol qs)
    /\ Forall2 (field_of dt_year) ts ys
    /\ Forall2 (field_of dt_month) ts ms
    /\ Forall2 (field_of dt_quarter) ts qs.
Proof.
  intros Hok H Hs.
  pose proof (first_pass_engineered n df clean modeling Hok H) as Heng.
  pose proof (feature_engineering_grows df clean modeling (proj1 Hok) H _ Hs) as Hc.
  destruct (eng_start n clean Heng Hc) as (ts & Gs & Gy & Gm & Gq).
  destruct (dt_field_of dt_year ts) as (ys & Ey & Fy).
  destruct (dt_field_of dt_month ts) as (ms & Em & Fm).
  destruct (dt_field_of dt_quarter ts) as (qs & Eq & Fq).
  exists ts, ys, ms, qs. rewrite <- Ey, <- Em, <- Eq. auto 10.
Qed.

Lemma start_features_follow_dates_witness :
  exists clean modeling ts,
    feature_engineering (conv := Reader.conversions) enrollment = Ok (clean, modeling)
    /\ get_column "StartDate" enrollment
       = Some (ObjCol [Some "2019-05-01"; Some "2020-03-01"; Some "n/a"; Some "2021-07-15"])
    /\ get_column "StartDate" clean = Some (DateCol ts)
    /\ get_column "start_year" clean = Some (NumCol [num 2019; num 2020; None; num 2021])
    /\ Forall2 (field_of dt_year) ts [num 2019; num 2020; None; num 2021].
Proof.
  destruct (feature_engineering (conv := Reader.conversions) enrollment)
    as [[clean modeling] | e] eqn:Hrun; [| vm_compute in Hrun; discriminate].
  assert (Hok : frame_ok 4 enrollment) by (split; [distinct_labels | repeat constructor]).
  destruct (start_features_follow_dates (conv := Reader.conversions) 4 enrollment
              clean modeling Hok Hrun eq_refl)
    as (ts & ys & ms & qs & Gs & Gy & _ & _ & Fy & _).
  exists clean, modeling, ts. split; [reflexivity |]. split; [reflexivity |].
  split; [exact Gs |].
  vm_compute in Hrun. injection Hrun as <- <-.
  injection Gy as <-. split; [reflexivity | exact Fy].
Defined.
